(** * dash_CR: cart-to-ledger commit of the purchase register

    A shallow embedding of [dash_CR.py]: the master workbook
    [CR_Control.xlsx] (one row per product and size), the cart kept in the
    Streamlit session, the screens of [main], the dated sale workbooks, the
    handler of the button "Confirmar y Guardar Compra", and what the
    dashboard reads back.

    Conventions.
    - A DataFrame is the list of its rows, in order; two rows may carry the
      same (Producto, Talla), and the code then updates both.
    - A cell of a text column is what [pd.read_excel] returns for it: its
      text, or NaN for a blank cell and for the texts pandas reads as
      missing ("N/A" among them).  [==] is false on NaN, on both sides.
    - The cells of the quantity columns are whole numbers ([Z]); the 64-bit
      range of a pandas column is not modelled.  'Costo' and 'Ganancia' are
      carried as whole numbers too, but only through the products the code
      forms and through equality: no amount is ever added to another, and
      nothing that is proved rests on a law of arithmetic on amounts.
    - The working directory is split in two: the master workbook, and every
      other entry, keyed by file name.  The names the code probes start with
      the digits of [strftime("%Y-%m-%d")], so they never denote the master
      workbook.
    - Whether a [to_excel] completes is an input ([Entorno]).  A failed
      write of a sale workbook may leave a file under the name it was given,
      whole, truncated or unreadable; what it leaves is an input too.  A
      failed write of the master workbook leaves it as it was. *)

From Stdlib Require Import ZArith Lia.
From stdpp Require Import base option list strings pretty gmap.

(** ** Tables *)

(** A cell of a text column. *)
Inductive Celda :=
  | NaN
  | Texto (texto : string).

Coercion Texto : string >-> Celda.

Global Instance Celda_eq_dec : EqDecision Celda := ltac:(solve_decision).

(** [==] on two cells. *)
Definition igual (a b : Celda) : bool :=
  match a, b with
  | Texto x, Texto y => bool_decide (x = y)
  | _, _ => false
  end.

(** [==] of a cell with a value kept in the session, which is [None] until
    a button sets it. *)
Definition igual_a (a : Celda) (valor : option Celda) : bool :=
  match valor with
  | Some b => igual a b
  | None => false
  end.

(** A row of [CR_Control.xlsx]. *)
Record FilaMaestro := {
  m_Producto : Celda;
  m_SKU : Celda;
  m_Talla : Celda;
  m_Costo : Z;
  m_Cantidad_inicial : Z;
  m_Cantidad_vendida : Z;
  m_Ganancia : Z;
  m_Cantidad_sobrante : Z
}.

(** An entry of [st.session_state.carrito] (the dict [nuevo_articulo]). *)
Record Articulo := {
  c_Producto : Celda;
  c_SKU : Celda;
  c_Talla : Celda;
  c_Cantidad : Z;
  c_Cantidad_Vendida : Z;
  c_Costo : Z;
  c_Ganancia : Z
}.

(** A row of a sale workbook, columns in the order of [columnas_orden]. *)
Record FilaVenta := {
  v_Producto : Celda;
  v_SKU : Celda;
  v_Talla : Celda;
  v_Cantidad_Vendida : Z;
  v_Costo : Z;
  v_Ganancia : Z;
  v_Fecha : string
}.

Global Instance FilaMaestro_eq_dec : EqDecision FilaMaestro := ltac:(solve_decision).
Global Instance Articulo_eq_dec : EqDecision Articulo := ltac:(solve_decision).
Global Instance FilaVenta_eq_dec : EqDecision FilaVenta := ltac:(solve_decision).

(** ** The update of the master table ([actualizar_archivo_maestro], loop) *)

Module Maestro.

(** [mask] of one row: same Producto and same Talla as the cart entry. *)
Definition mask (compra : Articulo) (fila : FilaMaestro) : bool :=
  igual (m_Producto fila) (c_Producto compra)
  && igual (m_Talla fila) (c_Talla compra).

(** The three assignments through [df_maestro.loc[mask, ...]], on one row:
    'Cantidad vendida' first, then 'Ganancia' and 'Cantidad sobrante' from
    the new 'Cantidad vendida'. *)
Definition actualizar_fila (compra : Articulo) (fila : FilaMaestro) : FilaMaestro :=
  if mask compra fila then
    let vendida := (m_Cantidad_vendida fila + c_Cantidad compra)%Z in
    {| m_Producto := m_Producto fila;
       m_SKU := m_SKU fila;
       m_Talla := m_Talla fila;
       m_Costo := m_Costo fila;
       m_Cantidad_inicial := m_Cantidad_inicial fila;
       m_Cantidad_vendida := vendida;
       m_Ganancia := (vendida * m_Costo fila)%Z;
       m_Cantidad_sobrante := (m_Cantidad_inicial fila - vendida)%Z |}
  else fila.

(** One turn of [for compra in compras_realizadas], with its [if mask.any()]. *)
Definition aplicar_compra (df_maestro : list FilaMaestro) (compra : Articulo)
  : list FilaMaestro :=
  if existsb (mask compra) df_maestro
  then actualizar_fila compra <$> df_maestro
  else df_maestro.

(** The whole loop. *)
Definition aplicar_compras (compras_realizadas : list Articulo)
    (df_maestro : list FilaMaestro) : list FilaMaestro :=
  foldl aplicar_compra df_maestro compras_realizadas.

(** What the loop does to a single row: the updates of the cart entries,
    in cart order. *)
Definition fila_tras (compras : list Articulo) (fila : FilaMaestro) : FilaMaestro :=
  foldl (fun f compra => actualizar_fila compra f) fila compras.

(** Units of the cart that hit a given row. *)
Definition cantidad_pedida (compras : list Articulo) (fila : FilaMaestro) : Z :=
  foldr (fun compra acc => if mask compra fila then (c_Cantidad compra + acc)%Z else acc)
        0%Z compras.

(** The columns the loop never assigns agree on two rows. *)
Definition mismas_fijas (fila fila' : FilaMaestro) : Prop :=
  m_Producto fila' = m_Producto fila ∧ m_SKU fila' = m_SKU fila
  ∧ m_Talla fila' = m_Talla fila ∧ m_Costo fila' = m_Costo fila
  ∧ m_Cantidad_inicial fila' = m_Cantidad_inicial fila.

(** The formulas of the derived columns. *)
Definition derivadas_ok (fila : FilaMaestro) : Prop :=
  m_Cantidad_sobrante fila = (m_Cantidad_inicial fila - m_Cantidad_vendida fila)%Z
  ∧ m_Ganancia fila = (m_Cantidad_vendida fila * m_Costo fila)%Z.

End Maestro.

(** ** The working directory and the environment of one run *)

(** The reads of the master workbook and the writes of the sale path, in
    the order they happen; the flag of a write tells whether [to_excel]
    completed. *)
Inductive Operacion :=
  | LeerMaestro
  | EscribirMaestro (completa : bool)
  | EscribirVenta (nombre : string) (completa : bool).

Global Instance Operacion_eq_dec : EqDecision Operacion := ltac:(solve_decision).

Record Mundo := {
  CR_Control : option (list FilaMaestro);
  directorio : gmap string (list FilaVenta);
  bitacora : list Operacion
}.

(** What a run takes from outside: the two readings of
    [datetime.now().strftime("%Y-%m-%d")] in [guardar_compra_excel] (the
    'Fecha' column, then the file name), the outcome of each [to_excel],
    and what a failed write of the sale workbook leaves under its name:
    nothing, or a file.  Of such a file only the rows a later
    [pd.read_excel] gets from it matter (none when the file is unreadable:
    [cargar_datos_ventas] passes over it). *)
Record Entorno := {
  fecha_columna : string;
  fecha_nombre : string;
  to_excel_venta : bool;
  to_excel_maestro : bool;
  resto_venta : option (list FilaVenta)
}.

Definition anotar (op : Operacion) (w : Mundo) : Mundo :=
  {| CR_Control := CR_Control w;
     directorio := directorio w;
     bitacora := bitacora w ++ [op] |}.

(** [pd.read_excel("CR_Control.xlsx")]: the stored table as it is, or a
    raised exception ([None]) when the workbook is missing or unreadable. *)
Definition read_excel_maestro (w : Mundo) : option (list FilaMaestro) * Mundo :=
  (CR_Control w, anotar LeerMaestro w).

(** [cargar_archivo_maestro]: both [except] branches return [None]. *)
Definition cargar_archivo_maestro (w : Mundo) : option (list FilaMaestro) * Mundo :=
  read_excel_maestro w.

(** [actualizar_archivo_maestro]: read, loop, [to_excel], [True]; any
    exception gives [False]. *)
Definition actualizar_archivo_maestro (env : Entorno)
    (compras_realizadas : list Articulo) (w : Mundo) : bool * Mundo :=
  match read_excel_maestro w with
  | (None, w1) => (false, w1)
  | (Some df_maestro, w1) =>
      let df_nuevo := Maestro.aplicar_compras compras_realizadas df_maestro in
      if to_excel_maestro env then
        (true, {| CR_Control := Some df_nuevo;
                  directorio := directorio w1;
                  bitacora := bitacora w1 ++ [EscribirMaestro true] |})
      else (false, anotar (EscribirMaestro false) w1)
  end.

(** ** Sale workbooks *)

Module Venta.

Definition os_path_exists (dir : gmap string (list FilaVenta)) (nombre : string) : bool :=
  bool_decide (is_Some (dir !! nombre)).

(** [f"{fecha_hoy}.xlsx"] and [f"{fecha_hoy}_{contador}.xlsx"]. *)
Definition nombre_base (fecha_hoy : string) : string := fecha_hoy +:+ ".xlsx".
Definition nombre_numerado (fecha_hoy : string) (contador : nat) : string :=
  fecha_hoy +:+ "_" +:+ pretty contador +:+ ".xlsx".

(** The [while True] loop, with a bound on the number of turns. *)
Fixpoint sondear (dir : gmap string (list FilaVenta)) (fecha_hoy : string)
    (vueltas contador : nat) : option string :=
  match vueltas with
  | O => None
  | S vueltas' =>
      let nombre_archivo := nombre_numerado fecha_hoy contador in
      if os_path_exists dir nombre_archivo
      then sondear dir fecha_hoy vueltas' (S contador)
      else Some nombre_archivo
  end.

(** [generar_nombre_archivo]; one turn more than there are entries in the
    directory is always enough ([sondear_termina] below). *)
Definition generar_nombre_archivo (dir : gmap string (list FilaVenta))
    (fecha_hoy : string) : option string :=
  if os_path_exists dir (nombre_base fecha_hoy)
  then sondear dir fecha_hoy (S (size dir)) 1
  else Some (nombre_base fecha_hoy).

(** A row of [df_compra] after the 'Fecha' column is set and the columns
    are reordered. *)
Definition fila_venta (fecha : string) (a : Articulo) : FilaVenta :=
  {| v_Producto := c_Producto a;
     v_SKU := c_SKU a;
     v_Talla := c_Talla a;
     v_Cantidad_Vendida := c_Cantidad_Vendida a;
     v_Costo := c_Costo a;
     v_Ganancia := c_Ganancia a;
     v_Fecha := fecha |}.

Definition df_compra (fecha : string) (compras : list Articulo) : list FilaVenta :=
  fila_venta fecha <$> compras.

(** The directory after a [to_excel] to [nombre_archivo] that raised. *)
Definition escritura_fallida (resto : option (list FilaVenta))
    (nombre_archivo : string) (dir : gmap string (list FilaVenta))
  : gmap string (list FilaVenta) :=
  match resto with
  | Some filas => <[nombre_archivo := filas]> dir
  | None => dir
  end.

End Venta.

(** [guardar_compra_excel].  An empty list gives a frame without the
    columns of [columnas_orden], so the selection raises before any name is
    generated; a failed [to_excel] also ends in [return None], whatever it
    left under the name. *)
Definition guardar_compra_excel (env : Entorno)
    (compras_realizadas : list Articulo) (w : Mundo) : option string * Mundo :=
  match compras_realizadas with
  | [] => (None, w)
  | _ :: _ =>
      match Venta.generar_nombre_archivo (directorio w) (fecha_nombre env) with
      | None => (None, w)
      | Some nombre_archivo =>
          if to_excel_venta env then
            (Some nombre_archivo,
             {| CR_Control := CR_Control w;
                directorio := <[nombre_archivo :=
                                 Venta.df_compra (fecha_columna env) compras_realizadas]>
                              (directorio w);
                bitacora := bitacora w ++ [EscribirVenta nombre_archivo true] |})
          else
            (None,
             {| CR_Control := CR_Control w;
                directorio := Venta.escritura_fallida (resto_venta env) nombre_archivo
                                (directorio w);
                bitacora := bitacora w ++ [EscribirVenta nombre_archivo false] |})
      end
  end.

(** ** The session and the two handlers that change the cart *)

Inductive Estado :=
  | en_inicio
  | en_seleccionar_producto
  | en_seleccionar_talla
  | en_confirmar_articulo
  | en_carrito
  | en_finalizar_compra.

Global Instance Estado_eq_dec : EqDecision Estado := ltac:(solve_decision).

Record Sesion := {
  estado : Estado;
  carrito : list Articulo;
  producto_seleccionado : option Celda;
  talla_seleccionada : option Celda;
  mostrar_dashboard : bool
}.

Definition con_estado (e : Estado) (s : Sesion) : Sesion :=
  {| estado := e;
     carrito := carrito s;
     producto_seleccionado := producto_seleccionado s;
     talla_seleccionada := talla_seleccionada s;
     mostrar_dashboard := mostrar_dashboard s |}.

Definition con_carrito (c : list Articulo) (s : Sesion) : Sesion :=
  {| estado := estado s;
     carrito := c;
     producto_seleccionado := producto_seleccionado s;
     talla_seleccionada := talla_seleccionada s;
     mostrar_dashboard := mostrar_dashboard s |}.

Module Pantalla.

(** The row selected on the screen 'confirmar_articulo': the first row of
    the filtered frame ([.iloc[0]]); [None] stands for its IndexError. *)
Definition articulo_info (df_maestro : list FilaMaestro) (s : Sesion)
  : option FilaMaestro :=
  head (filter (fun fila =>
                  igual_a (m_Producto fila) (producto_seleccionado s)
                  && igual_a (m_Talla fila) (talla_seleccionada s) = true)
               df_maestro).

(** [st.number_input(min_value, max_value, value)]: the widget returns the
    number the operator keyed when it lies within the bounds; a number
    outside them is not taken, and the widget returns its [value]. *)
Definition number_input (min_value max_value value tecleado : Z) : Z :=
  if bool_decide (min_value ≤ tecleado ≤ max_value)%Z then tecleado else value.

Definition nuevo_articulo (info : FilaMaestro) (cantidad : Z) : Articulo :=
  {| c_Producto := m_Producto info;
     c_SKU := m_SKU info;
     c_Talla := m_Talla info;
     c_Cantidad := cantidad;
     c_Cantidad_Vendida := cantidad;
     c_Costo := m_Costo info;
     c_Ganancia := (cantidad * m_Costo info)%Z |}.

(** Screen 'confirmar_articulo' with the button "Agregar Artículo a la
    Compra" pressed, [df_maestro] being the table loaded by this run.  The
    outer [None] is the uncaught IndexError of [.iloc[0]]; without stock
    the screen shows neither the input nor the button. *)
Definition agregar_articulo (df_maestro : list FilaMaestro) (tecleado : Z)
    (s : Sesion) : option Sesion :=
  match articulo_info df_maestro s with
  | None => None
  | Some info =>
      let cantidad_maxima := m_Cantidad_sobrante info in
      if bool_decide (cantidad_maxima > 0)%Z then
        let cantidad := number_input 1 cantidad_maxima 1 tecleado in
        Some (con_estado en_carrito
                (con_carrito (carrito s ++ [nuevo_articulo info cantidad]) s))
      else Some s
  end.

End Pantalla.

(** What the run of [main] with "Confirmar y Guardar Compra" pressed shows. *)
Inductive Resultado :=
  | SinMaestro
  | SinBoton
  | ErrorGuardar
  | ErrorActualizar (nombre_archivo : string)
  | CompraGuardada (nombre_archivo : string).

Global Instance Resultado_eq_dec : EqDecision Resultado := ltac:(solve_decision).

(** One run of [main] in which the operator presses "Confirmar y Guardar
    Compra": the table is loaded, the dashboard and the other screens leave,
    an empty cart shows no button; then the sale workbook is saved and, only
    if a name came back, the master workbook is updated; the cart is emptied
    only when both succeeded.  (The dashboard loads the table once more.) *)
Definition confirmar_y_guardar (env : Entorno) (s : Sesion) (w : Mundo)
  : Resultado * Sesion * Mundo :=
  match cargar_archivo_maestro w with
  | (df_maestro, w0) =>
      if mostrar_dashboard s then (SinBoton, s, snd (cargar_archivo_maestro w0))
      else match df_maestro with
      | None => (SinMaestro, s, w0)
      | Some _ =>
          if bool_decide (estado s = en_finalizar_compra) then
            match carrito s with
            | [] => (SinBoton, s, w0)
            | _ :: _ =>
                match guardar_compra_excel env (carrito s) w0 with
                | (Some nombre_archivo, w1) =>
                    match actualizar_archivo_maestro env (carrito s) w1 with
                    | (true, w2) =>
                        (CompraGuardada nombre_archivo,
                         con_estado en_inicio (con_carrito [] s), w2)
                    | (false, w2) => (ErrorActualizar nombre_archivo, s, w2)
                    end
                | (None, w1) => (ErrorGuardar, s, w1)
                end
            end
          else (SinBoton, s, w0)
      end
  end.

(** One run of [main] on the screen 'confirmar_articulo' with "Agregar
    Artículo a la Compra" pressed: the table the screen works on is the one
    [cargar_archivo_maestro] just returned. *)
Definition pulsar_agregar (tecleado : Z) (s : Sesion) (w : Mundo)
  : option Sesion * Mundo :=
  match cargar_archivo_maestro w with
  | (df_maestro, w0) =>
      if mostrar_dashboard s then (Some s, snd (cargar_archivo_maestro w0))
      else match df_maestro with
      | None => (Some s, w0)
      | Some df =>
          if bool_decide (estado s = en_confirmar_articulo)
          then (Pantalla.agregar_articulo df tecleado s, w0)
          else (Some s, w0)
      end
  end.

(** ** Runs in sequence, and the properties of a table *)

(** Several confirmations one after the other; the operator rebuilds the
    session between two of them. *)
Fixpoint compras_sucesivas (corridas : list (Entorno * Sesion)) (w : Mundo) : Mundo :=
  match corridas with
  | [] => w
  | (env, s) :: resto => compras_sucesivas resto (confirmar_y_guardar env s w).2
  end.

Definition en_libro (P : FilaMaestro → Prop) (w : Mundo) : Prop :=
  match CR_Control w with
  | Some df_maestro => Forall P df_maestro
  | None => True
  end.

(** Every row obeys the formulas of 'Cantidad sobrante' and 'Ganancia'. *)
Definition libro_ok : Mundo → Prop := en_libro Maestro.derivadas_ok.

(** No row shows a negative 'Cantidad sobrante'. *)
Definition sin_sobreventa : Mundo → Prop :=
  en_libro (fun fila => (0 ≤ m_Cantidad_sobrante fila)%Z).

(** The units a cart asks of each row are in stock. *)
Definition abastecido (compras : list Articulo) : Mundo → Prop :=
  en_libro (fun fila => (Maestro.cantidad_pedida compras fila ≤ m_Cantidad_sobrante fila)%Z).

Fixpoint todas_abastecidas (corridas : list (Entorno * Sesion)) (w : Mundo) : Prop :=
  match corridas with
  | [] => True
  | (env, s) :: resto =>
      abastecido (carrito s) w
      ∧ todas_abastecidas resto (confirmar_y_guardar env s w).2
  end.

(** Every run of the list ends with the purchase saved. *)
Fixpoint todas_guardadas (corridas : list (Entorno * Sesion)) (w : Mundo) : Prop :=
  match corridas with
  | [] => True
  | (env, s) :: resto =>
      (∃ nombre, (confirmar_y_guardar env s w).1.1 = CompraGuardada nombre)
      ∧ todas_guardadas resto (confirmar_y_guardar env s w).2
  end.

(** The formulas together with a stock that is not negative. *)
Definition derivadas_y_existencias : Mundo → Prop :=
  en_libro (fun fila => Maestro.derivadas_ok fila ∧ (0 ≤ m_Cantidad_sobrante fila)%Z).

(** [actualizar_archivo_maestro] run a second time with the same cart. *)
Definition actualizar_dos_veces (env : Entorno) (compras : list Articulo)
    (w : Mundo) : Mundo :=
  (actualizar_archivo_maestro env compras
     (actualizar_archivo_maestro env compras w).2).2.

(** Row by row, the second table shows the units of the cart sold once more. *)
Definition vendida_otra_vez (compras : list Articulo)
    (una dos : option (list FilaMaestro)) : Prop :=
  match una, dos with
  | Some df1, Some df2 =>
      Forall2 (fun fila1 fila2 =>
                 m_Cantidad_vendida fila2
                 = (m_Cantidad_vendida fila1 + Maestro.cantidad_pedida compras fila1)%Z)
              df1 df2
  | None, None => True
  | _, _ => False
  end.

(** The cart entries whose key is in the table. *)
Definition presentes (df_maestro : list FilaMaestro) (compras : list Articulo)
  : list Articulo :=
  filter (fun compra => existsb (Maestro.mask compra) df_maestro = true) compras.

(** The file operations a run added to the log. *)
Definition sin_escritura_maestro (ops : list Operacion) : Prop :=
  ∀ completa, EscribirMaestro completa ∉ ops.

Definition venta_antes_que_maestro (ops : list Operacion) : Prop :=
  ∀ antes completa despues,
    ops = antes ++ EscribirMaestro completa :: despues →
    ∃ nombre, EscribirVenta nombre true ∈ antes.

(** The state in which a run called [actualizar_archivo_maestro]: the sale
    workbook of the cart is in the directory, under a name that was free
    when the run began; every other entry of the directory and the master
    table are what they were. *)
Definition venta_ya_guardada (env : Entorno) (s : Sesion) (w : Mundo)
    (nombre : string) (w1 : Mundo) : Prop :=
  directorio w !! nombre = None
  ∧ directorio w1
    = <[nombre := Venta.df_compra (fecha_columna env) (carrito s)]> (directorio w)
  ∧ CR_Control w1 = CR_Control w.

(** What a failed write of the sale workbook can do to the directory:
    nothing, or leave a file under a name that was free. *)
Definition a_lo_sumo_un_resto (dir dir' : gmap string (list FilaVenta)) : Prop :=
  dir' = dir
  ∨ ∃ nombre filas, dir !! nombre = None ∧ dir' = <[nombre := filas]> dir.

(** Two runs end the same way, the name of the sale workbook apart. *)
Definition mismo_desenlace (r r' : Resultado) : Prop :=
  match r, r' with
  | SinMaestro, SinMaestro | SinBoton, SinBoton | ErrorGuardar, ErrorGuardar
  | ErrorActualizar _, ErrorActualizar _ | CompraGuardada _, CompraGuardada _ => True
  | _, _ => False
  end.

(** The loop leaves the fixed columns of every row alone, and the whole
    row when no entry of the cart has its key. *)
Definition marco (compras : list Articulo) (df df' : list FilaMaestro) : Prop :=
  Forall2 (fun fila fila' =>
             Maestro.mismas_fijas fila fila'
             ∧ (Forall (fun compra => Maestro.mask compra fila = false) compras →
                fila' = fila)) df df'.

Definition marco_libro (compras : list Articulo)
    (antes despues : option (list FilaMaestro)) : Prop :=
  match antes, despues with
  | Some df, Some df' => marco compras df df'
  | None, None => True
  | _, _ => False
  end.

(** What the loop does to a row, seen from the row before and after: a row
    hit by some entry of the cart has its derived columns computed afresh,
    a row hit by none is not touched. *)
Definition recalculo (compras : list Articulo) (df df' : list FilaMaestro) : Prop :=
  Forall2 (fun fila fila' =>
             (Exists (fun compra => Maestro.mask compra fila = true) compras →
              Maestro.derivadas_ok fila')
             ∧ (Forall (fun compra => Maestro.mask compra fila = false) compras →
                fila' = fila)) df df'.

(** ** Sample data *)

Module Muestra.

(** A provisioned row, derived cells filled by the formulas. *)
Definition fila (producto sku talla : string) (costo inicial vendida : Z) : FilaMaestro :=
  {| m_Producto := producto; m_SKU := sku; m_Talla := talla;
     m_Costo := costo;
     m_Cantidad_inicial := inicial;
     m_Cantidad_vendida := vendida;
     m_Ganancia := (vendida * costo)%Z;
     m_Cantidad_sobrante := (inicial - vendida)%Z |}.

Definition camisa_M : FilaMaestro := fila "Camisa" "CAM-M" "M" 100 10 2.
Definition camisa_L : FilaMaestro := fila "Camisa" "CAM-L" "L" 100 4 0.

(** A cart line as [nuevo_articulo] builds it. *)
Definition linea (f : FilaMaestro) (cantidad : Z) : Articulo :=
  Pantalla.nuevo_articulo f cantidad.

Definition mundo (df_maestro : list FilaMaestro) : Mundo :=
  {| CR_Control := Some df_maestro; directorio := ∅; bitacora := [] |}.

Definition sesion (e : Estado) (c : list Articulo) : Sesion :=
  {| estado := e; carrito := c;
     producto_seleccionado := None; talla_seleccionada := None;
     mostrar_dashboard := false |}.

Definition eligiendo (producto talla : string) (c : list Articulo) : Sesion :=
  {| estado := en_confirmar_articulo; carrito := c;
     producto_seleccionado := Some (Texto producto);
     talla_seleccionada := Some (Texto talla);
     mostrar_dashboard := false |}.

(** A day on which a failed write of a sale workbook leaves nothing. *)
Definition dia (ok_venta ok_maestro : bool) : Entorno :=
  {| fecha_columna := "2025-03-14"; fecha_nombre := "2025-03-14";
     to_excel_venta := ok_venta; to_excel_maestro := ok_maestro;
     resto_venta := None |}.

(** A day on which the write of the sale workbook fails and leaves an
    unreadable file. *)
Definition dia_con_resto : Entorno :=
  {| fecha_columna := "2025-03-14"; fecha_nombre := "2025-03-14";
     to_excel_venta := false; to_excel_maestro := true;
     resto_venta := Some [] |}.

Definition carro_3 : list Articulo := [linea camisa_M 3].

(** A row of a sale workbook written on the sample day. *)
Definition vendida (f : FilaMaestro) (cantidad : Z) : FilaVenta :=
  Venta.fila_venta "2025-03-14" (linea f cantidad).

(** The sample world after [carro_3] went through with both writes done. *)
Definition mundo_tras_carro_3 : Mundo :=
  {| CR_Control :=
       Some [ {| m_Producto := "Camisa"; m_SKU := "CAM-M"; m_Talla := "M";
                 m_Costo := 100; m_Cantidad_inicial := 10;
                 m_Cantidad_vendida := 5; m_Ganancia := 500;
                 m_Cantidad_sobrante := 5 |} ];
     directorio :=
       {[ "2025-03-14.xlsx" :=
            [ {| v_Producto := "Camisa"; v_SKU := "CAM-M"; v_Talla := "M";
                 v_Cantidad_Vendida := 3; v_Costo := 100; v_Ganancia := 300;
                 v_Fecha := "2025-03-14" |} ] ]};
     bitacora := [LeerMaestro; EscribirVenta "2025-03-14.xlsx" true;
                  LeerMaestro; EscribirMaestro true] |}.

(** The sample world after a run whose write of the sale workbook failed
    and left an unreadable file. *)
Definition mundo_con_resto : Mundo :=
  {| CR_Control := Some [camisa_M];
     directorio := {[ "2025-03-14.xlsx" := [] ]};
     bitacora := [LeerMaestro; EscribirVenta "2025-03-14.xlsx" false] |}.

Definition carro_5 : list Articulo := [linea camisa_M 5].
Definition carro_9 : list Articulo := [linea camisa_M 9].

(** (Camisa, L) with its derived cells edited by hand in the workbook. *)
Definition camisa_L_retocada : FilaMaestro :=
  {| m_Producto := "Camisa"; m_SKU := "CAM-L"; m_Talla := "L";
     m_Costo := 100; m_Cantidad_inicial := 4; m_Cantidad_vendida := 0;
     m_Ganancia := 7; m_Cantidad_sobrante := 40 |}.

(** (Camisa, M) with 5 units provisioned and none sold. *)
Definition camisa_M_5 : FilaMaestro := fila "Camisa" "CAM-M" "M" 100 5 0.

(** A product the sample table does not list. *)
Definition gorra_U : FilaMaestro := fila "Gorra" "GOR-U" "U" 50 3 0.



(** (Camisa, M) with 'Cantidad sobrante' and 'Ganancia' edited by hand:
    10 initial and 2 sold, yet 50 shown as left. *)
Definition camisa_M_retocada : FilaMaestro :=
  {| m_Producto := "Camisa"; m_SKU := "CAM-M"; m_Talla := "M";
     m_Costo := 100; m_Cantidad_inicial := 10; m_Cantidad_vendida := 2;
     m_Ganancia := 0; m_Cantidad_sobrante := 50 |}.

(** Two entries of 3 units of (Camisa, M), and the three runs that build
    and confirm such a cart against 5 units in stock: the operator adds 3
    units, comes back to the same row and adds 3 more, then confirms. *)
Definition dos_lineas : list Articulo := [linea camisa_M_5 3; linea camisa_M_5 3].

Definition tras_primera : option Sesion * Mundo :=
  pulsar_agregar 3 (eligiendo "Camisa" "M" []) (mundo [camisa_M_5]).

Definition tras_segunda : option Sesion * Mundo :=
  pulsar_agregar 3
    (con_estado en_confirmar_articulo (default (sesion en_inicio []) tras_primera.1))
    tras_primera.2.

Definition tras_confirmar : Resultado * Sesion * Mundo :=
  confirmar_y_guardar (dia true true)
    (con_estado en_finalizar_compra (default (sesion en_inicio []) tras_segunda.1))
    tras_segunda.2.

(** A cart whose first entry has a key the table [camisa_M] alone lacks. *)
Definition carro_con_ausente : list Articulo := [linea gorra_U 1; linea camisa_M 3].

End Muestra.

(** ** Sizes in display order ([ordenar_tallas]) and low stock *)

(** The values [ordenar_tallas] and [unique()] meet: plain strings, or the
    cells of a column.  [literal] is the value of a string literal among
    them.  Equality of two values is what [in] tests on a list; a missing
    cell of a text column is the one object [np.nan], which [in] finds by
    identity. *)
Class Valores (A : Type) := literal : string → A.

Global Instance valores_string : Valores string := fun texto => texto.
Global Instance valores_celda : Valores Celda := Texto.

Module Tallas.

Definition orden_tallas : list string :=
  ["XS"; "S"; "M"; "L"; "XL"; "2XL"; "3XL"; "4XL"; "5XL"].

(** The first loop: the sizes of [orden_tallas] that are in [tallas], in
    the order of [orden_tallas]. *)
Definition tallas_en_orden {A} `{Valores A} `{EqDecision A} (tallas : list A)
  : list A :=
  foldl (fun tallas_ordenadas talla_orden =>
           if decide (literal talla_orden ∈ tallas)
           then tallas_ordenadas ++ [literal talla_orden] else tallas_ordenadas)
        [] orden_tallas.

(** The second loop, from any list built so far: a size goes to the end
    unless it is already there. *)
Definition agregar_restantes {A} `{EqDecision A} (tallas_ordenadas tallas : list A)
  : list A :=
  foldl (fun acc talla => if decide (talla ∈ acc) then acc else acc ++ [talla])
        tallas_ordenadas tallas.

Definition ordenar_tallas {A} `{Valores A} `{EqDecision A} (tallas : list A)
  : list A :=
  agregar_restantes (tallas_en_orden tallas) tallas.

(** [Series.unique()]: the values in the order they first appear. *)
Definition unique {A} `{EqDecision A} (valores : list A) : list A :=
  foldl (fun vistos x => if decide (x ∈ vistos) then vistos else vistos ++ [x])
        [] valores.

End Tallas.

(** [verificar_stock_bajo]: the rows with 'Cantidad sobrante' at or below
    the threshold ([umbral=5] when the caller gives none). *)
Definition umbral_por_defecto : Z := 5.

Definition verificar_stock_bajo (df_maestro : list FilaMaestro) (umbral : Z)
  : list FilaMaestro :=
  filter (fun fila => (m_Cantidad_sobrante fila ≤ umbral)%Z) df_maestro.

(** ** The screens of [main] *)

Definition con_producto (p : option Celda) (s : Sesion) : Sesion :=
  {| estado := estado s;
     carrito := carrito s;
     producto_seleccionado := p;
     talla_seleccionada := talla_seleccionada s;
     mostrar_dashboard := mostrar_dashboard s |}.

Definition con_talla (t : option Celda) (s : Sesion) : Sesion :=
  {| estado := estado s;
     carrito := carrito s;
     producto_seleccionado := producto_seleccionado s;
     talla_seleccionada := t;
     mostrar_dashboard := mostrar_dashboard s |}.

Definition con_dashboard (b : bool) (s : Sesion) : Sesion :=
  {| estado := estado s;
     carrito := carrito s;
     producto_seleccionado := producto_seleccionado s;
     talla_seleccionada := talla_seleccionada s;
     mostrar_dashboard := b |}.

Module Navegacion.

(** The widget that reports a press in one run of the script; [ev_ninguno]
    is a run without any (the run that follows [st.rerun()]).  Buttons of a
    loop carry their index, the button of the quantity carries the number
    keyed into its [number_input]. *)
Inductive Evento :=
  | ev_ninguno
  | ev_sistema_de_ventas
  | ev_dashboard
  | ev_generar_nueva_compra
  | ev_producto (i : nat)
  | ev_ver_carrito
  | ev_talla (i : nat)
  | ev_regresar_a_productos
  | ev_agregar (tecleado : Z)
  | ev_cambiar_seleccion
  | ev_seleccionar_otro
  | ev_eliminar (i : nat)
  | ev_agregar_mas
  | ev_finalizar
  | ev_vaciar
  | ev_agregar_articulos
  | ev_confirmar
  | ev_regresar_al_carrito.

Global Instance Evento_eq_dec : EqDecision Evento := ltac:(solve_decision).

(** The session state as the module sets it when the keys are missing. *)
Definition sesion_inicial : Sesion :=
  {| estado := en_inicio; carrito := [];
     producto_seleccionado := None; talla_seleccionada := None;
     mostrar_dashboard := false |}.

(** [df_maestro['Producto'].unique()]. *)
Definition productos_disponibles (df_maestro : list FilaMaestro) : list Celda :=
  Tallas.unique (m_Producto <$> df_maestro).

(** [df_maestro[df_maestro['Producto'] == producto_seleccionado]['Talla'].unique()]. *)
Definition tallas_disponibles (df_maestro : list FilaMaestro) (s : Sesion)
  : list Celda :=
  Tallas.unique
    (m_Talla <$> filter (fun fila =>
                           igual_a (m_Producto fila) (producto_seleccionado s) = true)
                        df_maestro).

(** 'Cantidad sobrante' of the first row of the selected product with the
    given size; [None] stands for the IndexError of [.iloc[0]]. *)
Definition stock_talla (df_maestro : list FilaMaestro) (s : Sesion) (talla : Celda)
  : option Z :=
  m_Cantidad_sobrante
    <$> head (filter (fun fila =>
                        igual_a (m_Producto fila) (producto_seleccionado s)
                        && igual (m_Talla fila) talla = true)
                     df_maestro).

(** The loop over the size buttons, from the button of index [i] on.
    [Some] is a run that ends in the loop: at the IndexError of [.iloc[0]],
    which leaves the session as it was, or at the [st.rerun()] of the
    pressed button; a disabled button is never the pressed one.  [None] is
    a loop that runs to its end. *)
Fixpoint botones_talla (df_maestro : list FilaMaestro) (ev : Evento) (s : Sesion)
    (i : nat) (tallas_ordenadas : list Celda) : option Sesion :=
  match tallas_ordenadas with
  | [] => None
  | talla :: resto =>
      match stock_talla df_maestro s talla with
      | None => Some s
      | Some stock =>
          if bool_decide (ev = ev_talla i) && negb (bool_decide (stock = 0%Z))
          then Some (con_estado en_confirmar_articulo (con_talla (Some talla) s))
          else botones_talla df_maestro ev s (S i) resto
      end
  end.

(** The screen of the current [estado] with one of its widgets pressed; a
    widget the screen does not show (another screen's, a disabled button, a
    button after a raised exception) leaves the session as it is.  On the
    size screen [st.columns] raises on a count of 0.  The button "Confirmar
    y Guardar Compra" is handled by [confirmar_y_guardar]. *)
Definition pantalla (df_maestro : list FilaMaestro) (ev : Evento) (s : Sesion)
  : Sesion :=
  match estado s with
  | en_inicio =>
      match ev with
      | ev_generar_nueva_compra => con_estado en_seleccionar_producto s
      | _ => s
      end
  | en_seleccionar_producto =>
      match ev with
      | ev_producto i =>
          match productos_disponibles df_maestro !! i with
          | Some producto =>
              con_estado en_seleccionar_talla (con_producto (Some producto) s)
          | None => s
          end
      | ev_ver_carrito =>
          match carrito s with
          | [] => s
          | _ :: _ => con_estado en_carrito s
          end
      | _ => s
      end
  | en_seleccionar_talla =>
      let tallas_ordenadas :=
        Tallas.ordenar_tallas (tallas_disponibles df_maestro s) in
      match tallas_ordenadas with
      | [] => s
      | _ :: _ =>
          match botones_talla df_maestro ev s 0 tallas_ordenadas with
          | Some s' => s'
          | None =>
              match ev with
              | ev_regresar_a_productos => con_estado en_seleccionar_producto s
              | _ => s
              end
          end
      end
  | en_confirmar_articulo =>
      match Pantalla.articulo_info df_maestro s with
      | None => s
      | Some info =>
          if bool_decide (m_Cantidad_sobrante info > 0)%Z then
            match ev with
            | ev_agregar tecleado =>
                default s (Pantalla.agregar_articulo df_maestro tecleado s)
            | ev_cambiar_seleccion => con_estado en_seleccionar_producto s
            | _ => s
            end
          else
            match ev with
            | ev_seleccionar_otro => con_estado en_seleccionar_producto s
            | _ => s
            end
      end
  | en_carrito =>
      match carrito s with
      | [] =>
          match ev with
          | ev_agregar_articulos => con_estado en_seleccionar_producto s
          | _ => s
          end
      | _ :: _ =>
          match ev with
          | ev_eliminar i => con_carrito (delete i (carrito s)) s
          | ev_agregar_mas => con_estado en_seleccionar_producto s
          | ev_finalizar => con_estado en_finalizar_compra s
          | ev_vaciar => con_carrito [] s
          | _ => s
          end
      end
  | en_finalizar_compra =>
      match carrito s with
      | [] => s
      | _ :: _ =>
          match ev with
          | ev_regresar_al_carrito => con_estado en_carrito s
          | _ => s
          end
      end
  end.

(** One run of [main]: the table is loaded; with a table, the two buttons
    of the sidebar come first; then the dashboard, or [st.stop()] without a
    table, or the screen of the current [estado]. *)
Definition main (env : Entorno) (ev : Evento) (s : Sesion) (w : Mundo)
  : Sesion * Mundo :=
  match ev with
  | ev_confirmar =>
      ((confirmar_y_guardar env s w).1.2, (confirmar_y_guardar env s w).2)
  | _ =>
      match cargar_archivo_maestro w with
      | (None, w0) =>
          if mostrar_dashboard s then (s, (cargar_archivo_maestro w0).2) else (s, w0)
      | (Some df_maestro, w0) =>
          match ev with
          | ev_sistema_de_ventas => (con_estado en_inicio (con_dashboard false s), w0)
          | ev_dashboard => (con_dashboard true s, w0)
          | _ =>
              if mostrar_dashboard s then (s, (cargar_archivo_maestro w0).2)
              else (pantalla df_maestro ev s, w0)
          end
      end
  end.

(** Runs of the script one after the other. *)
Fixpoint correr (corridas : list (Entorno * Evento)) (s : Sesion) (w : Mundo)
  : Sesion * Mundo :=
  match corridas with
  | [] => (s, w)
  | (env, ev) :: resto => correr resto (main env ev s w).1 (main env ev s w).2
  end.

(** A cart entry that the quantity screen can have built from the table: it
    is [nuevo_articulo] of the first row whose Producto and Talla are [==]
    to its own, with a quantity between 1 and the 'Cantidad sobrante' of
    that row. *)
Definition linea_valida (df_maestro : list FilaMaestro) (c : Articulo) : Prop :=
  ∃ info,
    head (filter (fun fila => Maestro.mask c fila = true) df_maestro) = Some info
    ∧ c = Pantalla.nuevo_articulo info (c_Cantidad c)
    ∧ (1 ≤ c_Cantidad c ≤ m_Cantidad_sobrante info)%Z.

(** A table without a blank cell in Producto or in Talla. *)
Definition sin_celdas_vacias (df_maestro : list FilaMaestro) : Prop :=
  Forall (fun fila => m_Producto fila ≠ NaN ∧ m_Talla fila ≠ NaN) df_maestro.

(** What every screen can rely on. *)
Definition invariante (s : Sesion) (w : Mundo) : Prop :=
  (estado s = en_finalizar_compra → carrito s ≠ [])
  ∧ ∀ df_maestro, CR_Control w = Some df_maestro →
      (estado s = en_seleccionar_talla →
       ∃ producto, producto_seleccionado s = Some producto
                   ∧ producto ∈ productos_disponibles df_maestro)
      ∧ (estado s = en_confirmar_articulo →
         is_Some (Pantalla.articulo_info df_maestro s))
      ∧ Forall (linea_valida df_maestro) (carrito s).

(** The keys of a cart and of a table. *)
Definition claves_carrito (compras : list Articulo) : list (Celda * Celda) :=
  (fun c => (c_Producto c, c_Talla c)) <$> compras.

Definition claves_maestro (df_maestro : list FilaMaestro) : list (Celda * Celda) :=
  (fun fila => (m_Producto fila, m_Talla fila)) <$> df_maestro.

(** No cart that reaches the confirmation has two entries for one key. *)
Fixpoint confirma_sin_repetir (corridas : list (Entorno * Evento)) (s : Sesion)
    (w : Mundo) : Prop :=
  match corridas with
  | [] => True
  | (env, ev) :: resto =>
      (ev = ev_confirmar → NoDup (claves_carrito (carrito s)))
      ∧ confirma_sin_repetir resto (main env ev s w).1 (main env ev s w).2
  end.

End Navegacion.

(** A sample visit: from the start to the size screen of Camisa, to the
    quantity screen of (Camisa, M), 3 units into the cart, and on to the
    confirmation screen. *)
Module Recorrido.

Definition hoy : Entorno := Muestra.dia true true.

Definition hasta_tallas : list (Entorno * Navegacion.Evento) :=
  [(hoy, Navegacion.ev_generar_nueva_compra);
   (hoy, Navegacion.ev_producto 0)].

Definition hasta_cantidad : list (Entorno * Navegacion.Evento) :=
  [(hoy, Navegacion.ev_generar_nueva_compra);
   (hoy, Navegacion.ev_producto 0);
   (hoy, Navegacion.ev_talla 0)].

Definition hasta_carrito : list (Entorno * Navegacion.Evento) :=
  hasta_cantidad ++ [(hoy, Navegacion.ev_agregar 3)].

Definition hasta_confirmacion : list (Entorno * Navegacion.Evento) :=
  hasta_carrito ++ [(hoy, Navegacion.ev_finalizar)].

Definition compra_completa : list (Entorno * Navegacion.Evento) :=
  hasta_confirmacion ++ [(hoy, Navegacion.ev_confirmar)].

Definition mundo : Mundo := Muestra.mundo [Muestra.camisa_M; Muestra.camisa_L].


End Recorrido.

(** ** The sale workbooks as the dashboard reads them *)

(** [columna.sum()] of a column of whole numbers. *)
Definition suma {A} (columna : A → Z) (filas : list A) : Z :=
  foldr (fun fila acc => (columna fila + acc)%Z) 0%Z filas.

Module Dashboard.

(** [str.endswith]. *)
Fixpoint endswith (s sufijo : string) : bool :=
  if decide (s = sufijo) then true
  else match s with
       | EmptyString => false
       | String _ resto => endswith resto sufijo
       end.

(** The test on the name of a directory entry. *)
Definition es_archivo_de_ventas (archivo : string) : bool :=
  endswith archivo ".xlsx" && bool_decide (archivo ≠ "CR_Control.xlsx").

(** [cargar_datos_ventas]: [listdir] is what [os.listdir(".")] returns, in
    the order it returns it.  A workbook of the directory gives the rows a
    read gets from it: none when the read raises or the columns 'Fecha' and
    'Ganancia' are missing, and the loop then goes on to the next name.  A
    row of the result is a sale row with its 'Archivo'. *)
Definition cargar_datos_ventas (listdir : list string)
    (dir : gmap string (list FilaVenta)) : list (FilaVenta * string) :=
  archivo ← listdir;
  if es_archivo_de_ventas archivo then
    match dir !! archivo with
    | Some df_temp => (fun fila => (fila, archivo)) <$> df_temp
    | None => []
    end
  else [].

(** Two figures of the dashboard: the units sold and the number of sales. *)
Definition productos_vendidos (df_ventas : list (FilaVenta * string)) : Z :=
  suma (fun fila => v_Cantidad_Vendida fila.1) df_ventas.

Definition ventas_unicas (df_ventas : list (FilaVenta * string)) : nat :=
  length (Tallas.unique (snd <$> df_ventas)).

(** [listdir] lists the directory: each entry once, in any order; whether
    it lists the master workbook does not matter. *)
Definition lista_el_directorio (listdir : list string)
    (dir : gmap string (list FilaVenta)) : Prop :=
  NoDup listdir
  ∧ ∀ archivo, archivo ≠ "CR_Control.xlsx" →
               (archivo ∈ listdir ↔ is_Some (dir !! archivo)).

End Dashboard.

(** * Properties *)

(** ** The loop of [actualizar_archivo_maestro], row by row *)

Section Filas.
Import Maestro.
Implicit Types (compra : Articulo) (compras : list Articulo).
Implicit Types (fila : FilaMaestro) (df : list FilaMaestro).

Lemma mask_actualizar_fila compra compra' fila :
  mask compra' (actualizar_fila compra fila) = mask compra' fila.
Proof. unfold actualizar_fila. by destruct (mask compra fila). Qed.

Lemma actualizar_fila_ajena compra fila :
  mask compra fila = false → actualizar_fila compra fila = fila.
Proof. unfold actualizar_fila. by intros ->. Qed.

(** The test [mask.any()] changes nothing: without a matching row the
    assignments would touch no row. *)
Lemma aplicar_compra_fmap df compra :
  aplicar_compra df compra = actualizar_fila compra <$> df.
Proof.
  unfold aplicar_compra.
  destruct (existsb (mask compra) df) eqn:Hany; [done|].
  induction df as [|fila df IH]; [done|].
  simpl in Hany. apply orb_false_iff in Hany as [Hfila Hdf].
  rewrite fmap_cons, actualizar_fila_ajena by done.
  f_equal. by apply IH.
Qed.

Lemma aplicar_compras_fmap compras df :
  aplicar_compras compras df = fila_tras compras <$> df.
Proof.
  unfold aplicar_compras, fila_tras.
  revert df. induction compras as [|compra compras IH]; intros df; simpl.
  - by rewrite list_fmap_id.
  - rewrite IH, aplicar_compra_fmap, <- list_fmap_compose. done.
Qed.

Lemma fila_tras_cons compra compras fila :
  fila_tras (compra :: compras) fila = fila_tras compras (actualizar_fila compra fila).
Proof. done. Qed.

Lemma fila_tras_app compras1 compras2 fila :
  fila_tras (compras1 ++ compras2) fila = fila_tras compras2 (fila_tras compras1 fila).
Proof. unfold fila_tras. by rewrite foldl_app. Qed.

Lemma mask_fila_tras compras compra fila :
  mask compra (fila_tras compras fila) = mask compra fila.
Proof.
  revert fila. induction compras as [|c compras IH]; intros fila; [done|].
  by rewrite fila_tras_cons, IH, mask_actualizar_fila.
Qed.

Lemma cantidad_pedida_actualizar compras compra fila :
  cantidad_pedida compras (actualizar_fila compra fila) = cantidad_pedida compras fila.
Proof.
  induction compras as [|c compras IH]; simpl; [done|].
  by rewrite mask_actualizar_fila, IH.
Qed.

Lemma cantidad_pedida_app compras1 compras2 fila :
  cantidad_pedida (compras1 ++ compras2) fila
  = (cantidad_pedida compras1 fila + cantidad_pedida compras2 fila)%Z.
Proof.
  induction compras1 as [|c compras1 IH]; simpl; [done|].
  rewrite IH. destruct (mask c fila); lia.
Qed.

Lemma actualizar_fila_fijas compra fila :
  mismas_fijas fila (actualizar_fila compra fila).
Proof. unfold actualizar_fila, mismas_fijas. by destruct (mask compra fila). Qed.

Lemma fila_tras_fijas compras fila : mismas_fijas fila (fila_tras compras fila).
Proof.
  revert fila. induction compras as [|c compras IH]; intros fila.
  - by repeat split.
  - rewrite fila_tras_cons.
    destruct (IH (actualizar_fila c fila)) as (?&?&?&?&?).
    destruct (actualizar_fila_fijas c fila) as (?&?&?&?&?).
    repeat split; congruence.
Qed.

Lemma fila_tras_vendida compras fila :
  m_Cantidad_vendida (fila_tras compras fila)
  = (m_Cantidad_vendida fila + cantidad_pedida compras fila)%Z.
Proof.
  revert fila. induction compras as [|c compras IH]; intros fila; simpl.
  - lia.
  - fold (fila_tras compras (actualizar_fila c fila)).
    rewrite IH, cantidad_pedida_actualizar.
    unfold actualizar_fila. destruct (mask c fila); simpl; lia.
Qed.

Lemma fila_tras_ajena compras fila :
  Forall (fun compra => mask compra fila = false) compras →
  fila_tras compras fila = fila.
Proof.
  induction 1 as [|c compras Hc _ IH]; [done|].
  by rewrite fila_tras_cons, actualizar_fila_ajena.
Qed.

Lemma actualizar_fila_derivadas compra fila :
  mask compra fila = true ∨ derivadas_ok fila →
  derivadas_ok (actualizar_fila compra fila).
Proof.
  unfold actualizar_fila, derivadas_ok.
  destruct (mask compra fila); simpl; [done|]. by intros [?|?].
Qed.

(** A row hit by some entry of the cart leaves the loop with recomputed
    derived columns, and so does a row that entered it with them right. *)
Lemma fila_tras_derivadas compras fila :
  Exists (fun compra => mask compra fila = true) compras ∨ derivadas_ok fila →
  derivadas_ok (fila_tras compras fila).
Proof.
  revert fila. induction compras as [|c compras IH]; intros fila [Hex|Hok].
  - by apply Exists_nil in Hex.
  - done.
  - rewrite fila_tras_cons. apply IH.
    apply Exists_cons in Hex as [Hc|Hex].
    + right. apply actualizar_fila_derivadas. by left.
    + left. eapply Exists_impl; [exact Hex|].
      intros c' Hc'. by rewrite mask_actualizar_fila.
  - rewrite fila_tras_cons. apply IH. right.
    apply actualizar_fila_derivadas. by right.
Qed.

End Filas.

(** ** Names of sale workbooks *)

Section Nombres.
Import Venta.
Implicit Types (dir : gmap string (list FilaVenta)) (fecha nombre : string).

Lemma string_length_app (s1 s2 : string) :
  String.length (s1 +:+ s2) = String.length s1 + String.length s2.
Proof. induction s1 as [|c s1 IH]; simpl; [done|]. by rewrite IH. Qed.

Lemma string_app_inj_r (s1 s2 t : string) : s1 +:+ t = s2 +:+ t → s1 = s2.
Proof.
  revert s2. induction s1 as [|c s1 IH]; intros [|c' s2] Heq; simpl in Heq.
  - done.
  - apply (f_equal String.length) in Heq.
    rewrite !string_length_app in Heq.
    change (0 + String.length t = S (String.length s2) + String.length t) in Heq.
    lia.
  - apply (f_equal String.length) in Heq.
    rewrite !string_length_app in Heq.
    change (S (String.length s1) + String.length t = 0 + String.length t) in Heq.
    lia.
  - injection Heq as -> Heq. f_equal. by apply IH.
Qed.

(** Two counters never print the same name. *)
Lemma nombre_numerado_inj fecha : Inj (=) (=) (nombre_numerado fecha).
Proof.
  intros c1 c2 Heq. unfold nombre_numerado in Heq.
  do 2 apply (inj (String.append _)) in Heq.
  apply string_app_inj_r in Heq. by apply (inj pretty) in Heq.
Qed.

Lemma os_path_exists_true dir nombre :
  os_path_exists dir nombre = true ↔ is_Some (dir !! nombre).
Proof. unfold os_path_exists. by rewrite bool_decide_eq_true. Qed.

Lemma os_path_exists_false dir nombre :
  os_path_exists dir nombre = false ↔ dir !! nombre = None.
Proof.
  unfold os_path_exists. rewrite bool_decide_eq_false.
  by rewrite eq_None_not_Some.
Qed.

(** A search that gives up has found every probed name taken. *)
Lemma sondear_None dir fecha vueltas contador :
  sondear dir fecha vueltas contador = None →
  ∀ k, contador ≤ k < contador + vueltas →
       is_Some (dir !! nombre_numerado fecha k).
Proof.
  revert contador. induction vueltas as [|vueltas IH]; intros contador Hs k Hk.
  - lia.
  - simpl in Hs.
    destruct (os_path_exists dir (nombre_numerado fecha contador)) eqn:Hex; [|done].
    destruct (decide (k = contador)) as [->|Hne].
    + by apply os_path_exists_true.
    + apply (IH (S contador)); [done|lia].
Qed.

(** What a successful search returns: the first free numbered name. *)
Lemma sondear_Some dir fecha vueltas contador nombre :
  sondear dir fecha vueltas contador = Some nombre →
  ∃ k, contador ≤ k ∧ nombre = nombre_numerado fecha k
       ∧ dir !! nombre = None
       ∧ ∀ j, contador ≤ j < k → is_Some (dir !! nombre_numerado fecha j).
Proof.
  revert contador. induction vueltas as [|vueltas IH]; intros contador Hs.
  - done.
  - simpl in Hs.
    destruct (os_path_exists dir (nombre_numerado fecha contador)) eqn:Hex.
    + destruct (IH _ Hs) as (k & Hk & -> & Hfree & Hbusy).
      exists k. split_and!; [lia|done|done|].
      intros j Hj. destruct (decide (j = contador)) as [->|Hne].
      * by apply os_path_exists_true.
      * apply Hbusy. lia.
    + injection Hs as <-. exists contador.
      split_and!; [lia|done|by apply os_path_exists_false|]. lia.
Qed.

(** The directory is finite, so the loop stops: among one more numbered
    name than the directory has entries, one is free. *)
Lemma sondear_termina dir fecha contador :
  is_Some (sondear dir fecha (S (size dir)) contador).
Proof.
  destruct (sondear dir fecha (S (size dir)) contador) eqn:Hs; [by eexists|].
  exfalso.
  pose proof (sondear_None _ _ _ _ Hs) as Hall.
  set (l := nombre_numerado fecha <$> seq contador (S (size dir))).
  assert (NoDup l) as Hnd.
  { apply (@NoDup_fmap_2 _ _ _ (nombre_numerado_inj fecha)), NoDup_seq. }
  assert (list_to_set l ⊆ dom dir) as Hsub.
  { intros x Hx. apply elem_of_list_to_set in Hx.
    apply list_elem_of_fmap in Hx as (k & -> & Hk).
    apply elem_of_seq in Hk. apply elem_of_dom, Hall. lia. }
  apply subseteq_size in Hsub.
  rewrite size_list_to_set, size_dom in Hsub by done.
  unfold l in Hsub. rewrite length_fmap, length_seq in Hsub. lia.
Qed.

(** More turns than the loop needs change nothing. *)
Lemma sondear_mas_vueltas dir fecha vueltas vueltas' contador nombre :
  sondear dir fecha vueltas contador = Some nombre → vueltas ≤ vueltas' →
  sondear dir fecha vueltas' contador = Some nombre.
Proof.
  revert vueltas' contador.
  induction vueltas as [|vueltas IH]; intros vueltas' contador Hs Hle; [done|].
  destruct vueltas' as [|vueltas']; [lia|]. simpl in *.
  destruct (os_path_exists dir (nombre_numerado fecha contador)); [|done].
  apply IH; [done|lia].
Qed.

Lemma sondear_estable dir fecha vueltas contador :
  size dir < vueltas →
  sondear dir fecha vueltas contador = sondear dir fecha (S (size dir)) contador.
Proof.
  intros Hlt. destruct (sondear_termina dir fecha contador) as [nombre Hn].
  rewrite Hn. eapply sondear_mas_vueltas; [exact Hn|lia].
Qed.

Lemma generar_nombre_archivo_total dir fecha :
  is_Some (generar_nombre_archivo dir fecha).
Proof.
  unfold generar_nombre_archivo.
  destruct (os_path_exists dir (nombre_base fecha)); [|by eexists].
  apply sondear_termina.
Qed.

Lemma generar_nombre_archivo_Some dir fecha nombre :
  generar_nombre_archivo dir fecha = Some nombre →
  dir !! nombre = None
  ∧ (nombre = nombre_base fecha
     ∨ is_Some (dir !! nombre_base fecha)
       ∧ ∃ k, 1 ≤ k ∧ nombre = nombre_numerado fecha k
              ∧ ∀ j, 1 ≤ j < k → is_Some (dir !! nombre_numerado fecha j)).
Proof.
  unfold generar_nombre_archivo.
  destruct (os_path_exists dir (nombre_base fecha)) eqn:Hbase.
  - intros (k & Hk & -> & Hfree & Hbusy)%sondear_Some.
    split; [done|]. right. split; [by apply os_path_exists_true|].
    by exists k.
  - intros [= <-]. split; [by apply os_path_exists_false|by left].
Qed.

End Nombres.
(** ** The two workbook writes and the run that chains them *)

Section Corridas.
Implicit Types (env : Entorno) (s : Sesion) (w : Mundo).
Implicit Types (compras : list Articulo) (nombre : string).

Local Ltac sin_escritura :=
  let c := fresh "c" in let Hin := fresh "Hin" in
  intros c Hin;
  repeat (apply elem_of_cons in Hin as [Hin|Hin]; [discriminate Hin|]);
  by apply elem_of_nil in Hin.

Local Ltac abrir :=
  unfold confirmar_y_guardar, guardar_compra_excel, actualizar_archivo_maestro,
    cargar_archivo_maestro, read_excel_maestro, anotar in *;
  simpl in *.

Lemma guardar_Some env compras w nombre w' :
  guardar_compra_excel env compras w = (Some nombre, w') →
  compras ≠ [] ∧ to_excel_venta env = true
  ∧ Venta.generar_nombre_archivo (directorio w) (fecha_nombre env) = Some nombre
  ∧ w' = {| CR_Control := CR_Control w;
            directorio := <[nombre := Venta.df_compra (fecha_columna env) compras]>
                          (directorio w);
            bitacora := bitacora w ++ [EscribirVenta nombre true] |}.
Proof.
  abrir. intros Hg. destruct compras as [|c compras]; [done|].
  destruct (Venta.generar_nombre_archivo _ _) as [n|]; [|done].
  destruct (to_excel_venta env); [|done].
  by simplify_eq.
Qed.

Lemma guardar_None env compras w w' :
  guardar_compra_excel env compras w = (None, w') →
  compras = [] ∧ w' = w
  ∨ ∃ nombre,
      to_excel_venta env = false
      ∧ Venta.generar_nombre_archivo (directorio w) (fecha_nombre env) = Some nombre
      ∧ w' = {| CR_Control := CR_Control w;
                directorio := Venta.escritura_fallida (resto_venta env) nombre
                                (directorio w);
                bitacora := bitacora w ++ [EscribirVenta nombre false] |}.
Proof.
  abrir. intros Hg. destruct compras as [|c compras].
  { simplify_eq. by left. }
  destruct (generar_nombre_archivo_total (directorio w) (fecha_nombre env))
    as [n Hn].
  rewrite Hn in Hg. destruct (to_excel_venta env) eqn:Hv; [done|].
  simplify_eq. right. by exists n.
Qed.

(** A failed write touches no entry the directory had. *)
Lemma escritura_fallida_resto resto nombre dir :
  dir !! nombre = None →
  a_lo_sumo_un_resto dir (Venta.escritura_fallida resto nombre dir).
Proof.
  intros Hfree. destruct resto as [filas|]; [|by left].
  right. by exists nombre, filas.
Qed.

Lemma a_lo_sumo_un_resto_conserva dir dir' nombre :
  a_lo_sumo_un_resto dir dir' → is_Some (dir !! nombre) →
  dir' !! nombre = dir !! nombre.
Proof.
  intros [-> | (n & filas & Hfree & ->)] Hin; [done|].
  rewrite lookup_insert_ne; [done|]. intros ->. rewrite Hfree in Hin.
  by destruct Hin.
Qed.

Lemma guardar_falla env compras w :
  to_excel_venta env = false → (guardar_compra_excel env compras w).1 = None.
Proof.
  abrir. intros ->. destruct compras; [done|].
  by destruct (Venta.generar_nombre_archivo _ _).
Qed.

Lemma guardar_exito env compras w :
  compras ≠ [] → to_excel_venta env = true →
  ∃ nombre, (guardar_compra_excel env compras w).1 = Some nombre.
Proof.
  abrir. intros Hne ->. destruct compras; [done|].
  destruct (generar_nombre_archivo_total (directorio w) (fecha_nombre env))
    as [n ->].
  by exists n.
Qed.

Lemma actualizar_true env compras w w' :
  actualizar_archivo_maestro env compras w = (true, w') →
  to_excel_maestro env = true
  ∧ ∃ df, CR_Control w = Some df
    ∧ w' = {| CR_Control := Some (Maestro.aplicar_compras compras df);
              directorio := directorio w;
              bitacora := bitacora w ++ [LeerMaestro; EscribirMaestro true] |}.
Proof.
  abrir. intros Ha. destruct (CR_Control w) as [df|]; [|done].
  destruct (to_excel_maestro env); [|done].
  simplify_eq. split; [done|]. exists df. split; [done|].
  by rewrite <- app_assoc.
Qed.

Lemma actualizar_false env compras w w' :
  actualizar_archivo_maestro env compras w = (false, w') →
  CR_Control w = None ∧ w' = anotar LeerMaestro w
  ∨ is_Some (CR_Control w) ∧ to_excel_maestro env = false
    ∧ w' = anotar (EscribirMaestro false) (anotar LeerMaestro w).
Proof.
  abrir. intros Ha. destruct (CR_Control w) as [df|] eqn:Hdf.
  - destruct (to_excel_maestro env); [done|].
    simplify_eq. right. by eauto.
  - simplify_eq. by left.
Qed.

(** The value [actualizar_archivo_maestro] returns and the table it leaves
    depend on the read and on the write, never on the cart. *)
Lemma actualizar_resultado env compras w :
  (actualizar_archivo_maestro env compras w).1
  = match CR_Control w with Some _ => to_excel_maestro env | None => false end.
Proof. abrir. destruct (CR_Control w); [|done]. by destruct (to_excel_maestro env). Qed.

Lemma actualizar_libro env compras w :
  CR_Control (actualizar_archivo_maestro env compras w).2
  = if to_excel_maestro env
    then Maestro.aplicar_compras compras <$> CR_Control w
    else CR_Control w.
Proof.
  abrir. destruct (CR_Control w) as [df|] eqn:Hdf; simpl.
  - destruct (to_excel_maestro env); simpl; [done|]. done.
  - by destruct (to_excel_maestro env).
Qed.

(** The four ways a run ends, with what each one leaves behind. *)
Lemma confirmar_sin_boton env s w s' w' :
  confirmar_y_guardar env s w = (SinBoton, s', w') →
  s' = s ∧ CR_Control w' = CR_Control w ∧ directorio w' = directorio w
  ∧ (bitacora w' = bitacora w ++ [LeerMaestro]
     ∨ bitacora w' = bitacora w ++ [LeerMaestro; LeerMaestro]).
Proof.
  abrir. intros Hc.
  repeat (case_match; simplify_eq/=); rewrite <- ?app_assoc; by eauto.
Qed.

Lemma confirmar_sin_maestro env s w s' w' :
  confirmar_y_guardar env s w = (SinMaestro, s', w') →
  s' = s ∧ CR_Control w = None ∧ CR_Control w' = None
  ∧ directorio w' = directorio w ∧ bitacora w' = bitacora w ++ [LeerMaestro].
Proof.
  abrir. intros Hc.
  repeat (case_match; simplify_eq/=); by eauto.
Qed.

Lemma confirmar_visible env s w :
  mostrar_dashboard s = false → estado s = en_finalizar_compra →
  carrito s ≠ [] → is_Some (CR_Control w) →
  confirmar_y_guardar env s w
  = match guardar_compra_excel env (carrito s) (anotar LeerMaestro w) with
    | (Some nombre, w1) =>
        match actualizar_archivo_maestro env (carrito s) w1 with
        | (true, w2) => (CompraGuardada nombre, con_estado en_inicio (con_carrito [] s), w2)
        | (false, w2) => (ErrorActualizar nombre, s, w2)
        end
    | (None, w1) => (ErrorGuardar, s, w1)
    end.
Proof.
  intros Hd He Hc [df Hdf].
  unfold confirmar_y_guardar, cargar_archivo_maestro, read_excel_maestro.
  rewrite Hd, Hdf, He. simpl.
  destruct (carrito s); done.
Qed.

Lemma confirmar_con_boton env s w r s' w' :
  confirmar_y_guardar env s w = (r, s', w') →
  r ≠ SinBoton → r ≠ SinMaestro →
  mostrar_dashboard s = false ∧ estado s = en_finalizar_compra
  ∧ carrito s ≠ [] ∧ is_Some (CR_Control w).
Proof.
  abrir. intros Hc H1 H2.
  destruct (mostrar_dashboard s); [by simplify_eq|].
  destruct (CR_Control w) as [df|]; [|by simplify_eq].
  case_bool_decide; [|by simplify_eq].
  destruct (carrito s); [by simplify_eq|].
  by eauto.
Qed.

Lemma confirmar_guardada env s w nombre s' w' :
  confirmar_y_guardar env s w = (CompraGuardada nombre, s', w') →
  mostrar_dashboard s = false ∧ estado s = en_finalizar_compra ∧ carrito s ≠ []
  ∧ to_excel_venta env = true ∧ to_excel_maestro env = true
  ∧ Venta.generar_nombre_archivo (directorio w) (fecha_nombre env) = Some nombre
  ∧ s' = con_estado en_inicio (con_carrito [] s)
  ∧ ∃ df, CR_Control w = Some df
    ∧ w' = {| CR_Control := Some (Maestro.aplicar_compras (carrito s) df);
              directorio :=
                <[nombre := Venta.df_compra (fecha_columna env) (carrito s)]>
                  (directorio w);
              bitacora := bitacora w ++ [LeerMaestro; EscribirVenta nombre true;
                                         LeerMaestro; EscribirMaestro true] |}.
Proof.
  intros Hc.
  destruct (confirmar_con_boton _ _ _ _ _ _ Hc) as (Hd & He & Hne & Hdf); [done..|].
  rewrite confirmar_visible in Hc by done.
  destruct (guardar_compra_excel _ _ _) as [[n|] w1] eqn:Hg; [|done].
  destruct (actualizar_archivo_maestro _ _ _) as [[] w2] eqn:Ha; [|done].
  simplify_eq.
  apply guardar_Some in Hg as (_ & Hv & Hn & ->).
  apply actualizar_true in Ha as (Hm & df & Hdf' & ->). simpl in *.
  split_and!; try done. exists df. split; [done|].
  by rewrite <- !app_assoc.
Qed.

Lemma confirmar_error_guardar env s w s' w' :
  confirmar_y_guardar env s w = (ErrorGuardar, s', w') →
  s' = s ∧ to_excel_venta env = false
  ∧ CR_Control w' = CR_Control w
  ∧ ∃ nombre,
      Venta.generar_nombre_archivo (directorio w) (fecha_nombre env) = Some nombre
      ∧ directorio w'
        = Venta.escritura_fallida (resto_venta env) nombre (directorio w)
      ∧ bitacora w' = bitacora w ++ [LeerMaestro; EscribirVenta nombre false].
Proof.
  intros Hc.
  destruct (confirmar_con_boton _ _ _ _ _ _ Hc) as (Hd & He & Hne & Hdf); [done..|].
  rewrite confirmar_visible in Hc by done.
  destruct (guardar_compra_excel _ _ _) as [[n|] w1] eqn:Hg.
  { destruct (actualizar_archivo_maestro _ _ _) as [[] w2]; done. }
  apply guardar_None in Hg as [[? _]|(n & Hv & Hn & ->)]; [done|].
  injection Hc as <- <-. simpl.
  split_and!; try done. exists n. by rewrite <- app_assoc.
Qed.

Lemma confirmar_error_actualizar env s w nombre s' w' :
  confirmar_y_guardar env s w = (ErrorActualizar nombre, s', w') →
  s' = s ∧ to_excel_venta env = true ∧ to_excel_maestro env = false
  ∧ CR_Control w' = CR_Control w
  ∧ directorio w' = <[nombre := Venta.df_compra (fecha_columna env) (carrito s)]>
                      (directorio w)
  ∧ bitacora w' = bitacora w ++ [LeerMaestro; EscribirVenta nombre true;
                                 LeerMaestro; EscribirMaestro false].
Proof.
  intros Hc.
  destruct (confirmar_con_boton _ _ _ _ _ _ Hc) as (Hd & He & Hne & [df Hdf]); [done..|].
  rewrite confirmar_visible in Hc by done.
  destruct (guardar_compra_excel _ _ _) as [[n|] w1] eqn:Hg; [|done].
  destruct (actualizar_archivo_maestro _ _ _) as [[] w2] eqn:Ha; [done|].
  injection Hc as -> <- <-.
  apply guardar_Some in Hg as (_ & Hv & Hn & ->).
  apply actualizar_false in Ha as [[Hnone _]|(_ & Hm & ->)]; simpl in *.
  { congruence. }
  split_and!; try done. by rewrite <- !app_assoc.
Qed.

(** Once the button is there, only the two writes decide how a run ends. *)
Lemma confirmar_resultado env s w :
  mostrar_dashboard s = false → estado s = en_finalizar_compra →
  carrito s ≠ [] → is_Some (CR_Control w) →
  ∃ nombre,
    Venta.generar_nombre_archivo (directorio w) (fecha_nombre env) = Some nombre
    ∧ (confirmar_y_guardar env s w).1.1
      = if to_excel_venta env
        then if to_excel_maestro env
             then CompraGuardada nombre else ErrorActualizar nombre
        else ErrorGuardar.
Proof.
  intros Hd He Hne [df Hdf].
  rewrite confirmar_visible by done.
  destruct (generar_nombre_archivo_total (directorio w) (fecha_nombre env))
    as [n Hn].
  exists n. split; [done|].
  unfold guardar_compra_excel. destruct (carrito s) as [|c cs]; [done|].
  simpl. rewrite Hn.
  destruct (to_excel_venta env); [|done].
  unfold actualizar_archivo_maestro, read_excel_maestro. simpl. rewrite Hdf.
  by destruct (to_excel_maestro env).
Qed.

(** How a run ends, the session it leaves and the table it leaves depend
    on the master table, the session and the two writes; of the directory
    only the name of the sale workbook depends. *)
Lemma confirmar_directorio_indiferente env s w w2 :
  CR_Control w2 = CR_Control w →
  mismo_desenlace (confirmar_y_guardar env s w2).1.1 (confirmar_y_guardar env s w).1.1
  ∧ (confirmar_y_guardar env s w2).1.2 = (confirmar_y_guardar env s w).1.2
  ∧ CR_Control (confirmar_y_guardar env s w2).2
    = CR_Control (confirmar_y_guardar env s w).2.
Proof.
  intros Hl. abrir. rewrite Hl.
  destruct (mostrar_dashboard s); [done|].
  destruct (CR_Control w) as [df|]; [|done].
  case_bool_decide; [|done].
  destruct (carrito s) as [|c cs]; [done|].
  destruct (generar_nombre_archivo_total (directorio w) (fecha_nombre env))
    as [n ->].
  destruct (generar_nombre_archivo_total (directorio w2) (fecha_nombre env))
    as [n2 ->].
  destruct (to_excel_venta env); [|done]. simpl. rewrite ?Hl.
  by destruct (to_excel_maestro env).
Qed.

(** The table after a run is the table before it, or the loop applied to
    it with the cart of the session. *)
Lemma confirmar_libro env s w :
  CR_Control (confirmar_y_guardar env s w).2 = CR_Control w
  ∨ ∃ df nombre,
      CR_Control w = Some df
      ∧ (confirmar_y_guardar env s w).1.1 = CompraGuardada nombre
      ∧ CR_Control (confirmar_y_guardar env s w).2
        = Some (Maestro.aplicar_compras (carrito s) df).
Proof.
  destruct (confirmar_y_guardar env s w) as [[r s'] w'] eqn:Hc. simpl.
  destruct r as [| | |n|n].
  - apply confirmar_sin_maestro in Hc as (_ & -> & -> & _). by left.
  - apply confirmar_sin_boton in Hc as (_ & -> & _). by left.
  - apply confirmar_error_guardar in Hc as (_ & _ & -> & _). by left.
  - apply confirmar_error_actualizar in Hc as (_ & _ & _ & -> & _). by left.
  - apply confirmar_guardada in Hc as (_&_&_&_&_&_&_& df & Hdf & ->).
    right. by exists df, n.
Qed.

Lemma venta_antes_que_maestro_corta (ops : list Operacion) :
  sin_escritura_maestro ops → venta_antes_que_maestro ops.
Proof.
  intros Hsin antes completa despues ->.
  destruct (Hsin completa). apply elem_of_app. right. by left.
Qed.

Lemma venta_antes_que_maestro_completa nombre completa :
  venta_antes_que_maestro
    [LeerMaestro; EscribirVenta nombre true; LeerMaestro; EscribirMaestro completa].
Proof.
  intros antes c despues Heq. exists nombre.
  destruct antes as [|o1 [|o2 [|o3 [|o4 antes]]]]; simplify_eq/=.
  - apply elem_of_cons. right. apply elem_of_cons. by left.
  - by destruct antes.
Qed.

(** The operations a run adds to the log, whatever its outcome. *)
Lemma confirmar_bitacora env s w :
  ∃ ops, bitacora (confirmar_y_guardar env s w).2 = bitacora w ++ ops
    ∧ venta_antes_que_maestro ops
    ∧ (to_excel_venta env = false → sin_escritura_maestro ops).
Proof.
  destruct (confirmar_y_guardar env s w) as [[r s'] w'] eqn:Hc. simpl.
  destruct r as [| | |n|n].
  - apply confirmar_sin_maestro in Hc as (_ & _ & _ & _ & ->).
    eexists; split; [done|].
    assert (sin_escritura_maestro [LeerMaestro]) by sin_escritura.
    split; [by apply venta_antes_que_maestro_corta|done].
  - apply confirmar_sin_boton in Hc as (_ & _ & _ & [-> | ->]);
      (eexists; split; [done|]).
    + assert (sin_escritura_maestro [LeerMaestro]) by sin_escritura.
      split; [by apply venta_antes_que_maestro_corta|done].
    + assert (sin_escritura_maestro [LeerMaestro; LeerMaestro])
        by sin_escritura.
      split; [by apply venta_antes_que_maestro_corta|done].
  - apply confirmar_error_guardar in Hc as (_ & _ & _ & n & _ & _ & ->).
    eexists; split; [done|].
    assert (sin_escritura_maestro [LeerMaestro; EscribirVenta n false])
      by sin_escritura.
    split; [by apply venta_antes_que_maestro_corta|done].
  - apply confirmar_error_actualizar in Hc as (_ & Hv & _ & _ & _ & ->).
    eexists; split; [done|].
    split; [apply venta_antes_que_maestro_completa|congruence].
  - apply confirmar_guardada in Hc as (_&_&_& Hv &_&_&_& df & Hdf & ->).
    eexists; split; [done|].
    split; [apply venta_antes_que_maestro_completa|congruence].
Qed.

End Corridas.
(** * The claims *)

(** C3 — The run saves the sale workbook before it writes the master
    workbook.  In the operations a run adds to the log, a write of
    [CR_Control.xlsx] always comes after a completed write of a sale
    workbook; and in the state of the files: the master table differs after
    a run only if the run ended with the purchase saved, and whenever
    [actualizar_archivo_maestro] was called at all (the purchase saved, or
    the error of the update) it was called in a state where the sale
    workbook of the cart already lay in the directory, under a name that
    was free, the master table still untouched; the update then leaves the
    directory alone.  When the sale workbook cannot be written, the run
    stops there: the master table, the cart and the screen are what they
    were, no write of the master workbook was tried, the directory has kept
    every entry it had and has at most gained what the failed write left
    under a name that was free, and the run ends in the error of the save
    whenever the button was there.  Confirming again from the state the run
    left ends as confirming from the state before would end, with the same
    session and the same master table; if it saves the purchase, the rows
    of the cart go under a name nothing occupies, and the table has the
    cart applied once. *)
Theorem sale_saved_first_and_failed_save_leaves_ledger env s w r s' w' :
  confirmar_y_guardar env s w = (r, s', w') →
  (∃ ops, bitacora w' = bitacora w ++ ops ∧ venta_antes_que_maestro ops)
  ∧ (CR_Control w' ≠ CR_Control w → ∃ nombre, r = CompraGuardada nombre)
  ∧ (∀ nombre,
       r = CompraGuardada nombre ∨ r = ErrorActualizar nombre →
       ∃ w1,
         guardar_compra_excel env (carrito s) (cargar_archivo_maestro w).2
         = (Some nombre, w1)
         ∧ venta_ya_guardada env s w nombre w1
         ∧ actualizar_archivo_maestro env (carrito s) w1
           = (bool_decide (r = CompraGuardada nombre), w')
         ∧ directorio w' = directorio w1)
  ∧ (to_excel_venta env = false →
     CR_Control w' = CR_Control w
     ∧ s' = s
     ∧ a_lo_sumo_un_resto (directorio w) (directorio w')
     ∧ (∀ nombre, is_Some (directorio w !! nombre) →
                  directorio w' !! nombre = directorio w !! nombre)
     ∧ (∃ ops, bitacora w' = bitacora w ++ ops ∧ sin_escritura_maestro ops)
     ∧ (mostrar_dashboard s = false → estado s = en_finalizar_compra →
        carrito s ≠ [] → is_Some (CR_Control w) → r = ErrorGuardar)
     ∧ (∀ env2,
          mismo_desenlace (confirmar_y_guardar env2 s' w').1.1
            (confirmar_y_guardar env2 s w).1.1
          ∧ (confirmar_y_guardar env2 s' w').1.2 = (confirmar_y_guardar env2 s w).1.2
          ∧ CR_Control (confirmar_y_guardar env2 s' w').2
            = CR_Control (confirmar_y_guardar env2 s w).2)
     ∧ ∀ env2 nombre2 s2 w2,
         confirmar_y_guardar env2 s' w' = (CompraGuardada nombre2, s2, w2) →
         directorio w' !! nombre2 = None
         ∧ directorio w2 !! nombre2
           = Some (Venta.df_compra (fecha_columna env2) (carrito s))
         ∧ CR_Control w2 = Maestro.aplicar_compras (carrito s) <$> CR_Control w).
Proof.
  intros Hc.
  destruct (confirmar_bitacora env s w) as (ops & Hops & Hord & Hsin).
  rewrite Hc in Hops. simpl in Hops.
  split; [by exists ops|]. split; [|split].
  - intros Hdif.
    destruct (confirmar_libro env s w) as [Hl | (df & n & _ & Hr & _)];
      rewrite Hc in *; simpl in *; [done|by exists n].
  - intros nombre Hr.
    destruct (confirmar_con_boton _ _ _ _ _ _ Hc) as (Hd & He & Hne & Hdf);
      [by destruct Hr as [-> | ->]..|].
    rewrite confirmar_visible in Hc by done.
    unfold cargar_archivo_maestro, read_excel_maestro. simpl.
    destruct (guardar_compra_excel env (carrito s) (anotar LeerMaestro w))
      as [[n|] w1] eqn:Hg.
    2:{ injection Hc as <- _ _. by destruct Hr. }
    exists w1.
    pose proof Hg as (_ & _ & Hn & Hw1)%guardar_Some.
    apply generar_nombre_archivo_Some in Hn as [Hfree _]. simpl in Hfree.
    destruct (actualizar_archivo_maestro env (carrito s) w1) as [[] w2] eqn:Ha;
      injection Hc as <- <- <-.
    + assert (n = nombre) as -> by (destruct Hr as [Hr|Hr]; by simplify_eq).
      rewrite bool_decide_eq_true_2 by done.
      apply actualizar_true in Ha as (_ & df & _ & ->).
      split_and!; [done| |done|done].
      subst w1. by split_and!.
    + assert (n = nombre) as -> by (destruct Hr as [Hr|Hr]; by simplify_eq).
      rewrite bool_decide_eq_false_2 by done.
      split_and!; [done| |done|].
      * subst w1. by split_and!.
      * by apply actualizar_false in Ha as [[_ ->] | (_ & _ & ->)].
  - intros Hv.
    assert (CR_Control w' = CR_Control w ∧ s' = s
            ∧ a_lo_sumo_un_resto (directorio w) (directorio w'))
      as (Hl & -> & Hdir).
    { destruct r as [| | |n|n].
      - apply confirmar_sin_maestro in Hc as (-> & -> & -> & -> & _).
        split_and!; [done..|by left].
      - apply confirmar_sin_boton in Hc as (-> & -> & -> & _).
        split_and!; [done..|by left].
      - apply confirmar_error_guardar in Hc as (-> & _ & -> & n & Hn & -> & _).
        split_and!; [done..|].
        apply escritura_fallida_resto.
        by apply generar_nombre_archivo_Some in Hn as [? _].
      - apply confirmar_error_actualizar in Hc as (_ & ? & _). congruence.
      - apply confirmar_guardada in Hc as (_ & _ & _ & ? & _). congruence. }
    split_and!; try done.
    + intros nombre. by apply a_lo_sumo_un_resto_conserva.
    + exists ops. split; [done|]. by apply Hsin.
    + intros Hdash Hest Hne Hdf.
      destruct (confirmar_resultado env s w Hdash Hest Hne Hdf) as (n & _ & Hr).
      rewrite Hc, Hv in Hr. done.
    + intros env2. by apply confirmar_directorio_indiferente.
    + intros env2 nombre2 s2 w2 Hc2.
      apply confirmar_guardada in Hc2
        as (_ & _ & _ & _ & _ & Hn2 & _ & df & Hdf & ->). simpl.
      apply generar_nombre_archivo_Some in Hn2 as [Hfree _].
      split_and!; [done|by rewrite lookup_insert_eq|].
      rewrite <- Hl, Hdf. done.
Qed.

Lemma sale_saved_first_and_failed_save_leaves_ledger_witness :
  confirmar_y_guardar Muestra.dia_con_resto
    (Muestra.sesion en_finalizar_compra Muestra.carro_3)
    (Muestra.mundo [Muestra.camisa_M])
  = (ErrorGuardar, Muestra.sesion en_finalizar_compra Muestra.carro_3,
     Muestra.mundo_con_resto)
  ∧ to_excel_venta Muestra.dia_con_resto = false
  ∧ CR_Control Muestra.mundo_con_resto = Some [Muestra.camisa_M]
  ∧ directorio Muestra.mundo_con_resto = {[ "2025-03-14.xlsx" := [] ]}
  ∧ a_lo_sumo_un_resto ∅ (directorio Muestra.mundo_con_resto)
  ∧ confirmar_y_guardar (Muestra.dia true true)
      (Muestra.sesion en_finalizar_compra Muestra.carro_3)
      Muestra.mundo_con_resto
    = (CompraGuardada "2025-03-14_1.xlsx", Muestra.sesion en_inicio [],
       {| CR_Control := CR_Control Muestra.mundo_tras_carro_3;
          directorio := {[ "2025-03-14.xlsx" := [];
                           "2025-03-14_1.xlsx" := [Muestra.vendida Muestra.camisa_M 3] ]};
          bitacora := [LeerMaestro; EscribirVenta "2025-03-14.xlsx" false;
                       LeerMaestro; EscribirVenta "2025-03-14_1.xlsx" true;
                       LeerMaestro; EscribirMaestro true] |})
  ∧ CR_Control Muestra.mundo_tras_carro_3
    = Maestro.aplicar_compras Muestra.carro_3 <$> Some [Muestra.camisa_M].
Proof.
  assert (confirmar_y_guardar Muestra.dia_con_resto
            (Muestra.sesion en_finalizar_compra Muestra.carro_3)
            (Muestra.mundo [Muestra.camisa_M])
          = (ErrorGuardar, Muestra.sesion en_finalizar_compra Muestra.carro_3,
             Muestra.mundo_con_resto)) as Hrun by (vm_compute; reflexivity).
  assert (confirmar_y_guardar (Muestra.dia true true)
            (Muestra.sesion en_finalizar_compra Muestra.carro_3)
            Muestra.mundo_con_resto
          = (CompraGuardada "2025-03-14_1.xlsx", Muestra.sesion en_inicio [],
             {| CR_Control := CR_Control Muestra.mundo_tras_carro_3;
                directorio :=
                  {[ "2025-03-14.xlsx" := [];
                     "2025-03-14_1.xlsx" := [Muestra.vendida Muestra.camisa_M 3] ]};
                bitacora := [LeerMaestro; EscribirVenta "2025-03-14.xlsx" false;
                             LeerMaestro; EscribirVenta "2025-03-14_1.xlsx" true;
                             LeerMaestro; EscribirMaestro true] |})) as Hotra
    by (vm_compute; reflexivity).
  destruct (sale_saved_first_and_failed_save_leaves_ledger _ _ _ _ _ _ Hrun)
    as (_ & _ & _ & Hfail).
  destruct (Hfail eq_refl) as (Hl & _ & Hdir & _ & _ & _ & _ & Hretry).
  destruct (Hretry _ _ _ _ Hotra) as (_ & _ & Hlibro).
  split; [exact Hrun|]. split; [reflexivity|]. split; [exact Hl|].
  split; [reflexivity|]. split; [exact Hdir|]. split; [exact Hotra|].
  exact Hlibro.
Defined.

(** C9 — A run that ends with the purchase saved had a cart with entries,
    leaves the cart empty and the screen at the start, and reports the name
    of the sale workbook: a name that was free before and now holds one row
    per entry of the cart, while the master table went through the loop with
    that cart.  With both writes going well such a run does end that way.
    On the sample: 3 units of (Camisa, M) against 10 initial and 2 sold
    leave 5 sold and 5 remaining, one sale row of 3 units and no cart. *)
Theorem successful_commit_empties_cart_and_names_batch :
  (∀ env s w nombre s' w',
     confirmar_y_guardar env s w = (CompraGuardada nombre, s', w') →
     carrito s ≠ [] ∧ carrito s' = [] ∧ estado s' = en_inicio
     ∧ directorio w !! nombre = None
     ∧ directorio w'
       = <[nombre := Venta.df_compra (fecha_columna env) (carrito s)]> (directorio w)
     ∧ length (Venta.df_compra (fecha_columna env) (carrito s)) = length (carrito s)
     ∧ ∃ df, CR_Control w = Some df
             ∧ CR_Control w' = Some (Maestro.aplicar_compras (carrito s) df))
  ∧ (∀ env s w,
       mostrar_dashboard s = false → estado s = en_finalizar_compra →
       carrito s ≠ [] → is_Some (CR_Control w) →
       to_excel_venta env = true → to_excel_maestro env = true →
       ∃ nombre, (confirmar_y_guardar env s w).1.1 = CompraGuardada nombre)
  ∧ confirmar_y_guardar (Muestra.dia true true)
      (Muestra.sesion en_finalizar_compra Muestra.carro_3)
      (Muestra.mundo [Muestra.camisa_M])
    = (CompraGuardada "2025-03-14.xlsx", Muestra.sesion en_inicio [],
       Muestra.mundo_tras_carro_3).
Proof.
  split_and!.
  - intros env s w nombre s' w' Hc.
    apply confirmar_guardada in Hc
      as (_ & _ & Hne & _ & _ & Hn & -> & df & Hdf & ->). simpl.
    apply generar_nombre_archivo_Some in Hn as [Hfree _].
    split_and!; try done.
    + unfold Venta.df_compra. by rewrite length_fmap.
    + by exists df.
  - intros env s w Hd He Hne Hdf Hv Hm.
    destruct (confirmar_resultado env s w Hd He Hne Hdf) as (n & _ & Hr).
    exists n. by rewrite Hr, Hv, Hm.
  - vm_compute. reflexivity.
Qed.

Lemma successful_commit_empties_cart_and_names_batch_witness :
  confirmar_y_guardar (Muestra.dia true true)
    (Muestra.sesion en_finalizar_compra Muestra.carro_3)
    (Muestra.mundo [Muestra.camisa_M])
  = (CompraGuardada "2025-03-14.xlsx", Muestra.sesion en_inicio [],
     Muestra.mundo_tras_carro_3)
  ∧ carrito (Muestra.sesion en_inicio []) = []
  ∧ directorio (Muestra.mundo [Muestra.camisa_M]) !! "2025-03-14.xlsx" = None
  ∧ (m_Cantidad_vendida <$> default [] (CR_Control Muestra.mundo_tras_carro_3)) = [5%Z]
  ∧ (m_Cantidad_sobrante <$> default [] (CR_Control Muestra.mundo_tras_carro_3)) = [5%Z].
Proof.
  pose proof (proj2 (proj2 successful_commit_empties_cart_and_names_batch)) as Hrun.
  destruct (proj1 successful_commit_empties_cart_and_names_batch _ _ _ _ _ _ Hrun)
    as (_ & Hcart & _ & Hfree & _).
  split; [exact Hrun|]. split; [exact Hcart|]. split; [exact Hfree|].
  split; reflexivity.
Defined.

(** C4 — [generar_nombre_archivo] always returns, and what it returns is a
    name no entry of the directory has: the plain name of the day when that
    one is free, otherwise the day with the first counter from 1 upwards
    whose name is free, all smaller counters being taken (the bound on the
    turns of the loop is never reached: more turns give the same name).  So
    saving a sale adds one entry under a name that was free and leaves every
    other entry as it was, and two sales saved one after the other (the same
    day or not) sit under two different names, each with its own rows. *)
Theorem sale_workbook_name_is_fresh :
  (∀ (dir : gmap string (list FilaVenta)) fecha vueltas contador,
     size dir < vueltas →
     is_Some (Venta.sondear dir fecha vueltas contador)
     ∧ Venta.sondear dir fecha vueltas contador
       = Venta.sondear dir fecha (S (size dir)) contador)
  ∧ (∀ (dir : gmap string (list FilaVenta)) fecha,
     ∃ nombre,
       Venta.generar_nombre_archivo dir fecha = Some nombre
       ∧ dir !! nombre = None
       ∧ (nombre = Venta.nombre_base fecha
          ∨ is_Some (dir !! Venta.nombre_base fecha)
            ∧ ∃ k, 1 ≤ k ∧ nombre = Venta.nombre_numerado fecha k
                   ∧ ∀ j, 1 ≤ j < k →
                          is_Some (dir !! Venta.nombre_numerado fecha j)))
  ∧ (∀ env compras w nombre w',
       guardar_compra_excel env compras w = (Some nombre, w') →
       directorio w !! nombre = None
       ∧ directorio w' !! nombre = Some (Venta.df_compra (fecha_columna env) compras)
       ∧ ∀ otro, otro ≠ nombre → directorio w' !! otro = directorio w !! otro)
  ∧ (∀ env1 env2 compras1 compras2 w nombre1 w1 nombre2 w2,
       guardar_compra_excel env1 compras1 w = (Some nombre1, w1) →
       guardar_compra_excel env2 compras2 w1 = (Some nombre2, w2) →
       nombre1 ≠ nombre2
       ∧ directorio w2 !! nombre1
         = Some (Venta.df_compra (fecha_columna env1) compras1)
       ∧ directorio w2 !! nombre2
         = Some (Venta.df_compra (fecha_columna env2) compras2)).
Proof.
  assert (∀ env compras w nombre w',
       guardar_compra_excel env compras w = (Some nombre, w') →
       directorio w !! nombre = None
       ∧ directorio w' !! nombre = Some (Venta.df_compra (fecha_columna env) compras)
       ∧ ∀ otro, otro ≠ nombre → directorio w' !! otro = directorio w !! otro)
    as Hguardar.
  { intros env compras w nombre w' (_ & _ & Hn & ->)%guardar_Some. simpl.
    apply generar_nombre_archivo_Some in Hn as [Hfree _].
    split_and!; [done|by rewrite lookup_insert_eq|].
    intros otro Hne. by rewrite lookup_insert_ne. }
  split_and!; [| |exact Hguardar|].
  - intros dir fecha vueltas contador Hlt.
    rewrite sondear_estable by done.
    split; [apply sondear_termina|done].
  - intros dir fecha.
    destruct (generar_nombre_archivo_total dir fecha) as [nombre Hn].
    exists nombre. split; [done|]. by apply generar_nombre_archivo_Some.
  - intros env1 env2 compras1 compras2 w nombre1 w1 nombre2 w2 H1 H2.
    destruct (Hguardar _ _ _ _ _ H1) as (_ & Hin1 & _).
    destruct (Hguardar _ _ _ _ _ H2) as (Hfree2 & Hin2 & Hotros).
    assert (nombre1 ≠ nombre2) as Hne by (intros ->; congruence).
    split_and!; [done| |done].
    by rewrite Hotros.
Qed.

Lemma sale_workbook_name_is_fresh_witness :
  guardar_compra_excel (Muestra.dia true true) Muestra.carro_3
    (Muestra.mundo [Muestra.camisa_M])
  = (Some "2025-03-14.xlsx",
     {| CR_Control := Some [Muestra.camisa_M];
        directorio := {[ "2025-03-14.xlsx" := [Muestra.vendida Muestra.camisa_M 3] ]};
        bitacora := [EscribirVenta "2025-03-14.xlsx" true] |})
  ∧ guardar_compra_excel (Muestra.dia true true) Muestra.carro_3
      {| CR_Control := Some [Muestra.camisa_M];
         directorio := {[ "2025-03-14.xlsx" := [Muestra.vendida Muestra.camisa_M 3] ]};
         bitacora := [EscribirVenta "2025-03-14.xlsx" true] |}
    = (Some "2025-03-14_1.xlsx",
       {| CR_Control := Some [Muestra.camisa_M];
          directorio := {[ "2025-03-14.xlsx" := [Muestra.vendida Muestra.camisa_M 3];
                           "2025-03-14_1.xlsx" := [Muestra.vendida Muestra.camisa_M 3] ]};
          bitacora := [EscribirVenta "2025-03-14.xlsx" true;
                       EscribirVenta "2025-03-14_1.xlsx" true] |})
  ∧ "2025-03-14.xlsx" ≠ "2025-03-14_1.xlsx".
Proof.
  split; [vm_compute; reflexivity|].
  split; [vm_compute; reflexivity|].
  eapply (proj2 (proj2 (proj2 sale_workbook_name_is_fresh))
            (Muestra.dia true true) (Muestra.dia true true)
            Muestra.carro_3 Muestra.carro_3 (Muestra.mundo [Muestra.camisa_M])).
  - vm_compute. reflexivity.
  - vm_compute. reflexivity.
Defined.

(** C10 — Writing a cart into the master table keeps the rows in place and
    in number; on every row Producto, SKU, Talla, Costo and 'Cantidad
    inicial' stay as they were, and a row whose (Producto, Talla) is the key
    of no entry of the cart stays as it was in all its columns.  This holds
    for [actualizar_archivo_maestro] whether its write completes or not, and
    for every run of the confirmation. *)
Theorem ledger_update_frame env compras s w :
  marco_libro compras (CR_Control w)
    (CR_Control (actualizar_archivo_maestro env compras w).2)
  ∧ directorio (actualizar_archivo_maestro env compras w).2 = directorio w
  ∧ marco_libro (carrito s) (CR_Control w)
      (CR_Control (confirmar_y_guardar env s w).2).
Proof.
  assert (∀ cs df, marco cs df (Maestro.aplicar_compras cs df)) as Hloop.
  { intros cs df. rewrite aplicar_compras_fmap. unfold marco.
    apply Forall2_fmap_r, Forall2_same_length_lookup_2; [done|].
    intros i fila fila' Hi Hi'. simplify_eq.
    split; [apply fila_tras_fijas|apply fila_tras_ajena]. }
  assert (∀ cs df, marco cs df df) as Hrefl.
  { intros cs df. unfold marco. apply Forall2_same_length_lookup_2; [done|].
    intros i fila fila' Hi Hi'. simplify_eq. by repeat split. }
  split_and!.
  - rewrite actualizar_libro.
    destruct (to_excel_maestro env), (CR_Control w) as [df|]; simpl; auto.
  - unfold actualizar_archivo_maestro, read_excel_maestro. simpl.
    destruct (CR_Control w); [|done]. by destruct (to_excel_maestro env).
  - destruct (confirmar_libro env s w) as [-> | (df & n & Hdf & _ & ->)].
    + destruct (CR_Control w); simpl; auto.
    + rewrite Hdf. simpl. auto.
Qed.

(** ** Tables of successive runs *)

Section Sucesion.
Import Maestro.
Implicit Types (env : Entorno) (s : Sesion) (w : Mundo).

Lemma en_libro_aplicar (P Q : FilaMaestro → Prop) compras df :
  (∀ fila, P fila → Q (fila_tras compras fila)) →
  Forall P df → Forall Q (aplicar_compras compras df).
Proof.
  intros HPQ Hdf. rewrite aplicar_compras_fmap, Forall_fmap.
  eapply Forall_impl; [exact Hdf|]. exact HPQ.
Qed.

Lemma confirmar_libro_ok env s w :
  libro_ok w → libro_ok (confirmar_y_guardar env s w).2.
Proof.
  unfold libro_ok, en_libro. intros Hok.
  destruct (confirmar_libro env s w) as [-> | (df & n & Hdf & _ & ->)]; [done|].
  rewrite Hdf in Hok.
  apply (en_libro_aplicar derivadas_ok); [|done].
  intros fila Hfila. apply fila_tras_derivadas. by right.
Qed.

Lemma fila_tras_sobrante compras fila :
  derivadas_ok fila →
  m_Cantidad_sobrante (fila_tras compras fila)
  = (m_Cantidad_sobrante fila - cantidad_pedida compras fila)%Z.
Proof.
  intros Hok.
  destruct (fila_tras_derivadas compras fila (or_intror Hok)) as [Hs _].
  destruct (fila_tras_fijas compras fila) as (_ & _ & _ & _ & Hini).
  destruct Hok as [Hs0 _].
  rewrite Hs, Hini, fila_tras_vendida, Hs0. lia.
Qed.

Lemma confirmar_sin_sobreventa env s w :
  libro_ok w → sin_sobreventa w → abastecido (carrito s) w →
  sin_sobreventa (confirmar_y_guardar env s w).2.
Proof.
  unfold libro_ok, sin_sobreventa, abastecido, en_libro. intros Hok Hpos Hab.
  destruct (confirmar_libro env s w) as [-> | (df & n & Hdf & _ & ->)]; [done|].
  rewrite Hdf in Hok, Hpos, Hab.
  apply (en_libro_aplicar
           (fun fila => derivadas_ok fila
                        ∧ (cantidad_pedida (carrito s) fila ≤ m_Cantidad_sobrante fila)%Z)).
  - intros fila [Hfila Hle]. rewrite fila_tras_sobrante by done. lia.
  - apply Forall_and. done.
Qed.

End Sucesion.

(** C2 (amended) — If every row of the master table obeys 'Cantidad
    sobrante' = 'Cantidad inicial' - 'Cantidad vendida' and 'Ganancia' =
    'Cantidad vendida' * 'Costo', so does every row after any sequence of
    confirmation runs, saved or not.  A stock that is nowhere negative stays
    so as long as each cart asks of every row, summed over its entries, no
    more units than the row has left when the run starts. *)
Theorem derived_columns_preserved_by_commits corridas w :
  libro_ok w →
  libro_ok (compras_sucesivas corridas w)
  ∧ (sin_sobreventa w → todas_abastecidas corridas w →
     sin_sobreventa (compras_sucesivas corridas w)).
Proof.
  revert w. induction corridas as [|[env s] resto IH]; intros w Hok; simpl.
  - done.
  - destruct (IH _ (confirmar_libro_ok env s w Hok)) as [IHok IHpos].
    split; [done|].
    intros Hpos [Hab Hresto]. apply IHpos; [|done].
    by apply confirmar_sin_sobreventa.
Qed.

Lemma derived_columns_preserved_by_commits_witness :
  libro_ok (Muestra.mundo [Muestra.camisa_M; Muestra.camisa_L])
  ∧ sin_sobreventa (Muestra.mundo [Muestra.camisa_M; Muestra.camisa_L])
  ∧ todas_abastecidas
      [(Muestra.dia true true, Muestra.sesion en_finalizar_compra Muestra.carro_3);
       (Muestra.dia true true, Muestra.sesion en_finalizar_compra Muestra.carro_5)]
      (Muestra.mundo [Muestra.camisa_M; Muestra.camisa_L])
  ∧ libro_ok
      (compras_sucesivas
         [(Muestra.dia true true, Muestra.sesion en_finalizar_compra Muestra.carro_3);
          (Muestra.dia true true, Muestra.sesion en_finalizar_compra Muestra.carro_5)]
         (Muestra.mundo [Muestra.camisa_M; Muestra.camisa_L]))
  ∧ sin_sobreventa
      (compras_sucesivas
         [(Muestra.dia true true, Muestra.sesion en_finalizar_compra Muestra.carro_3);
          (Muestra.dia true true, Muestra.sesion en_finalizar_compra Muestra.carro_5)]
         (Muestra.mundo [Muestra.camisa_M; Muestra.camisa_L])).
Proof.
  assert (libro_ok (Muestra.mundo [Muestra.camisa_M; Muestra.camisa_L])) as Hok.
  { repeat constructor. }
  assert (sin_sobreventa (Muestra.mundo [Muestra.camisa_M; Muestra.camisa_L])) as Hpos.
  { repeat constructor; vm_compute; discriminate. }
  assert (todas_abastecidas
            [(Muestra.dia true true, Muestra.sesion en_finalizar_compra Muestra.carro_3);
             (Muestra.dia true true, Muestra.sesion en_finalizar_compra Muestra.carro_5)]
            (Muestra.mundo [Muestra.camisa_M; Muestra.camisa_L])) as Hab.
  { vm_compute. repeat constructor; discriminate. }
  destruct (derived_columns_preserved_by_commits
              [(Muestra.dia true true, Muestra.sesion en_finalizar_compra Muestra.carro_3);
               (Muestra.dia true true, Muestra.sesion en_finalizar_compra Muestra.carro_5)]
              (Muestra.mundo [Muestra.camisa_M; Muestra.camisa_L]) Hok)
    as [Hok' Hpos'].
  split; [exact Hok|]. split; [exact Hpos|]. split; [exact Hab|].
  split; [exact Hok'|]. exact (Hpos' Hpos Hab).
Defined.

(** C2, as stated, fails: two carts of 5 units of (Camisa, M), each within
    the 8 units the table showed when the cart was filled, are both saved
    and leave the row at -2; and the row (Camisa, L), whose derived cells
    were edited in the workbook and which no cart touches, keeps them. *)
Lemma derived_columns_counterexample :
  todas_guardadas
    [(Muestra.dia true true, Muestra.sesion en_finalizar_compra Muestra.carro_5);
     (Muestra.dia true true, Muestra.sesion en_finalizar_compra Muestra.carro_5)]
    (Muestra.mundo [Muestra.camisa_M; Muestra.camisa_L_retocada])
  ∧ CR_Control
      (compras_sucesivas
         [(Muestra.dia true true, Muestra.sesion en_finalizar_compra Muestra.carro_5);
          (Muestra.dia true true, Muestra.sesion en_finalizar_compra Muestra.carro_5)]
         (Muestra.mundo [Muestra.camisa_M; Muestra.camisa_L_retocada]))
    = Some [ {| m_Producto := "Camisa"; m_SKU := "CAM-M"; m_Talla := "M";
                m_Costo := 100; m_Cantidad_inicial := 10;
                m_Cantidad_vendida := 12; m_Ganancia := 1200;
                m_Cantidad_sobrante := -2 |};
             Muestra.camisa_L_retocada ]
  ∧ ¬ Maestro.derivadas_ok Muestra.camisa_L_retocada
  ∧ ¬ derivadas_y_existencias
        (compras_sucesivas
           [(Muestra.dia true true, Muestra.sesion en_finalizar_compra Muestra.carro_5);
            (Muestra.dia true true, Muestra.sesion en_finalizar_compra Muestra.carro_5)]
           (Muestra.mundo [Muestra.camisa_M; Muestra.camisa_L_retocada])).
Proof.
  split_and!.
  - split; [by eexists|]. split; [by eexists|]. done.
  - vm_compute. reflexivity.
  - intros [Hs _]. vm_compute in Hs. discriminate.
  - intros Hinv. unfold derivadas_y_existencias, en_libro in Hinv.
    vm_compute in Hinv.
    apply Forall_cons in Hinv as [[_ Hneg] _]. by apply Hneg.
Qed.
(** ** The screen that fills the cart *)

Section Carrito.
Import Pantalla.
Implicit Types (s : Sesion) (w : Mundo) (df : list FilaMaestro).

Lemma number_input_dentro (min_value max_value value tecleado : Z) :
  (min_value ≤ tecleado ≤ max_value)%Z →
  number_input min_value max_value value tecleado = tecleado.
Proof. intros Hin. unfold number_input. by rewrite bool_decide_eq_true_2. Qed.

Lemma number_input_fuera (min_value max_value value tecleado : Z) :
  ¬ (min_value ≤ tecleado ≤ max_value)%Z →
  number_input min_value max_value value tecleado = value.
Proof. intros Hout. unfold number_input. by rewrite bool_decide_eq_false_2. Qed.

(** Whatever is keyed, the widget returns a number within its bounds. *)
Lemma number_input_rango (min_value max_value value tecleado : Z) :
  (min_value ≤ value ≤ max_value)%Z →
  (min_value ≤ number_input min_value max_value value tecleado ≤ max_value)%Z.
Proof. intros Hval. unfold number_input. by case_bool_decide. Qed.

Lemma agregar_articulo_casos df tecleado s info :
  articulo_info df s = Some info →
  agregar_articulo df tecleado s
  = Some (if bool_decide (0 < m_Cantidad_sobrante info)%Z
          then con_estado en_carrito
                 (con_carrito
                    (carrito s
                     ++ [nuevo_articulo info
                           (number_input 1 (m_Cantidad_sobrante info) 1 tecleado)]) s)
          else s).
Proof.
  intros Hinfo. unfold agregar_articulo. rewrite Hinfo.
  repeat case_bool_decide; try done; lia.
Qed.

Lemma pulsar_agregar_disco tecleado s w :
  CR_Control (pulsar_agregar tecleado s w).2 = CR_Control w
  ∧ directorio (pulsar_agregar tecleado s w).2 = directorio w.
Proof.
  unfold pulsar_agregar, cargar_archivo_maestro, read_excel_maestro. simpl.
  destruct (mostrar_dashboard s); [done|].
  destruct (CR_Control w) as [df|] eqn:Hdf; simpl; [|done].
  by case_bool_decide.
Qed.

Lemma pulsar_agregar_visible tecleado s w df :
  CR_Control w = Some df → mostrar_dashboard s = false →
  estado s = en_confirmar_articulo →
  (pulsar_agregar tecleado s w).1 = agregar_articulo df tecleado s.
Proof.
  intros Hdf Hd He.
  unfold pulsar_agregar, cargar_archivo_maestro, read_excel_maestro. simpl.
  rewrite Hd, Hdf, He. done.
Qed.

End Carrito.

(** C1 (amended) — The stock is compared when an entry is added to the
    cart, not when the cart is confirmed.  The screen of the selected row
    shows the quantity and its button only while the 'Cantidad sobrante' of
    that row, in the table just loaded, is above zero, and bounds the
    quantity by 1 and that 'Cantidad sobrante': a press adds one entry,
    whose quantity lies within these bounds and is the number keyed when
    that number does; a number outside them is not taken, and the entry
    carries the 1 the widget starts from.  The master table and the
    directory are never written by this screen.  The confirmation makes no
    comparison: once its button is there, the two writes alone decide how
    the run ends. *)
Theorem stock_is_checked_when_adding_to_cart :
  (∀ df tecleado s s',
     Pantalla.agregar_articulo df tecleado s = Some s' →
     ∃ info,
       Pantalla.articulo_info df s = Some info
       ∧ ((m_Cantidad_sobrante info ≤ 0)%Z ∧ s' = s
          ∨ ∃ cantidad,
              (1 ≤ cantidad ≤ m_Cantidad_sobrante info)%Z
              ∧ ((1 ≤ tecleado ≤ m_Cantidad_sobrante info)%Z → cantidad = tecleado)
              ∧ s' = con_estado en_carrito
                       (con_carrito
                          (carrito s ++ [Pantalla.nuevo_articulo info cantidad]) s)))
  ∧ (∀ df tecleado s info,
       Pantalla.articulo_info df s = Some info →
       (0 < m_Cantidad_sobrante info)%Z →
       (tecleado < 1 ∨ m_Cantidad_sobrante info < tecleado)%Z →
       Pantalla.agregar_articulo df tecleado s
       = Some (con_estado en_carrito
                 (con_carrito (carrito s ++ [Pantalla.nuevo_articulo info 1]) s)))
  ∧ (∀ tecleado s w,
       CR_Control (pulsar_agregar tecleado s w).2 = CR_Control w
       ∧ directorio (pulsar_agregar tecleado s w).2 = directorio w)
  ∧ (∀ env s w,
       mostrar_dashboard s = false → estado s = en_finalizar_compra →
       carrito s ≠ [] → is_Some (CR_Control w) →
       ∃ nombre,
         (confirmar_y_guardar env s w).1.1
         = if to_excel_venta env
           then if to_excel_maestro env
                then CompraGuardada nombre else ErrorActualizar nombre
           else ErrorGuardar).
Proof.
  split_and!.
  - intros df tecleado s s' Hadd.
    destruct (Pantalla.articulo_info df s) as [info|] eqn:Hinfo.
    + exists info. split; [done|].
      rewrite (agregar_articulo_casos _ _ _ _ Hinfo) in Hadd.
      case_bool_decide; simplify_eq; [right|left; split; [lia|done]].
      exists (Pantalla.number_input 1 (m_Cantidad_sobrante info) 1 tecleado).
      split; [apply number_input_rango; lia|]. split; [|done].
      apply number_input_dentro.
    + unfold Pantalla.agregar_articulo in Hadd. by rewrite Hinfo in Hadd.
  - intros df tecleado s info Hinfo Hpos Hout.
    rewrite (agregar_articulo_casos _ _ _ _ Hinfo).
    rewrite bool_decide_eq_true_2 by done.
    rewrite number_input_fuera; [done|lia].
  - intros tecleado s w. apply pulsar_agregar_disco.
  - intros env s w Hd He Hne Hdf.
    destruct (confirmar_resultado env s w Hd He Hne Hdf) as (n & _ & Hr).
    by exists n.
Qed.

Lemma stock_is_checked_when_adding_to_cart_witness :
  Pantalla.articulo_info [Muestra.camisa_M] (Muestra.eligiendo "Camisa" "M" [])
  = Some Muestra.camisa_M
  ∧ (0 < m_Cantidad_sobrante Muestra.camisa_M)%Z
  ∧ (m_Cantidad_sobrante Muestra.camisa_M < 9)%Z
  ∧ Pantalla.agregar_articulo [Muestra.camisa_M] 9 (Muestra.eligiendo "Camisa" "M" [])
    = Some (con_estado en_carrito
              (Muestra.eligiendo "Camisa" "M" [Muestra.linea Muestra.camisa_M 1])).
Proof.
  assert (Pantalla.articulo_info [Muestra.camisa_M] (Muestra.eligiendo "Camisa" "M" [])
          = Some Muestra.camisa_M) as Hinfo by (vm_compute; reflexivity).
  assert (0 < m_Cantidad_sobrante Muestra.camisa_M)%Z as Hpos by (vm_compute; reflexivity).
  assert (m_Cantidad_sobrante Muestra.camisa_M < 9)%Z as Hlt by (vm_compute; reflexivity).
  split; [exact Hinfo|]. split; [exact Hpos|]. split; [exact Hlt|].
  exact (proj1 (proj2 stock_is_checked_when_adding_to_cart) _ 9%Z _ _
           Hinfo Hpos (or_intror Hlt)).
Defined.

(** C1, as stated, fails: a cart with 9 units of (Camisa, M), confirmed
    against a table where 8 are left, is saved; the row goes to 11 sold and
    -1 left, and the directory gains the sale workbook. *)
Lemma commit_does_not_recheck_stock_counterexample :
  Maestro.cantidad_pedida Muestra.carro_9 Muestra.camisa_M = 9%Z
  ∧ m_Cantidad_sobrante Muestra.camisa_M = 8%Z
  ∧ confirmar_y_guardar (Muestra.dia true true)
      (Muestra.sesion en_finalizar_compra Muestra.carro_9)
      (Muestra.mundo [Muestra.camisa_M])
    = (CompraGuardada "2025-03-14.xlsx", Muestra.sesion en_inicio [],
       {| CR_Control :=
            Some [ {| m_Producto := "Camisa"; m_SKU := "CAM-M"; m_Talla := "M";
                      m_Costo := 100; m_Cantidad_inicial := 10;
                      m_Cantidad_vendida := 11; m_Ganancia := 1100;
                      m_Cantidad_sobrante := -1 |} ];
          directorio := {[ "2025-03-14.xlsx" := [Muestra.vendida Muestra.camisa_M 9] ]};
          bitacora := [LeerMaestro; EscribirVenta "2025-03-14.xlsx" true;
                       LeerMaestro; EscribirMaestro true] |}).
Proof. split_and!; vm_compute; reflexivity. Qed.

(** ** Running the update twice *)

Section Repeticion.
Import Maestro.
Implicit Types (compras : list Articulo) (fila : FilaMaestro).

Lemma cantidad_pedida_fila_tras compras compras' fila :
  cantidad_pedida compras (fila_tras compras' fila) = cantidad_pedida compras fila.
Proof.
  induction compras as [|c compras IH]; simpl; [done|].
  by rewrite mask_fila_tras, IH.
Qed.

Lemma alguna_o_ninguna compras fila :
  Exists (fun compra => mask compra fila = true) compras
  ∨ Forall (fun compra => mask compra fila = false) compras.
Proof.
  induction compras as [|c compras [IH|IH]].
  - right. constructor.
  - left. by apply Exists_cons_tl.
  - destruct (mask c fila) eqn:Hc.
    + left. by apply Exists_cons_hd.
    + right. by constructor.
Qed.

Lemma fila_eq fila fila' :
  mismas_fijas fila fila' →
  m_Cantidad_vendida fila' = m_Cantidad_vendida fila →
  m_Ganancia fila' = m_Ganancia fila →
  m_Cantidad_sobrante fila' = m_Cantidad_sobrante fila →
  fila' = fila.
Proof.
  destruct fila, fila'. unfold mismas_fijas. simpl.
  intros (-> & -> & -> & -> & ->) -> -> ->. done.
Qed.

(** A row comes out of a second pass as it came out of the first exactly
    when the cart asks no units of it. *)
Lemma fila_tras_dos_veces compras fila :
  fila_tras compras (fila_tras compras fila) = fila_tras compras fila
  ↔ cantidad_pedida compras fila = 0%Z.
Proof.
  split.
  - intros Heq. apply (f_equal m_Cantidad_vendida) in Heq.
    rewrite !fila_tras_vendida, cantidad_pedida_fila_tras in Heq. lia.
  - intros Hcero.
    destruct (alguna_o_ninguna compras (fila_tras compras fila)) as [Hsi|Hno].
    + assert (derivadas_ok (fila_tras compras fila)) as [Hs Hg].
      { apply fila_tras_derivadas. left.
        eapply Exists_impl; [exact Hsi|]. intros c Hc. simpl in Hc.
        by rewrite mask_fila_tras in Hc. }
      destruct (fila_tras_derivadas compras (fila_tras compras fila))
        as [Hs2 Hg2]; [by left|].
      pose proof (fila_tras_fijas compras (fila_tras compras fila)) as Hfijas.
      assert (m_Cantidad_vendida (fila_tras compras (fila_tras compras fila))
              = m_Cantidad_vendida (fila_tras compras fila)) as Hv.
      { rewrite (fila_tras_vendida compras (fila_tras compras fila)).
        rewrite cantidad_pedida_fila_tras. lia. }
      destruct Hfijas as (Hp & Hk & Ht & Hc & Hi).
      apply fila_eq; [done|done| |].
      * rewrite Hg2, Hg, Hv, Hc. done.
      * rewrite Hs2, Hs, Hv, Hi. done.
    + by apply fila_tras_ajena.
Qed.

Lemma fmap_eq_Forall {A B} (f g : A → B) (l : list A) :
  f <$> l = g <$> l ↔ Forall (fun x => f x = g x) l.
Proof.
  induction l as [|x l IH].
  - split; [constructor|done].
  - rewrite !fmap_cons, Forall_cons, <- IH. split.
    + by intros [= ? ?].
    + by intros [-> ->].
Qed.

Lemma aplicar_compras_app compras1 compras2 (df : list FilaMaestro) :
  aplicar_compras (compras1 ++ compras2) df
  = aplicar_compras compras2 (aplicar_compras compras1 df).
Proof. unfold aplicar_compras. by rewrite foldl_app. Qed.

End Repeticion.

(** C5 (amended) — [actualizar_archivo_maestro] keeps no record of the sales
    it has applied: run twice with the same cart, both writes done, it
    leaves the table that one run with the cart doubled would leave, and on
    every row 'Cantidad vendida' stands above its value after the first run
    by the units the cart asks of that row.  The two runs leave the table of
    the first one exactly when the cart asks no units of any row. *)
Theorem reapplying_a_batch_adds_it_again env compras w :
  to_excel_maestro env = true →
  CR_Control (actualizar_dos_veces env compras w)
  = CR_Control (actualizar_archivo_maestro env (compras ++ compras) w).2
  ∧ vendida_otra_vez compras
      (CR_Control (actualizar_archivo_maestro env compras w).2)
      (CR_Control (actualizar_dos_veces env compras w))
  ∧ (CR_Control (actualizar_dos_veces env compras w)
     = CR_Control (actualizar_archivo_maestro env compras w).2
     ↔ en_libro (fun fila => Maestro.cantidad_pedida compras fila = 0%Z) w).
Proof.
  intros Hm. unfold actualizar_dos_veces.
  rewrite !actualizar_libro, Hm. unfold en_libro.
  destruct (CR_Control w) as [df|]; simpl; [|done].
  split_and!.
  - by rewrite aplicar_compras_app.
  - rewrite (aplicar_compras_fmap compras (Maestro.aplicar_compras compras df)).
    apply Forall2_fmap_r, Forall2_same_length_lookup_2; [done|].
    intros i fila fila' Hi Hi'. simplify_eq. apply fila_tras_vendida.
  - rewrite !aplicar_compras_fmap, <- list_fmap_compose.
    split.
    + intros [= Heq]. apply fmap_eq_Forall in Heq.
      eapply Forall_impl; [exact Heq|]. intros fila Hfila.
      by apply fila_tras_dos_veces.
    + intros Hcero. f_equal. apply fmap_eq_Forall.
      eapply Forall_impl; [exact Hcero|]. intros fila Hfila.
      by apply fila_tras_dos_veces.
Qed.

Lemma reapplying_a_batch_adds_it_again_witness :
  to_excel_maestro (Muestra.dia true true) = true
  ∧ CR_Control (actualizar_dos_veces (Muestra.dia true true) Muestra.carro_3
                  (Muestra.mundo [Muestra.camisa_M]))
    = CR_Control (actualizar_archivo_maestro (Muestra.dia true true)
                    (Muestra.carro_3 ++ Muestra.carro_3)
                    (Muestra.mundo [Muestra.camisa_M])).2.
Proof.
  split; [reflexivity|].
  exact (proj1 (reapplying_a_batch_adds_it_again (Muestra.dia true true)
                  Muestra.carro_3 (Muestra.mundo [Muestra.camisa_M]) eq_refl)).
Defined.

(** C5, as stated, fails: the cart of 3 units applied once leaves (Camisa,
    M) at 5 sold and 5 left; applied again it leaves 8 sold and 2 left. *)
Lemma reapplying_a_batch_counterexample :
  CR_Control (actualizar_archivo_maestro (Muestra.dia true true) Muestra.carro_3
                (Muestra.mundo [Muestra.camisa_M])).2
  = Some [ {| m_Producto := "Camisa"; m_SKU := "CAM-M"; m_Talla := "M";
              m_Costo := 100; m_Cantidad_inicial := 10;
              m_Cantidad_vendida := 5; m_Ganancia := 500;
              m_Cantidad_sobrante := 5 |} ]
  ∧ CR_Control (actualizar_dos_veces (Muestra.dia true true) Muestra.carro_3
                  (Muestra.mundo [Muestra.camisa_M]))
    = Some [ {| m_Producto := "Camisa"; m_SKU := "CAM-M"; m_Talla := "M";
                m_Costo := 100; m_Cantidad_inicial := 10;
                m_Cantidad_vendida := 8; m_Ganancia := 800;
                m_Cantidad_sobrante := 2 |} ]
  ∧ CR_Control (actualizar_dos_veces (Muestra.dia true true) Muestra.carro_3
                  (Muestra.mundo [Muestra.camisa_M]))
    ≠ CR_Control (actualizar_archivo_maestro (Muestra.dia true true) Muestra.carro_3
                    (Muestra.mundo [Muestra.camisa_M])).2.
Proof. split_and!; [vm_compute; reflexivity..|]. vm_compute. discriminate. Qed.

(** C6 — The code at the failing input: with 5 units of (Camisa, M) in
    stock the screen accepts 3 units, then 3 units again for the same row,
    each within the 5 the table shows; the cart asks 6 units of the row, the
    confirmation saves it, and the row is left with 6 sold and -1 in stock. *)
Lemma two_lines_of_three_against_five_are_saved :
  carrito <$> Muestra.tras_primera.1 = Some [Muestra.linea Muestra.camisa_M_5 3]
  ∧ carrito <$> Muestra.tras_segunda.1 = Some Muestra.dos_lineas
  ∧ m_Cantidad_sobrante Muestra.camisa_M_5 = 5%Z
  ∧ Maestro.cantidad_pedida Muestra.dos_lineas Muestra.camisa_M_5 = 6%Z
  ∧ Muestra.tras_confirmar.1.1 = CompraGuardada "2025-03-14.xlsx"
  ∧ carrito Muestra.tras_confirmar.1.2 = []
  ∧ CR_Control Muestra.tras_confirmar.2
    = Some [ {| m_Producto := "Camisa"; m_SKU := "CAM-M"; m_Talla := "M";
                m_Costo := 100; m_Cantidad_inicial := 5;
                m_Cantidad_vendida := 6; m_Ganancia := 600;
                m_Cantidad_sobrante := -1 |} ]
  ∧ directorio Muestra.tras_confirmar.2
    = {[ "2025-03-14.xlsx" := [Muestra.vendida Muestra.camisa_M_5 3;
                               Muestra.vendida Muestra.camisa_M_5 3] ]}.
Proof. split_and!; vm_compute; reflexivity. Qed.

(** ** Entries whose key the table lacks *)

Section Ausentes.
Import Maestro.

Lemma fila_tras_presentes (df : list FilaMaestro) compras fila :
  (∀ compra, existsb (mask compra) df = false → mask compra fila = false) →
  fila_tras (presentes df compras) fila = fila_tras compras fila.
Proof.
  revert fila. induction compras as [|c compras IH]; intros fila Hfila; [done|].
  unfold presentes in *. rewrite filter_cons.
  destruct (decide (existsb (mask c) df = true)) as [Hc|Hc].
  - rewrite !fila_tras_cons. apply IH.
    intros c' Hc'. rewrite mask_actualizar_fila. by apply Hfila.
  - apply not_true_is_false in Hc.
    rewrite fila_tras_cons, actualizar_fila_ajena by by apply Hfila.
    by apply IH.
Qed.

Lemma aplicar_compras_presentes (df : list FilaMaestro) compras :
  aplicar_compras (presentes df compras) df = aplicar_compras compras df.
Proof.
  rewrite !aplicar_compras_fmap. apply fmap_eq_Forall, Forall_forall.
  intros fila Hfila. apply fila_tras_presentes.
  intros c Hc. destruct (mask c fila) eqn:Hm; [|done].
  assert (existsb (mask c) df = true) as Hex; [|congruence].
  apply existsb_exists. exists fila. split; [|done]. by apply list_elem_of_In.
Qed.

End Ausentes.

(** C7 (amended) — An entry of the cart whose (Producto, Talla) is in no row
    of the master table is passed over without a word: with the workbook
    readable, [actualizar_archivo_maestro] returns what its write returns
    ([True] when it completes), and the table it writes is the one the
    entries with a row in the table produce on their own. *)
Theorem absent_key_is_skipped_silently env compras w df :
  CR_Control w = Some df →
  (actualizar_archivo_maestro env compras w).1 = to_excel_maestro env
  ∧ CR_Control (actualizar_archivo_maestro env compras w).2
    = Some (if to_excel_maestro env
            then Maestro.aplicar_compras (presentes df compras) df
            else df).
Proof.
  intros Hdf. rewrite actualizar_resultado, actualizar_libro, Hdf.
  split; [done|].
  destruct (to_excel_maestro env); simpl; [|done].
  by rewrite aplicar_compras_presentes.
Qed.

Lemma absent_key_is_skipped_silently_witness :
  CR_Control (Muestra.mundo [Muestra.camisa_M]) = Some [Muestra.camisa_M]
  ∧ presentes [Muestra.camisa_M] Muestra.carro_con_ausente = Muestra.carro_3
  ∧ (actualizar_archivo_maestro (Muestra.dia true true) Muestra.carro_con_ausente
       (Muestra.mundo [Muestra.camisa_M])).1 = true
  ∧ CR_Control (actualizar_archivo_maestro (Muestra.dia true true)
                  Muestra.carro_con_ausente (Muestra.mundo [Muestra.camisa_M])).2
    = Some (Maestro.aplicar_compras Muestra.carro_3 [Muestra.camisa_M]).
Proof.
  split; [reflexivity|]. split; [vm_compute; reflexivity|].
  exact (absent_key_is_skipped_silently (Muestra.dia true true)
           Muestra.carro_con_ausente (Muestra.mundo [Muestra.camisa_M])
           [Muestra.camisa_M] eq_refl).
Defined.

(** C7, as stated, fails: with (Gorra, U) in the cart and not in the table,
    the update returns [True] and has applied the entry of (Camisa, M). *)
Lemma absent_key_counterexample :
  existsb (Maestro.mask (Muestra.linea Muestra.gorra_U 1)) [Muestra.camisa_M] = false
  ∧ actualizar_archivo_maestro (Muestra.dia true true) Muestra.carro_con_ausente
      (Muestra.mundo [Muestra.camisa_M])
    = (true,
       {| CR_Control :=
            Some [ {| m_Producto := "Camisa"; m_SKU := "CAM-M"; m_Talla := "M";
                      m_Costo := 100; m_Cantidad_inicial := 10;
                      m_Cantidad_vendida := 5; m_Ganancia := 500;
                      m_Cantidad_sobrante := 5 |} ];
          directorio := ∅;
          bitacora := [LeerMaestro; EscribirMaestro true] |}).
Proof. split; vm_compute; reflexivity. Qed.

(** C8 (amended) — [cargar_archivo_maestro] hands over the table as the
    workbook stores it, derived columns included: the screen that fills the
    cart shows the quantity only while the stored 'Cantidad sobrante' of the
    selected row is above zero and bounds the quantity by that stored
    value, so a quantity up to it is taken as keyed.  The derived columns
    are computed afresh only when a cart is written into the table, and
    only on the rows some entry of the cart hits; the other rows keep what
    was stored. *)
Theorem derived_columns_are_trusted_on_load :
  (∀ w, (cargar_archivo_maestro w).1 = CR_Control w)
  ∧ (∀ tecleado s w df info,
       CR_Control w = Some df → mostrar_dashboard s = false →
       estado s = en_confirmar_articulo →
       Pantalla.articulo_info df s = Some info →
       (pulsar_agregar tecleado s w).1
       = Some (if bool_decide (0 < m_Cantidad_sobrante info)%Z
               then con_estado en_carrito
                      (con_carrito
                         (carrito s
                          ++ [Pantalla.nuevo_articulo info
                                (Pantalla.number_input 1 (m_Cantidad_sobrante info) 1
                                   tecleado)]) s)
               else s)
       ∧ ((1 ≤ tecleado ≤ m_Cantidad_sobrante info)%Z →
          (pulsar_agregar tecleado s w).1
          = Some (con_estado en_carrito
                    (con_carrito
                       (carrito s ++ [Pantalla.nuevo_articulo info tecleado]) s))))
  ∧ (∀ compras df, recalculo compras df (Maestro.aplicar_compras compras df)).
Proof.
  split_and!.
  - done.
  - intros tecleado s w df info Hdf Hd He Hinfo.
    rewrite (pulsar_agregar_visible _ _ _ _ Hdf Hd He).
    rewrite (agregar_articulo_casos _ _ _ _ Hinfo). split; [done|].
    intros Hq. rewrite bool_decide_eq_true_2 by lia.
    by rewrite number_input_dentro.
  - intros compras df. rewrite aplicar_compras_fmap. unfold recalculo.
    apply Forall2_fmap_r, Forall2_same_length_lookup_2; [done|].
    intros i fila fila' Hi Hi'. simplify_eq. split.
    + intros Hex. apply fila_tras_derivadas. by left.
    + apply fila_tras_ajena.
Qed.

Lemma derived_columns_are_trusted_on_load_witness :
  CR_Control (Muestra.mundo [Muestra.camisa_M_retocada])
  = Some [Muestra.camisa_M_retocada]
  ∧ Pantalla.articulo_info [Muestra.camisa_M_retocada] (Muestra.eligiendo "Camisa" "M" [])
    = Some Muestra.camisa_M_retocada
  ∧ (1 ≤ 50 ≤ m_Cantidad_sobrante Muestra.camisa_M_retocada)%Z
  ∧ (pulsar_agregar 50 (Muestra.eligiendo "Camisa" "M" [])
       (Muestra.mundo [Muestra.camisa_M_retocada])).1
    = Some (con_estado en_carrito
              (Muestra.eligiendo "Camisa" "M"
                 [Muestra.linea Muestra.camisa_M_retocada 50])).
Proof.
  assert (Pantalla.articulo_info [Muestra.camisa_M_retocada]
            (Muestra.eligiendo "Camisa" "M" [])
          = Some Muestra.camisa_M_retocada) as Hinfo by (vm_compute; reflexivity).
  assert (1 ≤ 50 ≤ m_Cantidad_sobrante Muestra.camisa_M_retocada)%Z as Hq
    by (vm_compute; split; discriminate).
  split; [reflexivity|]. split; [exact Hinfo|]. split; [exact Hq|].
  exact (proj2 (proj1 (proj2 derived_columns_are_trusted_on_load) 50%Z
                  (Muestra.eligiendo "Camisa" "M" [])
                  (Muestra.mundo [Muestra.camisa_M_retocada])
                  [Muestra.camisa_M_retocada] Muestra.camisa_M_retocada
                  eq_refl eq_refl eq_refl Hinfo) Hq).
Defined.

(** C8, as stated, fails: a row stored with 10 initial, 2 sold and a
    hand-written 50 in 'Cantidad sobrante' is loaded with that 50, and the
    screen lets 50 units of it into the cart. *)
Lemma load_does_not_recompute_counterexample :
  (cargar_archivo_maestro (Muestra.mundo [Muestra.camisa_M_retocada])).1
  = Some [Muestra.camisa_M_retocada]
  ∧ m_Cantidad_sobrante Muestra.camisa_M_retocada = 50%Z
  ∧ (m_Cantidad_inicial Muestra.camisa_M_retocada
     - m_Cantidad_vendida Muestra.camisa_M_retocada = 8)%Z
  ∧ carrito <$> (pulsar_agregar 50 (Muestra.eligiendo "Camisa" "M" [])
                   (Muestra.mundo [Muestra.camisa_M_retocada])).1
    = Some [Muestra.linea Muestra.camisa_M_retocada 50].
Proof. split_and!; vm_compute; reflexivity. Qed.

(** * Further properties of the code *)

#[local] Set Warnings "-clear-no-such-hyp".

(** ** [ordenar_tallas] *)

Section OrdenTallas.
Import Tallas.
Context {A : Type} `{Valores A} `{EqDecision A}.
Implicit Types (tallas acc vistos valores : list A) (x : A).

Lemma tallas_en_orden_forma tallas :
  tallas_en_orden tallas
  = literal <$> filter (fun t => literal t ∈ tallas) orden_tallas.
Proof.
  unfold tallas_en_orden.
  assert (∀ l acc,
    foldl (fun a t => if decide (literal t ∈ tallas) then a ++ [literal t] else a) acc l
    = acc ++ (literal <$> filter (fun t => literal t ∈ tallas) l)) as Hgen.
  { induction l as [|t l IH]; intros acc; simpl.
    - by rewrite app_nil_r.
    - rewrite IH, filter_cons. destruct (decide (literal t ∈ tallas)); [|done].
      by rewrite fmap_cons, <- app_assoc. }
  by rewrite Hgen.
Qed.

(** The sizes a pass of the second loop adds after [vistos]. *)
Lemma agregar_restantes_cons acc x tallas :
  agregar_restantes acc (x :: tallas)
  = agregar_restantes (if decide (x ∈ acc) then acc else acc ++ [x]) tallas.
Proof. done. Qed.

Lemma agregar_restantes_prefijo acc tallas :
  ∃ nuevas, agregar_restantes acc tallas = acc ++ nuevas
    ∧ NoDup nuevas
    ∧ ∀ x, x ∈ nuevas ↔ x ∈ tallas ∧ x ∉ acc.
Proof.
  revert acc. induction tallas as [|t tallas IH]; intros acc.
  - exists []. rewrite app_nil_r. split_and!; [done|constructor|].
    intros x. rewrite elem_of_nil. naive_solver.
  - rewrite agregar_restantes_cons. destruct (decide (t ∈ acc)) as [Hin|Hout].
    + destruct (IH acc) as (nuevas & -> & Hnd & Hel).
      exists nuevas. split_and!; [done..|].
      intros x. rewrite Hel, elem_of_cons. naive_solver.
    + destruct (IH (acc ++ [t])) as (nuevas & -> & Hnd & Hel).
      exists (t :: nuevas). split_and!.
      * by rewrite <- app_assoc.
      * constructor; [|done]. rewrite Hel, elem_of_app, list_elem_of_singleton.
        naive_solver.
      * intros x. rewrite !elem_of_cons, Hel, elem_of_app, list_elem_of_singleton.
        destruct (decide (x = t)); naive_solver.
Qed.

Lemma filter_ninguno (P : A → Prop) `{∀ a, Decision (P a)} (l : list A) :
  Forall (fun a => ¬ P a) l → filter P l = [].
Proof.
  induction 1 as [|a l Ha _ IH]; [done|].
  rewrite filter_cons. by destruct (decide (P a)).
Qed.

Lemma filter_todos (P : A → Prop) `{∀ a, Decision (P a)} (l : list A) :
  Forall P l → filter P l = l.
Proof.
  induction 1 as [|a l Ha _ IH]; [done|].
  rewrite filter_cons. destruct (decide (P a)); [|done]. by rewrite IH.
Qed.

(** With the listed sizes already in place, the second loop only looks at
    the sizes outside the list. *)
Lemma agregar_restantes_filtrado (P : A → Prop) `{∀ x, Decision (P x)}
    (conocidas otras tallas : list A) :
  (∀ x, x ∈ tallas → P x → x ∈ conocidas) →
  (∀ x, x ∈ conocidas → P x) →
  (∀ x, x ∈ otras → ¬ P x) →
  agregar_restantes (conocidas ++ otras) tallas
  = conocidas ++ agregar_restantes otras (filter (fun x => ¬ P x) tallas).
Proof.
  intros Hcon HP. revert otras.
  induction tallas as [|t tallas IH]; intros otras Hotras; [done|].
  rewrite agregar_restantes_cons, filter_cons.
  assert (∀ x, x ∈ tallas → P x → x ∈ conocidas) as Hcon'.
  { intros x Hx. apply Hcon. by right. }
  destruct (decide (¬ P t)) as [Hno|Hsi].
  - rewrite agregar_restantes_cons.
    destruct (decide (t ∈ otras)) as [Hin|Hout].
    + rewrite decide_True by (apply elem_of_app; by right). by apply IH.
    + rewrite decide_False.
      * rewrite <- app_assoc. apply IH; [done|].
        intros x [Hx|Hx]%elem_of_app; [by apply Hotras|].
        apply list_elem_of_singleton in Hx. by subst x.
      * intros [Hk|Ho]%elem_of_app; [|done]. by apply Hno, HP.
  - apply dec_stable in Hsi.
    rewrite decide_True; [by apply IH|].
    apply elem_of_app. left. apply Hcon; [by left|done].
Qed.

Lemma agregar_restantes_NoDup acc tallas :
  NoDup (acc ++ tallas) → agregar_restantes acc tallas = acc ++ tallas.
Proof.
  revert acc. induction tallas as [|t tallas IH]; intros acc Hnd.
  - by rewrite app_nil_r.
  - rewrite agregar_restantes_cons.
    apply NoDup_app in Hnd as (Hacc & Hdis & Hl).
    rewrite decide_False by (intros Hin; apply (Hdis t Hin); by left).
    rewrite IH; [by rewrite <- app_assoc|].
    rewrite <- app_assoc. simpl. apply NoDup_app. split_and!; [done| |done].
    intros x Hx. by apply Hdis.
Qed.

Lemma unique_NoDup valores : NoDup (unique valores).
Proof.
  destruct (agregar_restantes_prefijo [] valores) as (nuevas & Heq & Hnd & _).
  unfold unique. fold (agregar_restantes [] valores). by rewrite Heq.
Qed.

Lemma elem_of_unique valores x : x ∈ unique valores ↔ x ∈ valores.
Proof.
  destruct (agregar_restantes_prefijo [] valores) as (nuevas & Heq & _ & Hel).
  unfold unique. fold (agregar_restantes [] valores). rewrite Heq. simpl.
  rewrite Hel, elem_of_nil. naive_solver.
Qed.

Lemma unique_sin_repetidos valores : NoDup valores → unique valores = valores.
Proof. intros Hnd. by apply (agregar_restantes_NoDup []). Qed.

(** The closed form of [ordenar_tallas], on strings and on cells alike. *)
Lemma ordenar_tallas_forma_general tallas :
  ordenar_tallas tallas
  = (literal <$> filter (fun t => literal t ∈ tallas) orden_tallas)
    ++ unique (filter (fun x => x ∉ literal <$> orden_tallas) tallas).
Proof.
  unfold ordenar_tallas. rewrite tallas_en_orden_forma.
  rewrite <- (app_nil_r (literal <$> filter _ orden_tallas)) at 1.
  rewrite (agregar_restantes_filtrado (fun x => x ∈ literal <$> orden_tallas));
    [done|..].
  - intros x Hx (t & -> & Ht)%list_elem_of_fmap.
    apply list_elem_of_fmap_2, list_elem_of_filter. by split.
  - intros x (t & -> & Ht)%list_elem_of_fmap.
    apply list_elem_of_fmap_2. by apply list_elem_of_filter in Ht as [_ ?].
  - by intros x ?%elem_of_nil.
Qed.

Lemma ordenar_tallas_elem_of tallas x : x ∈ ordenar_tallas tallas ↔ x ∈ tallas.
Proof.
  unfold ordenar_tallas.
  destruct (agregar_restantes_prefijo (tallas_en_orden tallas) tallas)
    as (nuevas & -> & _ & Hel).
  rewrite tallas_en_orden_forma in *.
  rewrite elem_of_app, Hel. split.
  - intros [(t & -> & Ht)%list_elem_of_fmap | [? _]]; [|done].
    by apply list_elem_of_filter in Ht as [? _].
  - intros Hx.
    destruct (decide (x ∈ literal <$> filter (fun t => literal t ∈ tallas) orden_tallas))
      as [Hin|Hout]; [by left|by right].
Qed.

Lemma ordenar_tallas_NoDup tallas :
  Inj (=) (=) (literal (A:=A)) → NoDup (ordenar_tallas tallas).
Proof.
  intros Hinj. unfold ordenar_tallas.
  destruct (agregar_restantes_prefijo (tallas_en_orden tallas) tallas)
    as (nuevas & -> & Hnd & Hel).
  rewrite tallas_en_orden_forma in *.
  apply NoDup_app. split_and!; [|by intros x ? [_ ?]%Hel|done].
  apply (NoDup_fmap_2 _), NoDup_filter.
  apply (bool_decide_unpack _). vm_compute. exact I.
Qed.

End OrdenTallas.

(** On strings. *)
Lemma ordenar_tallas_forma (tallas : list string) :
  Tallas.ordenar_tallas tallas
  = filter (fun t => t ∈ tallas) Tallas.orden_tallas
    ++ Tallas.unique (filter (fun t => t ∉ Tallas.orden_tallas) tallas).
Proof.
  rewrite ordenar_tallas_forma_general.
  unfold literal, valores_string. by rewrite !list_fmap_id.
Qed.

Lemma ordenar_tallas_elementos (tallas : list string) :
  NoDup (Tallas.ordenar_tallas tallas)
  ∧ ∀ x, x ∈ Tallas.ordenar_tallas tallas ↔ x ∈ tallas.
Proof.
  split; [|apply ordenar_tallas_elem_of].
  apply ordenar_tallas_NoDup. by intros x y.
Qed.

(** X1 — [ordenar_tallas] returns every size it was given and no other,
    each of them once, also when the input repeats a size. *)
Theorem ordenar_tallas_keeps_the_sizes (tallas : list string) :
  NoDup (Tallas.ordenar_tallas tallas)
  ∧ ∀ x, x ∈ Tallas.ordenar_tallas tallas ↔ x ∈ tallas.
Proof. apply ordenar_tallas_elementos. Qed.

(** X2 — On sizes without repetition, as [unique()] gives them,
    [ordenar_tallas] only reorders: the result is a permutation of the
    input and has its length. *)
Theorem ordenar_tallas_permutes (tallas : list string) :
  NoDup tallas →
  Tallas.ordenar_tallas tallas ≡ₚ tallas
  ∧ length (Tallas.ordenar_tallas tallas) = length tallas.
Proof.
  intros Hnd.
  destruct (ordenar_tallas_elementos tallas) as [Hnd' Hel].
  assert (Tallas.ordenar_tallas tallas ≡ₚ tallas) as Hperm
    by by apply NoDup_Permutation.
  split; [done|]. by rewrite Hperm.
Qed.

(** X3 — In the result of [ordenar_tallas] the sizes of the fixed list XS,
    S, M, L, XL, 2XL, 3XL, 4XL, 5XL come first, in that order, and the sizes
    outside the list follow in the order in which they first appear in the
    input. *)
Theorem ordenar_tallas_listed_sizes_first (tallas : list string) :
  Tallas.ordenar_tallas tallas
  = filter (fun t => t ∈ tallas) Tallas.orden_tallas
    ++ Tallas.unique (filter (fun t => t ∉ Tallas.orden_tallas) tallas).
Proof. apply ordenar_tallas_forma. Qed.

(** X4 — Ordering sizes that are already ordered changes nothing:
    [ordenar_tallas] applied to its own result returns it. *)
Theorem ordenar_tallas_idempotent (tallas : list string) :
  Tallas.ordenar_tallas (Tallas.ordenar_tallas tallas) = Tallas.ordenar_tallas tallas.
Proof.
  destruct (ordenar_tallas_elementos tallas) as [_ Hel].
  rewrite (ordenar_tallas_forma (Tallas.ordenar_tallas tallas)).
  rewrite (list_filter_iff _ (fun t => t ∈ tallas)) by (intros t; apply Hel).
  rewrite (ordenar_tallas_forma tallas) at 1 2.
  set (conocidas := filter (fun t => t ∈ tallas) Tallas.orden_tallas).
  set (otras := Tallas.unique (filter (fun t => t ∉ Tallas.orden_tallas) tallas)).
  assert (filter (fun t => t ∉ Tallas.orden_tallas) conocidas = []) as Hcon.
  { apply filter_ninguno, Forall_forall.
    intros x Hx%list_elem_of_filter Hno. by destruct Hx. }
  assert (filter (fun t => t ∉ Tallas.orden_tallas) otras = otras) as Hotras.
  { apply filter_todos, Forall_forall. intros x Hx.
    unfold otras in Hx. rewrite elem_of_unique in Hx.
    by apply list_elem_of_filter in Hx as [? _]. }
  rewrite filter_app, Hcon, Hotras. simpl.
  by rewrite unique_sin_repetidos by apply unique_NoDup.
Qed.

(** ** Cells and [==] *)

Section Celdas.
Implicit Types (a b : Celda) (fila : FilaMaestro) (compra : Articulo).

Lemma igual_true a b : igual a b = true ↔ a = b ∧ a ≠ NaN.
Proof.
  destruct a as [|x], b as [|y]; simpl; try (split; [done|by intros [? ?]]).
  rewrite bool_decide_eq_true. split; [by intros ->|]. by intros [[= ->] _].
Qed.


Lemma igual_refl a : a ≠ NaN → igual a a = true.
Proof. intros Ha. by apply igual_true. Qed.

Lemma igual_a_true a valor : igual_a a valor = true ↔ valor = Some a ∧ a ≠ NaN.
Proof.
  destruct valor as [b|]; simpl; [|split; [done|by intros [? ?]]].
  rewrite igual_true. split; [by intros [-> ?]|]. by intros [[= ->] ?].
Qed.

(** [mask] holds on the rows that carry the key of the entry, a key with
    a blank cell being the key of no row. *)
Lemma mask_true compra fila :
  Maestro.mask compra fila = true
  ↔ (m_Producto fila = c_Producto compra ∧ m_Talla fila = c_Talla compra)
    ∧ m_Producto fila ≠ NaN ∧ m_Talla fila ≠ NaN.
Proof.
  unfold Maestro.mask. rewrite andb_true_iff, !igual_true. naive_solver.
Qed.

End Celdas.

(** ** The screens of [main] *)

Section Navegar.
Import Navegacion.
Implicit Types (env : Entorno) (ev : Evento) (s : Sesion) (w : Mundo).
Implicit Types (df : list FilaMaestro) (talla producto : Celda).

Lemma no_vacia_de_elemento {A} (l : list A) (a : A) : a ∈ l → l ≠ [].
Proof. intros Hin ->. by apply elem_of_nil in Hin. Qed.

Lemma head_filter_is_Some {A} (P : A → Prop) `{∀ a, Decision (P a)}
    (l : list A) (a : A) :
  a ∈ l → P a → is_Some (head (filter P l)).
Proof.
  intros Hin HP. apply head_is_Some.
  apply (no_vacia_de_elemento _ a). by apply list_elem_of_filter.
Qed.

Lemma head_filter_elem_of {A} (P : A → Prop) `{∀ a, Decision (P a)}
    (l : list A) (a : A) :
  head (filter P l) = Some a → P a ∧ a ∈ l.
Proof. intros Hh. by apply head_Some_elem_of, list_elem_of_filter in Hh. Qed.

(** A product offered on the product screen is the Producto of some row. *)
Lemma producto_tiene_fila df producto :
  producto ∈ productos_disponibles df →
  ∃ fila, fila ∈ df ∧ m_Producto fila = producto.
Proof.
  unfold productos_disponibles. rewrite elem_of_unique, list_elem_of_fmap.
  intros (fila & -> & Hfila). by exists fila.
Qed.

(** Unless its cell is blank, it has at least one size. *)
Lemma producto_tiene_tallas df producto s :
  producto ∈ productos_disponibles df → producto ≠ NaN →
  producto_seleccionado s = Some producto →
  tallas_disponibles df s ≠ [].
Proof.
  intros (fila & Hfila & <-)%producto_tiene_fila Hp Hsel.
  unfold tallas_disponibles.
  apply (no_vacia_de_elemento _ (m_Talla fila)).
  rewrite elem_of_unique. apply list_elem_of_fmap_2, list_elem_of_filter.
  split; [|done]. by apply igual_a_true.
Qed.


(** A size offered on the size screen is the size of some row of the
    selected product. *)
Lemma talla_tiene_fila df s talla :
  talla ∈ Tallas.ordenar_tallas (tallas_disponibles df s) →
  ∃ fila, fila ∈ df ∧ igual_a (m_Producto fila) (producto_seleccionado s) = true
          ∧ m_Talla fila = talla.
Proof.
  intros Ht. apply (proj1 (ordenar_tallas_elem_of _ _)) in Ht.
  unfold tallas_disponibles in Ht.
  rewrite elem_of_unique, list_elem_of_fmap in Ht.
  destruct Ht as (fila & -> & Hfila).
  apply list_elem_of_filter in Hfila as [Hp Hin]. by exists fila.
Qed.

Lemma stock_talla_is_Some df s talla :
  talla ∈ Tallas.ordenar_tallas (tallas_disponibles df s) → talla ≠ NaN →
  is_Some (stock_talla df s talla).
Proof.
  intros (fila & Hin & Hp & Ht)%talla_tiene_fila Hno.
  unfold stock_talla. apply fmap_is_Some.
  apply (head_filter_is_Some _ _ fila); [done|].
  rewrite Hp, Ht. simpl. by apply igual_refl.
Qed.


(** A size whose row was found has a row on the quantity screen. *)
Lemma articulo_info_con_talla df s talla stock e :
  stock_talla df s talla = Some stock →
  is_Some (Pantalla.articulo_info df (con_estado e (con_talla (Some talla) s))).
Proof.
  unfold stock_talla, Pantalla.articulo_info. simpl.
  destruct (head (filter _ df)) as [fila|] eqn:Hfila; [intros _|done].
  by eexists.
Qed.

(** The row the quantity screen shows is the first row that [mask] finds
    for the entry built from it. *)
Lemma articulo_info_primera df s info cantidad :
  Pantalla.articulo_info df s = Some info →
  head (filter (fun fila =>
                  Maestro.mask (Pantalla.nuevo_articulo info cantidad) fila = true) df)
  = Some info.
Proof.
  unfold Pantalla.articulo_info. intros Hinfo.
  pose proof (head_filter_elem_of _ _ _ Hinfo) as [Hsel _].
  apply andb_true_iff in Hsel as [Hp Ht].
  apply igual_a_true in Hp as [Hp Hpn], Ht as [Ht Htn].
  rewrite <- Hinfo. f_equal. apply list_filter_iff.
  intros fila. unfold Maestro.mask. simpl. by rewrite Hp, Ht.
Qed.

Lemma linea_valida_nuevo df s info cantidad :
  Pantalla.articulo_info df s = Some info →
  (1 ≤ cantidad ≤ m_Cantidad_sobrante info)%Z →
  linea_valida df (Pantalla.nuevo_articulo info cantidad).
Proof.
  intros Hinfo Hq. exists info. split; [|by split].
  by eapply articulo_info_primera.
Qed.

(** How the loop over the size buttons can end. *)
Lemma botones_talla_casos df ev s i (tallas : list Celda) s' :
  botones_talla df ev s i tallas = Some s' →
  s' = s
  ∨ ∃ talla stock,
      talla ∈ tallas ∧ stock_talla df s talla = Some stock ∧ stock ≠ 0%Z
      ∧ s' = con_estado en_confirmar_articulo (con_talla (Some talla) s).
Proof.
  revert i. induction tallas as [|t tallas IH]; intros i Hb; [done|].
  simpl in Hb. destruct (stock_talla df s t) as [stock|] eqn:Hs.
  - destruct (bool_decide (ev = ev_talla i) && negb (bool_decide (stock = 0%Z)))
      eqn:Hpress.
    + injection Hb as <-. right. exists t, stock.
      apply andb_true_iff in Hpress as [_ Hstock].
      apply negb_true_iff, bool_decide_eq_false in Hstock.
      split_and!; [by left|done..].
    + destruct (IH _ Hb) as [-> | (talla & st & Hin & ? & ? & ->)]; [by left|].
      right. exists talla, st. split_and!; [by right|done..].
  - injection Hb as <-. by left.
Qed.

Lemma botones_talla_carrito df ev s i (tallas : list Celda) s' :
  botones_talla df ev s i tallas = Some s' → carrito s' = carrito s.
Proof.
  by intros [-> | (talla & stock & _ & _ & _ & ->)]%botones_talla_casos.
Qed.

(** With every row found, the loop ends at the pressed button, if that one
    has stock. *)
Lemma botones_talla_pulsado df s i (tallas : list Celda) k talla stock :
  Forall (fun t => is_Some (stock_talla df s t)) tallas →
  tallas !! k = Some talla → stock_talla df s talla = Some stock → stock ≠ 0%Z →
  botones_talla df (ev_talla (i + k)) s i tallas
  = Some (con_estado en_confirmar_articulo (con_talla (Some talla) s)).
Proof.
  revert i k. induction tallas as [|t tallas IH]; intros i k Hall Hk Hs Hne; [done|].
  apply Forall_cons in Hall as [[st Hst] Hall]. simpl. rewrite Hst.
  destruct k as [|k]; simpl in Hk.
  - injection Hk as ->. rewrite Hs in Hst. injection Hst as <-.
    rewrite Nat.add_0_r, bool_decide_eq_true_2 by done.
    by rewrite bool_decide_eq_false_2.
  - rewrite bool_decide_eq_false_2 by (intros [= ?]; lia). simpl.
    replace (i + S k) with (S i + k) by lia. by apply IH.
Qed.


Local Ltac cerrar :=
  split_and!; simpl; try (intros; congruence); try done; auto;
  try (match goal with H : carrito _ = _ |- _ => rewrite H end; done).

(** A screen keeps what the screens rely on, the table being the same. *)
Lemma pantalla_invariante df ev s :
  (estado s = en_finalizar_compra → carrito s ≠ []) →
  (estado s = en_seleccionar_talla →
   ∃ producto, producto_seleccionado s = Some producto
               ∧ producto ∈ productos_disponibles df) →
  (estado s = en_confirmar_articulo → is_Some (Pantalla.articulo_info df s)) →
  Forall (linea_valida df) (carrito s) →
  (estado (pantalla df ev s) = en_finalizar_compra → carrito (pantalla df ev s) ≠ [])
  ∧ (estado (pantalla df ev s) = en_seleccionar_talla →
     ∃ producto, producto_seleccionado (pantalla df ev s) = Some producto
                 ∧ producto ∈ productos_disponibles df)
  ∧ (estado (pantalla df ev s) = en_confirmar_articulo →
     is_Some (Pantalla.articulo_info df (pantalla df ev s)))
  ∧ Forall (linea_valida df) (carrito (pantalla df ev s)).
Proof.
  intros Hfin Htal Hcon Hcar. unfold pantalla.
  destruct (estado s) eqn:He.
  - destruct ev; cerrar.
  - destruct ev; try by cerrar.
    + destruct (productos_disponibles df !! i) as [producto|] eqn:Hi; [|by cerrar].
      cerrar. intros _. exists producto. split; [done|].
      by eapply list_elem_of_lookup_2.
    + destruct (carrito s) as [|c0 cs] eqn:Hcs; cerrar.
  - destruct (Tallas.ordenar_tallas (tallas_disponibles df s)) as [|t0 resto] eqn:Hord;
      [by cerrar|].
    destruct (botones_talla df ev s 0 (t0 :: resto)) as [s'|] eqn:Hb.
    + apply botones_talla_casos in Hb as [-> | (talla & stock & _ & Hs & _ & ->)];
        [by cerrar|].
      cerrar. intros _. by eapply articulo_info_con_talla.
    + destruct ev; by cerrar.
  - destruct (Pantalla.articulo_info df s) as [info|] eqn:Hinfo;
      [|by destruct (Hcon eq_refl)].
    case_bool_decide; [|destruct ev; by cerrar].
    destruct ev; try by cerrar.
    rewrite (agregar_articulo_casos _ _ _ _ Hinfo). simpl.
    rewrite bool_decide_eq_true_2 by lia.
    cerrar. apply Forall_app. split; [done|].
    apply Forall_singleton. eapply linea_valida_nuevo; [done|].
    apply number_input_rango. lia.
  - destruct (carrito s) as [|c0 cs] eqn:Hcs; destruct ev; try by cerrar.
    cerrar. by apply Forall_delete.
  - destruct (carrito s) as [|c0 cs] eqn:Hcs; [by destruct (Hfin eq_refl)|].
    destruct ev; by cerrar.
Qed.

Lemma main_disco env ev s w :
  ev ≠ ev_confirmar →
  CR_Control (main env ev s w).2 = CR_Control w
  ∧ directorio (main env ev s w).2 = directorio w.
Proof.
  intros Hev. unfold main, cargar_archivo_maestro, read_excel_maestro. simpl.
  destruct ev; try done;
    destruct (CR_Control w) eqn:Hw, (mostrar_dashboard s); simpl; by rewrite ?Hw.
Qed.

(** One run keeps what the screens rely on. *)
Lemma main_invariante env ev s w :
  invariante s w → invariante (main env ev s w).1 (main env ev s w).2.
Proof.
  intros [Hfin Hdf].
  destruct (decide (ev = ev_confirmar)) as [->|Hev].
  - unfold main. simpl.
    destruct (confirmar_y_guardar env s w) as [[r s'] w'] eqn:Hc. simpl.
    destruct r as [| | |n|n].
    + apply confirmar_sin_maestro in Hc as (-> & _ & Hnone & _).
      split; [done|]. intros df Hdf'. congruence.
    + apply confirmar_sin_boton in Hc as (-> & Hl & _).
      split; [done|]. intros df Hdf'. rewrite Hl in Hdf'. by apply Hdf.
    + apply confirmar_error_guardar in Hc as (-> & _ & Hl & _).
      split; [done|]. intros df Hdf'. rewrite Hl in Hdf'. by apply Hdf.
    + apply confirmar_error_actualizar in Hc as (-> & _ & _ & Hl & _).
      split; [done|]. intros df Hdf'. rewrite Hl in Hdf'. by apply Hdf.
    + apply confirmar_guardada in Hc as (_&_&_&_&_&_& -> & _).
      split; [done|]. intros df _. simpl. split_and!; [done|done|constructor].
  - destruct (main_disco env ev s w Hev) as [Hl _].
    assert ((main env ev s w).1 = s
            ∨ (main env ev s w).1 = con_estado en_inicio (con_dashboard false s)
            ∨ (main env ev s w).1 = con_dashboard true s
            ∨ ∃ df, CR_Control w = Some df
                    ∧ (main env ev s w).1 = pantalla df ev s) as Hs.
    { unfold main, cargar_archivo_maestro, read_excel_maestro. simpl.
      destruct (CR_Control w) as [df|] eqn:Hw.
      - destruct (mostrar_dashboard s);
          destruct ev; simpl; try done; eauto 10.
      - destruct (mostrar_dashboard s); destruct ev; simpl; try done; eauto. }
    destruct Hs as [-> | [-> | [-> | (df & Hw & ->)]]].
    + split; [done|]. intros df Hdf'. rewrite Hl in Hdf'. by apply Hdf.
    + split; [done|]. intros df Hdf'. rewrite Hl in Hdf'.
      destruct (Hdf df Hdf') as (_ & _ & Hcar). by split_and!.
    + split; [done|]. intros df Hdf'. rewrite Hl in Hdf'. by apply Hdf.
    + destruct (Hdf df Hw) as (Htal & Hcon & Hcar).
      destruct (pantalla_invariante df ev s Hfin Htal Hcon Hcar)
        as (Hfin' & Htal' & Hcon' & Hcar').
      split; [done|]. intros df' Hdf'. rewrite Hl, Hw in Hdf'.
      by simplify_eq.
Qed.

Lemma invariante_inicial w : invariante sesion_inicial w.
Proof. split; [done|]. intros df _. split_and!; [done|done|constructor]. Qed.

Lemma correr_invariante corridas s w :
  invariante s w → invariante (correr corridas s w).1 (correr corridas s w).2.
Proof.
  revert s w. induction corridas as [|[env ev] resto IH]; intros s w Hinv; [done|].
  simpl. by apply IH, main_invariante.
Qed.

(** In a table without blank cells every size offered has its row. *)
Lemma tallas_sin_vacias df s talla :
  sin_celdas_vacias df →
  talla ∈ Tallas.ordenar_tallas (tallas_disponibles df s) → talla ≠ NaN.
Proof.
  intros Hsin (fila & Hin & _ & <-)%talla_tiene_fila.
  by apply (proj1 (Forall_forall _ _) Hsin) in Hin as [_ ?].
Qed.

End Navegar.

(** X5 — Whatever the operator presses from a fresh session, the
    confirmation screen is only ever reached with entries in the cart: the
    button "Confirmar y Guardar Compra" never works on an empty list. *)
Theorem confirmation_screen_always_has_a_cart corridas w :
  estado (Navegacion.correr corridas Navegacion.sesion_inicial w).1
  = en_finalizar_compra →
  carrito (Navegacion.correr corridas Navegacion.sesion_inicial w).1 ≠ [].
Proof.
  apply (correr_invariante corridas Navegacion.sesion_inicial w),
    invariante_inicial.
Qed.

Lemma confirmation_screen_always_has_a_cart_witness :
  estado (Navegacion.correr Recorrido.hasta_confirmacion
            Navegacion.sesion_inicial Recorrido.mundo).1 = en_finalizar_compra
  ∧ carrito (Navegacion.correr Recorrido.hasta_confirmacion
               Navegacion.sesion_inicial Recorrido.mundo).1 ≠ [].
Proof.
  assert (estado (Navegacion.correr Recorrido.hasta_confirmacion
                    Navegacion.sesion_inicial Recorrido.mundo).1
          = en_finalizar_compra) as He by (vm_compute; reflexivity).
  split; [exact He|].
  exact (confirmation_screen_always_has_a_cart _ _ He).
Defined.

(** X6 — From a fresh session the lookups of the screens find their rows,
    as long as the master table has no blank cell in Producto or in Talla:
    on the size screen the selected product has sizes (so [st.columns] gets
    a positive count) and the [.iloc[0]] of every size button finds a row.
    On the quantity screen the selected row exists whatever the table, so
    its [.iloc[0]] never raises whatever quantity is keyed. *)
Theorem screens_find_their_rows corridas w df :
  CR_Control (Navegacion.correr corridas Navegacion.sesion_inicial w).2 = Some df →
  (Navegacion.sin_celdas_vacias df →
   estado (Navegacion.correr corridas Navegacion.sesion_inicial w).1
   = en_seleccionar_talla →
   Tallas.ordenar_tallas
     (Navegacion.tallas_disponibles df
        (Navegacion.correr corridas Navegacion.sesion_inicial w).1) ≠ []
   ∧ ∀ talla,
       talla ∈ Tallas.ordenar_tallas
                 (Navegacion.tallas_disponibles df
                    (Navegacion.correr corridas Navegacion.sesion_inicial w).1) →
       is_Some (Navegacion.stock_talla df
                  (Navegacion.correr corridas Navegacion.sesion_inicial w).1 talla))
  ∧ (estado (Navegacion.correr corridas Navegacion.sesion_inicial w).1
     = en_confirmar_articulo →
     ∀ tecleado,
       is_Some (Pantalla.agregar_articulo df tecleado
                  (Navegacion.correr corridas Navegacion.sesion_inicial w).1)).
Proof.
  intros Hdf.
  destruct (correr_invariante corridas Navegacion.sesion_inicial w
              (invariante_inicial w)) as [_ Hinv].
  destruct (Hinv df Hdf) as (Htal & Hcon & _).
  split.
  - intros Hsin He. destruct (Htal He) as (producto & Hsel & Hp).
    split.
    + assert (producto ≠ NaN) as Hno.
      { apply producto_tiene_fila in Hp as (fila & Hin & <-).
        by apply (proj1 (Forall_forall _ _) Hsin) in Hin as [? _]. }
      pose proof (producto_tiene_tallas df producto _ Hp Hno Hsel) as Hne.
      destruct (Navegacion.tallas_disponibles df _) as [|t l] eqn:Ht; [done|].
      apply (no_vacia_de_elemento _ t), ordenar_tallas_elem_of. by left.
    + intros talla Hin. apply stock_talla_is_Some; [done|].
      by eapply tallas_sin_vacias.
  - intros He tecleado. destruct (Hcon He) as [info Hinfo].
    rewrite (agregar_articulo_casos _ _ _ _ Hinfo). by eexists.
Qed.

Lemma screens_find_their_rows_witness :
  CR_Control (Navegacion.correr Recorrido.hasta_tallas
                Navegacion.sesion_inicial Recorrido.mundo).2
  = Some [Muestra.camisa_M; Muestra.camisa_L]
  ∧ Navegacion.sin_celdas_vacias [Muestra.camisa_M; Muestra.camisa_L]
  ∧ estado (Navegacion.correr Recorrido.hasta_tallas
              Navegacion.sesion_inicial Recorrido.mundo).1 = en_seleccionar_talla
  ∧ Tallas.ordenar_tallas
      (Navegacion.tallas_disponibles [Muestra.camisa_M; Muestra.camisa_L]
         (Navegacion.correr Recorrido.hasta_tallas
            Navegacion.sesion_inicial Recorrido.mundo).1) ≠ []
  ∧ estado (Navegacion.correr Recorrido.hasta_cantidad
              Navegacion.sesion_inicial Recorrido.mundo).1 = en_confirmar_articulo
  ∧ is_Some (Pantalla.agregar_articulo [Muestra.camisa_M; Muestra.camisa_L] 3
               (Navegacion.correr Recorrido.hasta_cantidad
                  Navegacion.sesion_inicial Recorrido.mundo).1).
Proof.
  assert (CR_Control (Navegacion.correr Recorrido.hasta_tallas
                        Navegacion.sesion_inicial Recorrido.mundo).2
          = Some [Muestra.camisa_M; Muestra.camisa_L]) as Hdf
    by (vm_compute; reflexivity).
  assert (Navegacion.sin_celdas_vacias [Muestra.camisa_M; Muestra.camisa_L]) as Hsin
    by (repeat constructor; discriminate).
  assert (estado (Navegacion.correr Recorrido.hasta_tallas
                    Navegacion.sesion_inicial Recorrido.mundo).1
          = en_seleccionar_talla) as He by (vm_compute; reflexivity).
  assert (CR_Control (Navegacion.correr Recorrido.hasta_cantidad
                        Navegacion.sesion_inicial Recorrido.mundo).2
          = Some [Muestra.camisa_M; Muestra.camisa_L]) as Hdf'
    by (vm_compute; reflexivity).
  assert (estado (Navegacion.correr Recorrido.hasta_cantidad
                    Navegacion.sesion_inicial Recorrido.mundo).1
          = en_confirmar_articulo) as He' by (vm_compute; reflexivity).
  split; [exact Hdf|]. split; [exact Hsin|]. split; [exact He|].
  split; [exact (proj1 (proj1 (screens_find_their_rows _ _ _ Hdf) Hsin He))|].
  split; [exact He'|].
  exact (proj2 (screens_find_their_rows _ _ _ Hdf') He' 3%Z).
Defined.

(** X7 — From a fresh session every entry of the cart is what the quantity
    screen builds from the table as it stands: [nuevo_articulo] of the
    first row with the entry's (Producto, Talla), with 'Cantidad' between 1
    and that row's 'Cantidad sobrante' (hence 'Cantidad Vendida' =
    'Cantidad' and 'Ganancia' = 'Cantidad' * 'Costo' of the row).  So the
    update of the master table passes over none of them. *)
Theorem cart_entries_come_from_the_table corridas w df :
  CR_Control (Navegacion.correr corridas Navegacion.sesion_inicial w).2 = Some df →
  Forall (Navegacion.linea_valida df)
    (carrito (Navegacion.correr corridas Navegacion.sesion_inicial w).1)
  ∧ presentes df (carrito (Navegacion.correr corridas Navegacion.sesion_inicial w).1)
    = carrito (Navegacion.correr corridas Navegacion.sesion_inicial w).1.
Proof.
  intros Hdf.
  destruct (correr_invariante corridas Navegacion.sesion_inicial w
              (invariante_inicial w)) as [_ Hinv].
  destruct (Hinv df Hdf) as (_ & _ & Hcar).
  split; [done|].
  unfold presentes. apply filter_todos.
  eapply Forall_impl; [exact Hcar|].
  intros c (info & Hinfo & _ & _).
  apply head_filter_elem_of in Hinfo as [Hm Hin].
  apply existsb_exists. exists info. split; [by apply list_elem_of_In|done].
Qed.

Lemma cart_entries_come_from_the_table_witness :
  CR_Control (Navegacion.correr Recorrido.hasta_carrito
                Navegacion.sesion_inicial Recorrido.mundo).2
  = Some [Muestra.camisa_M; Muestra.camisa_L]
  ∧ carrito (Navegacion.correr Recorrido.hasta_carrito
               Navegacion.sesion_inicial Recorrido.mundo).1 = Muestra.carro_3
  ∧ presentes [Muestra.camisa_M; Muestra.camisa_L]
      (carrito (Navegacion.correr Recorrido.hasta_carrito
                  Navegacion.sesion_inicial Recorrido.mundo).1)
    = carrito (Navegacion.correr Recorrido.hasta_carrito
                 Navegacion.sesion_inicial Recorrido.mundo).1.
Proof.
  assert (CR_Control (Navegacion.correr Recorrido.hasta_carrito
                        Navegacion.sesion_inicial Recorrido.mundo).2
          = Some [Muestra.camisa_M; Muestra.camisa_L]) as Hdf
    by (vm_compute; reflexivity).
  split; [exact Hdf|]. split; [vm_compute; reflexivity|].
  exact (proj2 (cart_entries_come_from_the_table _ _ _ Hdf)).
Defined.

(** ** What a run leaves alone *)

Section Marco.
Import Navegacion.

Lemma pantalla_carrito df ev s :
  (∀ tecleado, ev ≠ ev_agregar tecleado) → (∀ i, ev ≠ ev_eliminar i) →
  ev ≠ ev_vaciar →
  carrito (pantalla df ev s) = carrito s.
Proof.
  intros Hag Hel Hva. unfold pantalla.
  destruct (estado s) eqn:He.
  3:{ destruct (Tallas.ordenar_tallas (tallas_disponibles df s)) as [|t0 resto];
        [done|].
      destruct (botones_talla df ev s 0 (t0 :: resto)) as [s'|] eqn:Hb;
        [by eapply botones_talla_carrito|by destruct ev]. }
  all: destruct ev; try done; try (by destruct (Hag tecleado));
    try (by destruct (Hel i)); repeat case_match; done.
Qed.

End Marco.

(** X8 — Only the confirmation writes: every other run of [main] leaves
    the master table and the directory as they were.  And only four
    buttons touch the cart: adding an entry, deleting one, emptying the
    cart, and the confirmation; moving between screens, the sidebar and the
    dashboard keep the cart as it is. *)
Theorem only_the_confirmation_writes env ev s w :
  ev ≠ Navegacion.ev_confirmar →
  CR_Control (Navegacion.main env ev s w).2 = CR_Control w
  ∧ directorio (Navegacion.main env ev s w).2 = directorio w
  ∧ ((∀ tecleado, ev ≠ Navegacion.ev_agregar tecleado) →
     (∀ i, ev ≠ Navegacion.ev_eliminar i) →
     ev ≠ Navegacion.ev_vaciar →
     carrito (Navegacion.main env ev s w).1 = carrito s).
Proof.
  intros Hev. destruct (main_disco env ev s w Hev) as [Hl Hd].
  split_and!; [done|done|].
  intros Hag Hel Hva.
  unfold Navegacion.main, cargar_archivo_maestro, read_excel_maestro. simpl.
  destruct ev; try done;
    destruct (CR_Control w), (mostrar_dashboard s); simpl; try done;
    by apply pantalla_carrito.
Qed.

Lemma only_the_confirmation_writes_witness :
  Navegacion.ev_sistema_de_ventas ≠ Navegacion.ev_confirmar
  ∧ carrito (Navegacion.main Recorrido.hoy Navegacion.ev_sistema_de_ventas
               (Muestra.sesion en_finalizar_compra Muestra.carro_3)
               Recorrido.mundo).1 = Muestra.carro_3
  ∧ estado (Navegacion.main Recorrido.hoy Navegacion.ev_sistema_de_ventas
              (Muestra.sesion en_finalizar_compra Muestra.carro_3)
              Recorrido.mundo).1 = en_inicio.
Proof.
  assert (Navegacion.ev_sistema_de_ventas ≠ Navegacion.ev_confirmar) as Hev
    by discriminate.
  split; [exact Hev|]. split; [|reflexivity].
  refine (proj2 (proj2 (only_the_confirmation_writes Recorrido.hoy
            Navegacion.ev_sistema_de_ventas
            (Muestra.sesion en_finalizar_compra Muestra.carro_3)
            Recorrido.mundo Hev)) _ _ _); intros; discriminate.
Defined.

(** ** Carts without two entries for one key *)

Section SinRepetir.
Import Maestro Navegacion.
Implicit Types (df : list FilaMaestro) (compras : list Articulo).

Lemma claves_aplicar compras df :
  claves_maestro (aplicar_compras compras df) = claves_maestro df.
Proof.
  rewrite aplicar_compras_fmap. unfold claves_maestro.
  rewrite <- list_fmap_compose. apply list_fmap_ext. intros i fila _. simpl.
  destruct (fila_tras_fijas compras fila) as (-> & _ & -> & _). done.
Qed.

(** In a table without repeated keys a key names one row. *)
Lemma unica_fila df fila info :
  NoDup (claves_maestro df) → fila ∈ df → info ∈ df →
  m_Producto info = m_Producto fila → m_Talla info = m_Talla fila →
  info = fila.
Proof.
  intros Hnd Hfila Hinfo Hp Ht.
  induction df as [|f df IH]; [by apply elem_of_nil in Hfila|].
  unfold claves_maestro in Hnd. rewrite fmap_cons in Hnd.
  apply NoDup_cons in Hnd as [Hf Hnd].
  assert (∀ g, g ∈ df → (m_Producto g, m_Talla g) = (m_Producto f, m_Talla f) → False)
    as Hotra.
  { intros g Hg Hk. apply Hf. rewrite <- Hk.
    by apply (list_elem_of_fmap_2 (fun fila => (m_Producto fila, m_Talla fila))). }
  apply elem_of_cons in Hfila as [->|Hfila], Hinfo as [->|Hinfo].
  - done.
  - destruct (Hotra info Hinfo). by rewrite Hp, Ht.
  - destruct (Hotra fila Hfila). by rewrite <- Hp, <- Ht.
  - by apply IH.
Qed.

Lemma cantidad_pedida_ninguna compras fila :
  Forall (fun compra => mask compra fila = false) compras →
  cantidad_pedida compras fila = 0%Z.
Proof.
  induction 1 as [|c compras Hc _ IH]; [done|]. simpl. by rewrite Hc.
Qed.

(** Entries built by the quantity screen, one per key, ask of no row more
    than it has. *)
Lemma abastecido_de_validas df compras :
  Forall (linea_valida df) compras →
  NoDup (claves_carrito compras) →
  NoDup (claves_maestro df) →
  Forall (fun fila => (0 ≤ m_Cantidad_sobrante fila)%Z) df →
  Forall (fun fila => (cantidad_pedida compras fila ≤ m_Cantidad_sobrante fila)%Z) df.
Proof.
  intros Hval Hndc Hndm Hpos.
  apply Forall_forall. intros fila Hfila.
  assert (0 ≤ m_Cantidad_sobrante fila)%Z as Hfila_pos.
  { by apply (proj1 (Forall_forall _ _) Hpos). }
  induction compras as [|c compras IH]; [done|].
  apply Forall_cons in Hval as [Hc Hval].
  unfold claves_carrito in Hndc. rewrite fmap_cons in Hndc.
  apply NoDup_cons in Hndc as [Hnotin Hndc].
  simpl. destruct (mask c fila) eqn:Hm; [|by apply IH].
  apply mask_true in Hm as [[Hp Ht] _].
  rewrite cantidad_pedida_ninguna.
  - destruct Hc as (info & Hinfo & _ & [_ Hle]).
    apply head_filter_elem_of in Hinfo as [[[Hip Hit] _]%mask_true Hin].
    assert (info = fila) as -> by (apply (unica_fila df); congruence).
    lia.
  - apply Forall_forall. intros c' Hc'.
    destruct (mask c' fila) eqn:Hm'; [|done].
    apply mask_true in Hm' as [[Hp' Ht'] _].
    destruct Hnotin.
    apply (list_elem_of_fmap_2' _ _ c'); [done|]. by rewrite <- Hp, <- Ht, Hp', Ht'.
Qed.

Lemma en_libro_mismo (P : FilaMaestro → Prop) (w w' : Mundo) :
  CR_Control w' = CR_Control w → en_libro P w → en_libro P w'.
Proof. unfold en_libro. by intros ->. Qed.

Lemma correr_sin_sobreventa corridas s w :
  invariante s w → libro_ok w → sin_sobreventa w →
  (∀ df, CR_Control w = Some df → NoDup (claves_maestro df)) →
  confirma_sin_repetir corridas s w →
  sin_sobreventa (correr corridas s w).2.
Proof.
  revert s w. induction corridas as [|[env ev] resto IH];
    intros s w Hinv Hok Hpos Hnd Hrep; [done|].
  destruct Hrep as [Hev Hrep]. simpl.
  apply IH; [by apply main_invariante| | | |done].
  - destruct (decide (ev = ev_confirmar)) as [->|Hne].
    + by apply confirmar_libro_ok.
    + destruct (main_disco env ev s w Hne) as [Hl _]. by apply (en_libro_mismo _ w).
  - destruct (decide (ev = ev_confirmar)) as [->|Hne].
    + apply confirmar_sin_sobreventa; [done..|].
      unfold abastecido, en_libro.
      destruct (CR_Control w) as [df|] eqn:Hw; [|done].
      destruct Hinv as [_ Hinv]. destruct (Hinv df Hw) as (_ & _ & Hval).
      apply abastecido_de_validas; [done|by apply Hev|by apply Hnd|].
      unfold sin_sobreventa, en_libro in Hpos. by rewrite Hw in Hpos.
    + destruct (main_disco env ev s w Hne) as [Hl _]. by apply (en_libro_mismo _ w).
  - intros df Hdf. destruct (decide (ev = ev_confirmar)) as [->|Hne].
    + simpl in Hdf.
      destruct (confirmar_libro env s w) as [Hl | (df0 & n & Hw & _ & Hl)];
        rewrite Hl in Hdf.
      * by apply Hnd.
      * simplify_eq. rewrite claves_aplicar. by apply Hnd.
    + destruct (main_disco env ev s w Hne) as [Hl _]. rewrite Hl in Hdf.
      by apply Hnd.
Qed.

End SinRepetir.

(** X9 — Selling never drives a stock below zero as long as no cart is
    confirmed with two entries for the same (Producto, Talla): from a fresh
    session, on a master table that obeys its formulas, has no negative
    'Cantidad sobrante' and lists each (Producto, Talla) once, every
    sequence of runs in which the confirmed carts have no repeated key
    leaves every 'Cantidad sobrante' at zero or above. *)
Theorem stock_stays_nonnegative_without_repeated_entries corridas w :
  libro_ok w → sin_sobreventa w →
  (∀ df, CR_Control w = Some df → NoDup (Navegacion.claves_maestro df)) →
  Navegacion.confirma_sin_repetir corridas Navegacion.sesion_inicial w →
  sin_sobreventa (Navegacion.correr corridas Navegacion.sesion_inicial w).2.
Proof.
  intros Hok Hpos Hnd Hrep.
  by apply correr_sin_sobreventa; [apply invariante_inicial|..].
Qed.

Lemma stock_stays_nonnegative_without_repeated_entries_witness :
  libro_ok Recorrido.mundo
  ∧ sin_sobreventa Recorrido.mundo
  ∧ Navegacion.confirma_sin_repetir Recorrido.compra_completa
      Navegacion.sesion_inicial Recorrido.mundo
  ∧ CR_Control (Navegacion.correr Recorrido.compra_completa
                  Navegacion.sesion_inicial Recorrido.mundo).2
    = Some [Muestra.fila "Camisa" "CAM-M" "M" 100 10 5; Muestra.camisa_L]
  ∧ sin_sobreventa (Navegacion.correr Recorrido.compra_completa
                      Navegacion.sesion_inicial Recorrido.mundo).2.
Proof.
  assert (libro_ok Recorrido.mundo) as Hok by (repeat constructor).
  assert (sin_sobreventa Recorrido.mundo) as Hpos
    by (repeat constructor; vm_compute; discriminate).
  assert (∀ df, CR_Control Recorrido.mundo = Some df →
                NoDup (Navegacion.claves_maestro df)) as Hnd.
  { intros df [= <-]. apply (bool_decide_unpack _). vm_compute. exact I. }
  assert (Navegacion.confirma_sin_repetir Recorrido.compra_completa
            Navegacion.sesion_inicial Recorrido.mundo) as Hrep.
  { repeat (split; [discriminate|]). split; [|exact I].
    intros _. apply (bool_decide_unpack _). vm_compute. exact I. }
  split; [exact Hok|]. split; [exact Hpos|]. split; [exact Hrep|].
  split; [vm_compute; reflexivity|].
  exact (stock_stays_nonnegative_without_repeated_entries _ _ Hok Hpos Hnd Hrep).
Defined.

(** ** The sale workbooks read back *)

Section Lectura.
Import Dashboard.
Implicit Types (dir : gmap string (list FilaVenta)) (listdir : list string).

Lemma endswith_refl (sufijo : string) : endswith sufijo sufijo = true.
Proof. destruct sufijo; simpl; [done|]. by rewrite decide_True. Qed.

Lemma endswith_app (a b sufijo : string) :
  endswith b sufijo = true → endswith (a +:+ b) sufijo = true.
Proof.
  intros Hb. induction a as [|c a IH]; [done|].
  change (String c a +:+ b) with (String c (a +:+ b)). simpl.
  by destruct (decide (String c (a +:+ b) = sufijo)).
Qed.

(** The names [generar_nombre_archivo] makes end in ".xlsx". *)
Lemma generar_nombre_archivo_xlsx dir fecha nombre :
  Venta.generar_nombre_archivo dir fecha = Some nombre →
  endswith nombre ".xlsx" = true.
Proof.
  intros [_ [-> | (_ & k & _ & -> & _)]]%generar_nombre_archivo_Some.
  - apply endswith_app, endswith_refl.
  - unfold Venta.nombre_numerado. do 3 apply endswith_app. apply endswith_refl.
Qed.

Lemma suma_app {A} (g : A → Z) (l k : list A) :
  suma g (l ++ k) = (suma g l + suma g k)%Z.
Proof. induction l as [|a l IH]; simpl; [done|]. rewrite IH. lia. Qed.

Lemma suma_Permutation {A} (g : A → Z) (l k : list A) :
  l ≡ₚ k → suma g l = suma g k.
Proof. induction 1; simpl; lia. Qed.

Lemma suma_fmap {A B} (f : A → B) (g : B → Z) (l : list A) :
  suma g (f <$> l) = suma (fun a => g (f a)) l.
Proof. induction l as [|a l IH]; simpl; [done|]. f_equal. apply IH. Qed.


(** Names that fail the test add no row. *)
Lemma cargar_datos_ventas_filter listdir dir :
  cargar_datos_ventas listdir dir
  = cargar_datos_ventas (filter (fun a => es_archivo_de_ventas a = true) listdir) dir.
Proof.
  unfold cargar_datos_ventas.
  induction listdir as [|a l IH]; [done|].
  rewrite filter_cons, bind_cons, IH.
  destruct (decide (es_archivo_de_ventas a = true)) as [Ha|Ha].
  - by rewrite bind_cons.
  - by apply not_true_is_false in Ha as ->.
Qed.

Lemma cargar_datos_ventas_Permutation listdir listdir' dir :
  listdir ≡ₚ listdir' →
  cargar_datos_ventas listdir dir ≡ₚ cargar_datos_ventas listdir' dir.
Proof. intros Hp. unfold cargar_datos_ventas. by rewrite Hp. Qed.

(** Workbooks under other names can change without changing what is read. *)
Lemma cargar_datos_ventas_ext listdir dir dir' :
  (∀ a, a ∈ listdir → dir' !! a = dir !! a) →
  cargar_datos_ventas listdir dir' = cargar_datos_ventas listdir dir.
Proof.
  unfold cargar_datos_ventas. induction listdir as [|a l IH]; intros Hext; [done|].
  rewrite !bind_cons, IH, Hext; [done|by left|].
  intros b Hb. apply Hext. by right.
Qed.

Lemma unique_Permutation (l k : list string) :
  l ≡ₚ k → Tallas.unique l ≡ₚ Tallas.unique k.
Proof.
  intros Hp. apply NoDup_Permutation; [apply unique_NoDup..|].
  intros x. by rewrite !elem_of_unique, Hp.
Qed.

Lemma es_archivo_de_ventas_true archivo :
  es_archivo_de_ventas archivo = true
  ↔ endswith archivo ".xlsx" = true ∧ archivo ≠ "CR_Control.xlsx".
Proof.
  unfold es_archivo_de_ventas. by rewrite andb_true_iff, bool_decide_eq_true.
Qed.

Lemma lista_filtrada listdir dir :
  lista_el_directorio listdir dir →
  NoDup (filter (fun a => es_archivo_de_ventas a = true) listdir)
  ∧ ∀ a, a ∈ filter (fun a => es_archivo_de_ventas a = true) listdir
         ↔ es_archivo_de_ventas a = true ∧ is_Some (dir !! a).
Proof.
  intros [Hnd Hel]. split; [by apply NoDup_filter|].
  intros a. rewrite list_elem_of_filter. split.
  - intros [Ha Hin]. split; [done|]. apply Hel; [|done].
    by apply es_archivo_de_ventas_true in Ha as [_ ?].
  - intros [Ha Hin]. split; [done|]. apply Hel; [|done].
    by apply es_archivo_de_ventas_true in Ha as [_ ?].
Qed.

Lemma elem_of_cargar_datos_ventas listdir dir fila archivo :
  (fila, archivo) ∈ cargar_datos_ventas listdir dir →
  archivo ∈ listdir ∧ ∃ df_temp, dir !! archivo = Some df_temp ∧ fila ∈ df_temp.
Proof.
  unfold cargar_datos_ventas. rewrite list_elem_of_bind.
  intros (a & Hin & Ha).
  destruct (es_archivo_de_ventas a); [|by apply elem_of_nil in Hin].
  destruct (dir !! a) as [df_temp|] eqn:Hdf; [|by apply elem_of_nil in Hin].
  rewrite list_elem_of_fmap in Hin. destruct Hin as (f & [= -> ->] & Hf).
  split; [done|]. by exists df_temp.
Qed.

(** Two listings of one directory give the same rows up to their order. *)
Lemma cargar_datos_ventas_listados listdir listdir' dir :
  lista_el_directorio listdir dir → lista_el_directorio listdir' dir →
  cargar_datos_ventas listdir dir ≡ₚ cargar_datos_ventas listdir' dir.
Proof.
  intros [Hnd Hel]%lista_filtrada [Hnd' Hel']%lista_filtrada.
  rewrite (cargar_datos_ventas_filter listdir), (cargar_datos_ventas_filter listdir').
  apply cargar_datos_ventas_Permutation, NoDup_Permutation; [done..|].
  intros a. by rewrite Hel, Hel'.
Qed.

(** What is read after a sale was saved: what was read before, and the
    rows of the sale under the name of its workbook. *)
Lemma cargar_datos_ventas_insert listdir listdir' dir nombre (df_venta : list FilaVenta) :
  lista_el_directorio listdir dir →
  lista_el_directorio listdir' (<[nombre := df_venta]> dir) →
  dir !! nombre = None → es_archivo_de_ventas nombre = true →
  cargar_datos_ventas listdir' (<[nombre := df_venta]> dir)
  ≡ₚ cargar_datos_ventas listdir dir ++ ((fun fila => (fila, nombre)) <$> df_venta).
Proof.
  intros [Hnd Hel]%lista_filtrada [Hnd' Hel']%lista_filtrada Hfree Hval.
  rewrite (cargar_datos_ventas_filter listdir), (cargar_datos_ventas_filter listdir').
  set (L := filter (fun a => es_archivo_de_ventas a = true) listdir) in *.
  set (L' := filter (fun a => es_archivo_de_ventas a = true) listdir') in *.
  assert (nombre ∉ L) as Hnotin.
  { intros [_ Hin]%Hel. rewrite Hfree in Hin. by destruct Hin. }
  assert (L' ≡ₚ nombre :: L) as Hperm.
  { apply NoDup_Permutation; [done|by constructor|].
    intros a. rewrite Hel', elem_of_cons, Hel.
    destruct (decide (a = nombre)) as [->|Hne].
    - rewrite lookup_insert_eq. naive_solver.
    - rewrite lookup_insert_ne by done. naive_solver. }
  rewrite (cargar_datos_ventas_Permutation _ _ _ Hperm).
  rewrite Permutation_app_comm.
  unfold cargar_datos_ventas at 1. rewrite bind_cons.
  rewrite Hval, lookup_insert_eq.
  apply Permutation_app_head.
  fold (cargar_datos_ventas L (<[nombre:=df_venta]> dir)).
  rewrite (cargar_datos_ventas_ext L dir); [done|].
  intros a Ha. apply lookup_insert_ne. by intros ->.
Qed.

End Lectura.

(** X10 — The order in which [os.listdir] lists the directory does not
    show in what the dashboard counts: two listings of the same directory
    make [cargar_datos_ventas] return the same rows up to their order,
    hence the same total of 'Cantidad Vendida' and the same count of sale
    files.  (The total of 'Ganancia' adds amounts, and is left out.) *)
Theorem dashboard_ignores_listing_order listdir listdir'
    (dir : gmap string (list FilaVenta)) :
  Dashboard.lista_el_directorio listdir dir →
  Dashboard.lista_el_directorio listdir' dir →
  Dashboard.cargar_datos_ventas listdir dir
  ≡ₚ Dashboard.cargar_datos_ventas listdir' dir
  ∧ Dashboard.productos_vendidos (Dashboard.cargar_datos_ventas listdir dir)
    = Dashboard.productos_vendidos (Dashboard.cargar_datos_ventas listdir' dir)
  ∧ Dashboard.ventas_unicas (Dashboard.cargar_datos_ventas listdir dir)
    = Dashboard.ventas_unicas (Dashboard.cargar_datos_ventas listdir' dir).
Proof.
  intros Hl Hl'.
  pose proof (cargar_datos_ventas_listados _ _ _ Hl Hl') as Hperm.
  split_and!; [done|by apply suma_Permutation|].
  unfold Dashboard.ventas_unicas.
  apply Permutation_length, unique_Permutation. by rewrite Hperm.
Qed.

Lemma dashboard_ignores_listing_order_witness :
  Dashboard.lista_el_directorio ["2025-03-14.xlsx"; "CR_Control.xlsx"; "2025-03-14_1.xlsx"]
    {[ "2025-03-14.xlsx" := [Muestra.vendida Muestra.camisa_M 3];
       "2025-03-14_1.xlsx" := [Muestra.vendida Muestra.camisa_L 2] ]}
  ∧ Dashboard.lista_el_directorio ["2025-03-14_1.xlsx"; "2025-03-14.xlsx"]
      {[ "2025-03-14.xlsx" := [Muestra.vendida Muestra.camisa_M 3];
         "2025-03-14_1.xlsx" := [Muestra.vendida Muestra.camisa_L 2] ]}
  ∧ Dashboard.productos_vendidos
      (Dashboard.cargar_datos_ventas
         ["2025-03-14.xlsx"; "CR_Control.xlsx"; "2025-03-14_1.xlsx"]
         {[ "2025-03-14.xlsx" := [Muestra.vendida Muestra.camisa_M 3];
            "2025-03-14_1.xlsx" := [Muestra.vendida Muestra.camisa_L 2] ]})
    = Dashboard.productos_vendidos
        (Dashboard.cargar_datos_ventas ["2025-03-14_1.xlsx"; "2025-03-14.xlsx"]
           {[ "2025-03-14.xlsx" := [Muestra.vendida Muestra.camisa_M 3];
              "2025-03-14_1.xlsx" := [Muestra.vendida Muestra.camisa_L 2] ]}).
Proof.
  assert (∀ l : list string,
            NoDup l →
            (∀ a, a ∈ l → a = "2025-03-14.xlsx" ∨ a = "2025-03-14_1.xlsx"
                          ∨ a = "CR_Control.xlsx") →
            "2025-03-14.xlsx" ∈ l → "2025-03-14_1.xlsx" ∈ l →
            Dashboard.lista_el_directorio l
              {[ "2025-03-14.xlsx" := [Muestra.vendida Muestra.camisa_M 3];
                 "2025-03-14_1.xlsx" := [Muestra.vendida Muestra.camisa_L 2] ]})
    as Hlista.
  { intros l Hnd Hsolo H1 H2. split; [done|]. intros a Hne. split.
    - intros Ha. destruct (Hsolo a Ha) as [-> | [-> | ->]];
        [by eexists|by eexists|done].
    - intros [df Hdf].
      destruct (decide (a = "2025-03-14.xlsx")) as [->|Hn1]; [done|].
      destruct (decide (a = "2025-03-14_1.xlsx")) as [->|Hn2]; [done|].
      rewrite lookup_insert_ne, lookup_singleton_ne in Hdf by done. done. }
  assert (Dashboard.lista_el_directorio
            ["2025-03-14.xlsx"; "CR_Control.xlsx"; "2025-03-14_1.xlsx"]
            {[ "2025-03-14.xlsx" := [Muestra.vendida Muestra.camisa_M 3];
               "2025-03-14_1.xlsx" := [Muestra.vendida Muestra.camisa_L 2] ]}) as Hl.
  { apply Hlista.
    - apply (bool_decide_unpack _). vm_compute. exact I.
    - intros a Ha. repeat (apply elem_of_cons in Ha as [->|Ha]; [by auto|]).
      by apply elem_of_nil in Ha.
    - by left.
    - right. right. by left. }
  assert (Dashboard.lista_el_directorio ["2025-03-14_1.xlsx"; "2025-03-14.xlsx"]
            {[ "2025-03-14.xlsx" := [Muestra.vendida Muestra.camisa_M 3];
               "2025-03-14_1.xlsx" := [Muestra.vendida Muestra.camisa_L 2] ]}) as Hl'.
  { apply Hlista.
    - apply (bool_decide_unpack _). vm_compute. exact I.
    - intros a Ha. repeat (apply elem_of_cons in Ha as [->|Ha]; [by auto|]).
      by apply elem_of_nil in Ha.
    - right. by left.
    - by left. }
  split; [exact Hl|]. split; [exact Hl'|].
  exact (proj1 (proj2 (dashboard_ignores_listing_order _ _ _ Hl Hl'))).
Defined.

(** X11 — A sale that was saved is what the dashboard reads from then on:
    after [guardar_compra_excel] has written a workbook,
    [cargar_datos_ventas] returns the rows it returned before and the rows
    of the cart under the name of the new workbook, so the units sold grow
    by the cart's 'Cantidad Vendida' and the count of sale files by one.
    (The total of 'Ganancia' adds amounts, and is left out.) *)
Theorem saved_sale_is_read_back env compras w nombre w' listdir listdir' :
  guardar_compra_excel env compras w = (Some nombre, w') →
  nombre ≠ "CR_Control.xlsx" →
  Dashboard.lista_el_directorio listdir (directorio w) →
  Dashboard.lista_el_directorio listdir' (directorio w') →
  Dashboard.cargar_datos_ventas listdir' (directorio w')
  ≡ₚ Dashboard.cargar_datos_ventas listdir (directorio w)
     ++ ((fun fila => (fila, nombre)) <$> Venta.df_compra (fecha_columna env) compras)
  ∧ Dashboard.productos_vendidos
      (Dashboard.cargar_datos_ventas listdir' (directorio w'))
    = (Dashboard.productos_vendidos
         (Dashboard.cargar_datos_ventas listdir (directorio w))
       + suma c_Cantidad_Vendida compras)%Z
  ∧ Dashboard.ventas_unicas (Dashboard.cargar_datos_ventas listdir' (directorio w'))
    = S (Dashboard.ventas_unicas
           (Dashboard.cargar_datos_ventas listdir (directorio w))).
Proof.
  intros (Hne & _ & Hn & ->)%guardar_Some Hcr Hl Hl'. simpl in *.
  pose proof (generar_nombre_archivo_xlsx _ _ _ Hn) as Hxlsx.
  apply generar_nombre_archivo_Some in Hn as [Hfree _].
  assert (Dashboard.es_archivo_de_ventas nombre = true) as Hval
    by by apply es_archivo_de_ventas_true.
  pose proof (cargar_datos_ventas_insert _ _ _ _ _ Hl Hl' Hfree Hval) as Hperm.
  split_and!; [done|..].
  - unfold Dashboard.productos_vendidos.
    rewrite (suma_Permutation _ _ _ Hperm), suma_app. f_equal.
    unfold Venta.df_compra. by rewrite !suma_fmap.
  - unfold Dashboard.ventas_unicas.
    change (S (length ?l)) with (length (nombre :: l)).
    apply Permutation_length, NoDup_Permutation.
    + apply unique_NoDup.
    + constructor; [|apply unique_NoDup].
      rewrite elem_of_unique, list_elem_of_fmap. intros ([fila a] & Ha & Hin).
      simpl in Ha. subst a.
      apply elem_of_cargar_datos_ventas in Hin as (_ & df & Hdf & _). congruence.
    + intros a. rewrite elem_of_cons, !elem_of_unique, Hperm, fmap_app, elem_of_app.
      rewrite <- list_fmap_compose.
      destruct compras as [|c compras]; [done|].
      split.
      * intros [Hin|Hin]; [by right|left].
        rewrite list_elem_of_fmap in Hin. by destruct Hin as (f & -> & _).
      * intros [->|Hin]; [right|by left].
        rewrite list_elem_of_fmap. eexists. split; [|by left]. done.
Qed.

Lemma saved_sale_is_read_back_witness :
  guardar_compra_excel (Muestra.dia true true) Muestra.carro_3
    (Muestra.mundo [Muestra.camisa_M])
  = (Some "2025-03-14.xlsx",
     {| CR_Control := Some [Muestra.camisa_M];
        directorio := {[ "2025-03-14.xlsx" := [Muestra.vendida Muestra.camisa_M 3] ]};
        bitacora := [EscribirVenta "2025-03-14.xlsx" true] |})
  ∧ "2025-03-14.xlsx" ≠ "CR_Control.xlsx"
  ∧ Dashboard.lista_el_directorio ["CR_Control.xlsx"] ∅
  ∧ Dashboard.lista_el_directorio ["CR_Control.xlsx"; "2025-03-14.xlsx"]
      {[ "2025-03-14.xlsx" := [Muestra.vendida Muestra.camisa_M 3] ]}
  ∧ Dashboard.productos_vendidos
      (Dashboard.cargar_datos_ventas ["CR_Control.xlsx"; "2025-03-14.xlsx"]
         {[ "2025-03-14.xlsx" := [Muestra.vendida Muestra.camisa_M 3] ]})
    = (Dashboard.productos_vendidos (Dashboard.cargar_datos_ventas ["CR_Control.xlsx"] ∅)
       + suma c_Cantidad_Vendida Muestra.carro_3)%Z.
Proof.
  assert (guardar_compra_excel (Muestra.dia true true) Muestra.carro_3
            (Muestra.mundo [Muestra.camisa_M])
          = (Some "2025-03-14.xlsx",
             {| CR_Control := Some [Muestra.camisa_M];
                directorio :=
                  {[ "2025-03-14.xlsx" := [Muestra.vendida Muestra.camisa_M 3] ]};
                bitacora := [EscribirVenta "2025-03-14.xlsx" true] |})) as Hg
    by (vm_compute; reflexivity).
  assert ("2025-03-14.xlsx" ≠ "CR_Control.xlsx") as Hne by discriminate.
  assert (Dashboard.lista_el_directorio ["CR_Control.xlsx"] ∅) as Hl.
  { split; [apply (bool_decide_unpack _); vm_compute; exact I|].
    intros a Ha. rewrite lookup_empty, list_elem_of_singleton. split; [done|].
    by intros [? ?]. }
  assert (Dashboard.lista_el_directorio ["CR_Control.xlsx"; "2025-03-14.xlsx"]
            {[ "2025-03-14.xlsx" := [Muestra.vendida Muestra.camisa_M 3] ]}) as Hl'.
  { split; [apply (bool_decide_unpack _); vm_compute; exact I|].
    intros a Ha. rewrite elem_of_cons, list_elem_of_singleton. split.
    - intros [?| ->]; [done|]. by eexists.
    - intros [df Hdf]. right.
      destruct (decide (a = "2025-03-14.xlsx")) as [->|Hn]; [done|].
      by rewrite lookup_singleton_ne in Hdf. }
  split; [exact Hg|]. split; [exact Hne|]. split; [exact Hl|]. split; [exact Hl'|].
  exact (proj1 (proj2 (saved_sale_is_read_back _ _ _ _ _ _ _ Hg Hne Hl Hl'))).
Defined.

(** ** Low stock *)

Section StockBajo.
Import Maestro.

Lemma cantidad_pedida_no_negativa compras fila :
  Forall (fun compra => (0 ≤ c_Cantidad compra)%Z) compras →
  (0 ≤ cantidad_pedida compras fila)%Z.
Proof.
  induction 1 as [|c compras Hc _ IH]; simpl; [done|].
  destruct (mask c fila); lia.
Qed.

Lemma length_filter_fmap {A} (P Q : A → Prop) `{∀ a, Decision (P a)}
    `{∀ a, Decision (Q a)} (f : A → A) (l : list A) :
  Forall (fun a => P a → Q (f a)) l →
  length (filter P l) ≤ length (filter Q (f <$> l)).
Proof.
  induction 1 as [|a l Ha _ IH]; [done|].
  rewrite fmap_cons, !filter_cons.
  destruct (decide (P a)) as [HP|HP].
  - rewrite decide_True by auto. simpl. lia.
  - destruct (decide (Q (f a))); simpl; lia.
Qed.

End StockBajo.

(** X12 — Sales only add to the low-stock list: on a master table that
    obeys its formulas, after a cart with no negative quantity is written
    into it, every row that [verificar_stock_bajo] reported is still at or
    below the threshold, and the list it returns is at least as long. *)
Theorem low_stock_rows_stay_low_after_sales compras df umbral :
  Forall Maestro.derivadas_ok df →
  Forall (fun compra => (0 ≤ c_Cantidad compra)%Z) compras →
  Forall2 (fun fila fila' =>
             fila ∈ verificar_stock_bajo df umbral →
             fila' ∈ verificar_stock_bajo (Maestro.aplicar_compras compras df) umbral)
          df (Maestro.aplicar_compras compras df)
  ∧ length (verificar_stock_bajo df umbral)
    ≤ length (verificar_stock_bajo (Maestro.aplicar_compras compras df) umbral).
Proof.
  intros Hok Hpos.
  assert (Forall (fun fila => (m_Cantidad_sobrante fila ≤ umbral)%Z →
                              (m_Cantidad_sobrante (Maestro.fila_tras compras fila)
                               ≤ umbral)%Z) df) as Hbaja.
  { eapply Forall_impl; [exact Hok|]. intros fila Hfila Hle.
    rewrite fila_tras_sobrante by done.
    pose proof (cantidad_pedida_no_negativa compras fila Hpos). lia. }
  rewrite aplicar_compras_fmap. split.
  - apply Forall2_fmap_r, Forall2_same_length_lookup_2; [done|].
    intros i fila fila' Hi Hi'. simplify_eq. unfold verificar_stock_bajo.
    intros Hbajo. apply (proj1 (list_elem_of_filter _ _ _)) in Hbajo as [Hle Hin].
    apply list_elem_of_filter. split.
    + by apply (proj1 (Forall_forall _ _) Hbaja).
    + by apply list_elem_of_fmap_2.
  - unfold verificar_stock_bajo. by apply length_filter_fmap.
Qed.

Lemma low_stock_rows_stay_low_after_sales_witness :
  Forall Maestro.derivadas_ok [Muestra.camisa_M; Muestra.camisa_L]
  ∧ Forall (fun compra => (0 ≤ c_Cantidad compra)%Z) Muestra.carro_5
  ∧ length (verificar_stock_bajo [Muestra.camisa_M; Muestra.camisa_L]
              umbral_por_defecto) = 1
  ∧ length (verificar_stock_bajo [Muestra.camisa_M; Muestra.camisa_L]
              umbral_por_defecto)
    ≤ length (verificar_stock_bajo
                (Maestro.aplicar_compras Muestra.carro_5
                   [Muestra.camisa_M; Muestra.camisa_L]) umbral_por_defecto).
Proof.
  assert (Forall Maestro.derivadas_ok [Muestra.camisa_M; Muestra.camisa_L]) as Hok
    by (repeat constructor).
  assert (Forall (fun compra => (0 ≤ c_Cantidad compra)%Z) Muestra.carro_5) as Hpos
    by (repeat constructor; vm_compute; discriminate).
  split; [exact Hok|]. split; [exact Hpos|]. split; [vm_compute; reflexivity|].
  exact (proj2 (low_stock_rows_stay_low_after_sales _ _ umbral_por_defecto Hok Hpos)).
Defined.

(** ** The sale workbook against the master table *)

Section Conciliacion.
Import Maestro Navegacion.
Implicit Types (df : list FilaMaestro) (compras : list Articulo).









End Conciliacion.



Lemma ordenar_tallas_permutes_witness :
  NoDup ["L"; "Unica"; "XS"; "M"]
  ∧ Tallas.ordenar_tallas ["L"; "Unica"; "XS"; "M"] = ["XS"; "M"; "L"; "Unica"]
  ∧ Tallas.ordenar_tallas ["L"; "Unica"; "XS"; "M"] ≡ₚ ["L"; "Unica"; "XS"; "M"].
Proof.
  assert (NoDup ["L"; "Unica"; "XS"; "M"]) as Hnd
    by (apply (bool_decide_unpack _); vm_compute; exact I).
  split; [exact Hnd|]. split; [vm_compute; reflexivity|].
  exact (proj1 (ordenar_tallas_permutes _ Hnd)).
Defined.

(** ** The order of the cart, and a failed update *)

Section OrdenCarrito.
Import Maestro.

Lemma actualizar_fila_conmuta c1 c2 fila :
  actualizar_fila c1 (actualizar_fila c2 fila)
  = actualizar_fila c2 (actualizar_fila c1 fila).
Proof.
  unfold actualizar_fila at 1 3. rewrite !mask_actualizar_fila.
  unfold actualizar_fila.
  destruct (mask c1 fila), (mask c2 fila); simpl; try done.
  f_equal; lia.
Qed.

Lemma fila_tras_Permutation compras compras' fila :
  compras ≡ₚ compras' → fila_tras compras fila = fila_tras compras' fila.
Proof.
  intros Hp. revert fila.
  induction Hp as [|c l l' _ IH|c1 c2 l|l1 l2 l3 _ IH1 _ IH2]; intros fila.
  - done.
  - rewrite !fila_tras_cons. apply IH.
  - rewrite !fila_tras_cons. by rewrite actualizar_fila_conmuta.
  - by rewrite IH1, IH2.
Qed.

End OrdenCarrito.

(** X14 — The order of the entries in the cart does not matter to the
    master table: [actualizar_archivo_maestro] returns the same value and
    leaves the same table for any reordering of the cart. *)
Theorem cart_order_does_not_matter env compras compras' w :
  compras ≡ₚ compras' →
  (actualizar_archivo_maestro env compras w).1
  = (actualizar_archivo_maestro env compras' w).1
  ∧ CR_Control (actualizar_archivo_maestro env compras w).2
    = CR_Control (actualizar_archivo_maestro env compras' w).2.
Proof.
  intros Hp. rewrite !actualizar_resultado, !actualizar_libro. split; [done|].
  destruct (to_excel_maestro env); [|done].
  destruct (CR_Control w) as [df|]; [|done]. simpl. f_equal.
  rewrite !aplicar_compras_fmap. apply list_fmap_ext.
  intros i fila _. by apply fila_tras_Permutation.
Qed.

Lemma cart_order_does_not_matter_witness :
  [Muestra.linea Muestra.camisa_M 3; Muestra.linea Muestra.camisa_L 1;
   Muestra.linea Muestra.camisa_M 2]
  ≡ₚ [Muestra.linea Muestra.camisa_M 2; Muestra.linea Muestra.camisa_M 3;
      Muestra.linea Muestra.camisa_L 1]
  ∧ CR_Control (actualizar_archivo_maestro (Muestra.dia true true)
                  [Muestra.linea Muestra.camisa_M 3; Muestra.linea Muestra.camisa_L 1;
                   Muestra.linea Muestra.camisa_M 2] Recorrido.mundo).2
    = CR_Control (actualizar_archivo_maestro (Muestra.dia true true)
                    [Muestra.linea Muestra.camisa_M 2; Muestra.linea Muestra.camisa_M 3;
                     Muestra.linea Muestra.camisa_L 1] Recorrido.mundo).2.
Proof.
  assert ([Muestra.linea Muestra.camisa_M 3; Muestra.linea Muestra.camisa_L 1;
           Muestra.linea Muestra.camisa_M 2]
          ≡ₚ [Muestra.linea Muestra.camisa_M 2; Muestra.linea Muestra.camisa_M 3;
              Muestra.linea Muestra.camisa_L 1]) as Hp.
  { etrans; [apply perm_skip, perm_swap|apply perm_swap]. }
  split; [exact Hp|].
  exact (proj2 (cart_order_does_not_matter (Muestra.dia true true) _ _
                  Recorrido.mundo Hp)).
Defined.

(** X15 — When the sale workbook was written and the write of the master
    workbook fails, the run keeps the cart and the screen, leaves the
    master table as it was, and leaves the sale workbook in the directory.
    Confirming again, with both writes going well, saves the same rows once
    more under another name: the table then holds the sale once, the
    directory twice. *)
Theorem failed_master_update_then_retry_saves_sale_twice
    env env2 s w nombre s1 w1 :
  confirmar_y_guardar env s w = (ErrorActualizar nombre, s1, w1) →
  to_excel_venta env2 = true → to_excel_maestro env2 = true →
  s1 = s
  ∧ CR_Control w1 = CR_Control w
  ∧ directorio w1 !! nombre = Some (Venta.df_compra (fecha_columna env) (carrito s))
  ∧ ∃ nombre2 w2 df,
      confirmar_y_guardar env2 s1 w1
      = (CompraGuardada nombre2, con_estado en_inicio (con_carrito [] s), w2)
      ∧ nombre2 ≠ nombre
      ∧ directorio w2 !! nombre
        = Some (Venta.df_compra (fecha_columna env) (carrito s))
      ∧ directorio w2 !! nombre2
        = Some (Venta.df_compra (fecha_columna env2) (carrito s))
      ∧ CR_Control w = Some df
      ∧ CR_Control w2 = Some (Maestro.aplicar_compras (carrito s) df).
Proof.
  intros Hc Hv2 Hm2.
  destruct (confirmar_con_boton _ _ _ _ _ _ Hc) as (Hd & He & Hne & [df Hdf]);
    [done..|].
  apply confirmar_error_actualizar in Hc as (-> & _ & _ & Hl & Hdir & _).
  split_and!; [done|done|by rewrite Hdir, lookup_insert_eq|].
  assert (is_Some (CR_Control w1)) as Hdf1 by (rewrite Hl, Hdf; by eexists).
  destruct (confirmar_resultado env2 s w1 Hd He Hne Hdf1) as (n2 & Hn2 & Hr).
  rewrite Hv2, Hm2 in Hr.
  destruct (confirmar_y_guardar env2 s w1) as [[r s2] w2] eqn:Hc2.
  simpl in Hr. subst r.
  apply confirmar_guardada in Hc2 as (_&_&_&_&_& _ & -> & df1 & Hdf1' & ->).
  apply generar_nombre_archivo_Some in Hn2 as [Hfree _].
  assert (n2 ≠ nombre) as Hdist.
  { intros ->. rewrite Hdir, lookup_insert_eq in Hfree. done. }
  eexists n2, _, df. split; [done|]. simpl.
  split_and!; [done| |by rewrite lookup_insert_eq|done|].
  - rewrite lookup_insert_ne by done. by rewrite Hdir, lookup_insert_eq.
  - rewrite Hl, Hdf in Hdf1'. by simplify_eq.
Qed.

Lemma failed_master_update_then_retry_saves_sale_twice_witness :
  confirmar_y_guardar (Muestra.dia true false)
    (Muestra.sesion en_finalizar_compra Muestra.carro_3)
    (Muestra.mundo [Muestra.camisa_M])
  = (ErrorActualizar "2025-03-14.xlsx",
     Muestra.sesion en_finalizar_compra Muestra.carro_3,
     {| CR_Control := Some [Muestra.camisa_M];
        directorio := {[ "2025-03-14.xlsx" := [Muestra.vendida Muestra.camisa_M 3] ]};
        bitacora := [LeerMaestro; EscribirVenta "2025-03-14.xlsx" true;
                     LeerMaestro; EscribirMaestro false] |})
  ∧ (confirmar_y_guardar (Muestra.dia true true)
       (Muestra.sesion en_finalizar_compra Muestra.carro_3)
       {| CR_Control := Some [Muestra.camisa_M];
          directorio := {[ "2025-03-14.xlsx" := [Muestra.vendida Muestra.camisa_M 3] ]};
          bitacora := [LeerMaestro; EscribirVenta "2025-03-14.xlsx" true;
                       LeerMaestro; EscribirMaestro false] |}).1.1
    = CompraGuardada "2025-03-14_1.xlsx"
  ∧ Some [Muestra.camisa_M] = CR_Control (Muestra.mundo [Muestra.camisa_M]).
Proof.
  assert (confirmar_y_guardar (Muestra.dia true false)
            (Muestra.sesion en_finalizar_compra Muestra.carro_3)
            (Muestra.mundo [Muestra.camisa_M])
          = (ErrorActualizar "2025-03-14.xlsx",
             Muestra.sesion en_finalizar_compra Muestra.carro_3,
             {| CR_Control := Some [Muestra.camisa_M];
                directorio :=
                  {[ "2025-03-14.xlsx" := [Muestra.vendida Muestra.camisa_M 3] ]};
                bitacora := [LeerMaestro; EscribirVenta "2025-03-14.xlsx" true;
                             LeerMaestro; EscribirMaestro false] |})) as Hc
    by (vm_compute; reflexivity).
  split; [exact Hc|]. split; [vm_compute; reflexivity|].
  exact (proj1 (proj2 (failed_master_update_then_retry_saves_sale_twice
                         (Muestra.dia true false) (Muestra.dia true true) _ _ _ _ _
                         Hc eq_refl eq_refl))).
Defined.

(** ** From the start to the cart *)

Section HastaElCarrito.
Import Navegacion.
Implicit Types (env : Entorno) (ev : Evento) (s : Sesion) (w : Mundo).
Implicit Types (df : list FilaMaestro).

(** A run on a screen, with a table and without the dashboard. *)
Lemma main_pantalla env ev s w df :
  CR_Control w = Some df → mostrar_dashboard s = false →
  ev ≠ ev_confirmar → ev ≠ ev_sistema_de_ventas → ev ≠ ev_dashboard →
  main env ev s w = (pantalla df ev s, anotar LeerMaestro w).
Proof.
  intros Hdf Hd H1 H2 H3.
  unfold main, cargar_archivo_maestro, read_excel_maestro. simpl.
  rewrite Hdf, Hd. by destruct ev.
Qed.

(** The size screen with every row found and the button of a size in
    stock pressed. *)
Lemma pantalla_talla_pulsada df s j talla stock :
  estado s = en_seleccionar_talla →
  Forall (fun t => is_Some (stock_talla df s t))
         (Tallas.ordenar_tallas (tallas_disponibles df s)) →
  Tallas.ordenar_tallas (tallas_disponibles df s) !! j = Some talla →
  stock_talla df s talla = Some stock → stock ≠ 0%Z →
  pantalla df (ev_talla j) s
  = con_estado en_confirmar_articulo (con_talla (Some talla) s).
Proof.
  intros He Hall Hj Hs Hne. unfold pantalla. rewrite He.
  pose proof (botones_talla_pulsado df s 0 _ j talla stock Hall Hj Hs Hne) as Hb.
  simpl in Hb.
  destruct (Tallas.ordenar_tallas (tallas_disponibles df s)) as [|t0 resto];
    [done|].
  by rewrite Hb.
Qed.


End HastaElCarrito.

(** X16 — Every row in stock can be put in the cart, as long as no row of
    its product has a blank Talla: for the first row of a (Producto,
    Talla) and a quantity between 1 and its 'Cantidad sobrante', there are
    a product button and a size button such that a fresh session that
    presses "Generar Nueva Compra", that product, that size and "Agregar"
    with the quantity ends on the cart screen with exactly that entry; the
    table is not touched. *)
Theorem every_row_in_stock_can_be_added env w df info tecleado :
  CR_Control w = Some df →
  head (filter (fun fila => igual (m_Producto fila) (m_Producto info)
                          && igual (m_Talla fila) (m_Talla info) = true) df)
  = Some info →
  (∀ fila, fila ∈ df → m_Producto fila = m_Producto info → m_Talla fila ≠ NaN) →
  (1 ≤ tecleado ≤ m_Cantidad_sobrante info)%Z →
  ∃ i j,
    (Navegacion.correr
       [(env, Navegacion.ev_generar_nueva_compra); (env, Navegacion.ev_producto i);
        (env, Navegacion.ev_talla j); (env, Navegacion.ev_agregar tecleado)]
       Navegacion.sesion_inicial w).1
    = {| estado := en_carrito;
         carrito := [Pantalla.nuevo_articulo info tecleado];
         producto_seleccionado := Some (m_Producto info);
         talla_seleccionada := Some (m_Talla info);
         mostrar_dashboard := false |}
    ∧ CR_Control
        (Navegacion.correr
           [(env, Navegacion.ev_generar_nueva_compra); (env, Navegacion.ev_producto i);
            (env, Navegacion.ev_talla j); (env, Navegacion.ev_agregar tecleado)]
           Navegacion.sesion_inicial w).2 = Some df.
Proof.
  intros Hdf Hinfo Hsin Hq.
  pose proof (head_filter_elem_of _ _ _ Hinfo) as [Hkey Hin].
  apply andb_true_iff in Hkey as [[_ Hp]%igual_true [_ Ht]%igual_true].
  (* the product button *)
  assert (m_Producto info ∈ Navegacion.productos_disponibles df) as Hprod.
  { unfold Navegacion.productos_disponibles. rewrite elem_of_unique.
    by apply list_elem_of_fmap_2. }
  apply list_elem_of_lookup in Hprod as [i Hi].
  (* the size button *)
  set (s2 := con_estado en_seleccionar_talla
               (con_producto (Some (m_Producto info))
                  (con_estado en_seleccionar_producto Navegacion.sesion_inicial))).
  assert (m_Talla info
          ∈ Tallas.ordenar_tallas (Navegacion.tallas_disponibles df s2)) as Htalla.
  { apply ordenar_tallas_elem_of.
    unfold Navegacion.tallas_disponibles. rewrite elem_of_unique.
    apply list_elem_of_fmap_2, list_elem_of_filter. split; [|done].
    by apply igual_a_true. }
  pose proof Htalla as Hj. apply list_elem_of_lookup in Hj as [j Hj].
  assert (Forall (fun t => is_Some (Navegacion.stock_talla df s2 t))
            (Tallas.ordenar_tallas (Navegacion.tallas_disponibles df s2))) as Hall.
  { apply Forall_forall. intros t Hin_t. apply stock_talla_is_Some; [done|].
    apply talla_tiene_fila in Hin_t as (fila & Hfila & Hsel & <-).
    apply igual_a_true in Hsel as [[= Hsel] _]. by apply Hsin. }
  assert (Navegacion.stock_talla df s2 (m_Talla info)
          = Some (m_Cantidad_sobrante info)) as Hstock.
  { unfold Navegacion.stock_talla. simpl. by rewrite Hinfo. }
  set (s3 := con_estado en_confirmar_articulo (con_talla (Some (m_Talla info)) s2)).
  assert (Pantalla.articulo_info df s3 = Some info) as Hart by exact Hinfo.
  exists i, j.
  assert (∀ w0, CR_Control w0 = Some df →
                CR_Control (anotar LeerMaestro w0) = Some df) as Hanotar by done.
  unfold Navegacion.correr.
  (* "Generar Nueva Compra" *)
  rewrite (main_pantalla env _ _ w df Hdf) by done.
  cbn [fst snd].
  change (Navegacion.pantalla df Navegacion.ev_generar_nueva_compra
            Navegacion.sesion_inicial)
    with (con_estado en_seleccionar_producto Navegacion.sesion_inicial).
  (* the product *)
  rewrite (main_pantalla env _ _ _ df (Hanotar _ Hdf)) by done.
  cbn [fst snd].
  assert (Navegacion.pantalla df (Navegacion.ev_producto i)
            (con_estado en_seleccionar_producto Navegacion.sesion_inicial) = s2)
    as -> by (unfold Navegacion.pantalla; simpl; by rewrite Hi).
  (* the size *)
  rewrite (main_pantalla env _ _ _ df (Hanotar _ (Hanotar _ Hdf))) by done.
  cbn [fst snd].
  rewrite (pantalla_talla_pulsada df s2 j (m_Talla info) (m_Cantidad_sobrante info))
    by (done || lia).
  fold s3.
  (* the quantity *)
  rewrite (main_pantalla env _ _ _ df (Hanotar _ (Hanotar _ (Hanotar _ Hdf))))
    by done.
  cbn [fst snd]. split; [|done].
  unfold Navegacion.pantalla.
  change (estado s3) with en_confirmar_articulo. cbv iota.
  rewrite Hart, bool_decide_eq_true_2 by lia.
  rewrite (agregar_articulo_casos _ _ _ _ Hart), bool_decide_eq_true_2 by lia.
  by rewrite number_input_dentro.
Qed.

Lemma every_row_in_stock_can_be_added_witness :
  (1 ≤ 3 ≤ m_Cantidad_sobrante Muestra.camisa_L)%Z
  ∧ ∃ i j,
      (Navegacion.correr
         [(Recorrido.hoy, Navegacion.ev_generar_nueva_compra);
          (Recorrido.hoy, Navegacion.ev_producto i);
          (Recorrido.hoy, Navegacion.ev_talla j);
          (Recorrido.hoy, Navegacion.ev_agregar 3)]
         Navegacion.sesion_inicial Recorrido.mundo).1
      = {| estado := en_carrito;
           carrito := [Pantalla.nuevo_articulo Muestra.camisa_L 3];
           producto_seleccionado := Some (Texto "Camisa");
           talla_seleccionada := Some (Texto "L");
           mostrar_dashboard := false |}.
Proof.
  assert (1 ≤ 3 ≤ m_Cantidad_sobrante Muestra.camisa_L)%Z as Hq
    by (vm_compute; split; discriminate).
  assert (∀ fila, fila ∈ [Muestra.camisa_M; Muestra.camisa_L] →
                  m_Producto fila = m_Producto Muestra.camisa_L →
                  m_Talla fila ≠ NaN) as Hsin.
  { intros fila Hin _.
    repeat (apply elem_of_cons in Hin as [->|Hin]; [discriminate|]).
    by apply elem_of_nil in Hin. }
  split; [exact Hq|].
  destruct (every_row_in_stock_can_be_added Recorrido.hoy Recorrido.mundo
              [Muestra.camisa_M; Muestra.camisa_L] Muestra.camisa_L 3
              eq_refl eq_refl Hsin Hq) as (i & j & Hs & _).
  exists i, j. exact Hs.
Defined.


(** X17 — Without the master workbook no button acts, the sidebar
    included, and while the dashboard is shown only the two buttons of the
    sidebar act: the session, the master table and the directory stay as
    they were. *)
Theorem nothing_acts_without_table_or_under_dashboard env ev s w :
  CR_Control w = None
  ∨ (mostrar_dashboard s = true
     ∧ ev ≠ Navegacion.ev_sistema_de_ventas ∧ ev ≠ Navegacion.ev_dashboard) →
  (Navegacion.main env ev s w).1 = s
  ∧ CR_Control (Navegacion.main env ev s w).2 = CR_Control w
  ∧ directorio (Navegacion.main env ev s w).2 = directorio w.
Proof.
  intros Hcaso.
  unfold Navegacion.main, confirmar_y_guardar, cargar_archivo_maestro,
    read_excel_maestro. simpl.
  destruct Hcaso as [Hnone | (Hd & H1 & H2)].
  - rewrite Hnone. destruct ev, (mostrar_dashboard s); simpl; by rewrite ?Hnone.
  - rewrite Hd. destruct ev; try done;
      destruct (CR_Control w) eqn:Hw; simpl; by rewrite ?Hw.
Qed.

Lemma nothing_acts_without_table_or_under_dashboard_witness :
  CR_Control {| CR_Control := None; directorio := ∅; bitacora := [] |} = None
  ∧ (Navegacion.main Recorrido.hoy Navegacion.ev_sistema_de_ventas
       (Muestra.sesion en_carrito Muestra.carro_3)
       {| CR_Control := None; directorio := ∅; bitacora := [] |}).1
    = Muestra.sesion en_carrito Muestra.carro_3.
Proof.
  split; [reflexivity|].
  exact (proj1 (nothing_acts_without_table_or_under_dashboard Recorrido.hoy
                  Navegacion.ev_sistema_de_ventas
                  (Muestra.sesion en_carrito Muestra.carro_3)
                  {| CR_Control := None; directorio := ∅; bitacora := [] |}
                  (or_introl eq_refl))).
Defined.


(** ** Blank cells *)


